(** * mush-audit: source resolution and analysis orchestration

    A shallow embedding of
      - [src/app/api/source/route.ts]  (explorer client, source normaliser,
        proxy resolver, ABI fetcher: the [GET] handler),
      - [src/utils/neversight-models.ts] (the model registry),
      - [src/utils/ai.ts] ([analyzeWithAI]),
    followed by the properties of the specification that concern them.

    Conventions of the embedding.
      - A JavaScript string is a sequence of UTF-16 code units.  A Rocq
        [string] stands for such a sequence, one [ascii] per code unit, which
        covers the code units below 256.  Every pattern the code matches
        against is ASCII.
      - A JSON document is a value of [json].  A number is a double that
        holds an integer, or an infinity ([number]); fractions are not
        covered.  The list under [JObj] holds the own properties of the
        object in enumeration order, without duplicate keys.
      - [undefined] is [None] in an [option json].
      - A computation that may throw returns a [result]: a property read on
        [null], a method that a value does not have, and the conversion to a
        string of a value that has none ([js_String]).  Network access goes
        through an oracle and is logged in the state of the monad [M]. *)

From Stdlib Require Import String Ascii List ZArith Bool Lia DecimalString.
Import ListNotations.
Local Open Scope string_scope.

(* ===================================================================== *)
(** * JavaScript strings *)
(* ===================================================================== *)

(** [s.startsWith(p)] *)
Fixpoint startsWith (s p : string) : bool :=
  match p, s with
  | EmptyString, _ => true
  | String _ _, EmptyString => false
  | String a p', String b s' => Ascii.eqb a b && startsWith s' p'
  end.

(** [s.includes(p)] *)
Fixpoint includes (s p : string) : bool :=
  startsWith s p ||
  match s with
  | EmptyString => false
  | String _ s' => includes s' p
  end.

(** [s.endsWith(p)]; [stripSuffix p s] is the part of [s] before a final [p]. *)
Fixpoint stripSuffix (p s : string) : option string :=
  if String.eqb s p then Some EmptyString
  else match s with
       | EmptyString => None
       | String c s' =>
           match stripSuffix p s' with
           | Some r => Some (String c r)
           | None => None
           end
       end.

Definition endsWith (s p : string) : bool :=
  match stripSuffix p s with Some _ => true | None => false end.

(** [s.substring(a, b)]: the arguments are clamped to the length and swapped
    when [a > b]. *)
Definition js_substring (s : string) (a b : nat) : string :=
  let a' := Nat.min a (String.length s) in
  let b' := Nat.min b (String.length s) in
  String.substring (Nat.min a' b') (Nat.max a' b' - Nat.min a' b') s.

(** The last element of [s.split(sep)] for a one-character separator:
    the text after the last separator. *)
Fixpoint lastSegment (sep : ascii) (s : string) : string :=
  match s with
  | EmptyString => EmptyString
  | String c s' =>
      if Ascii.eqb c sep then lastSegment sep s'
      else if includes s' (String sep EmptyString) then lastSegment sep s'
      else s
  end.

(** [c.toLowerCase()] on one code unit below 256: A-Z, and the Latin-1
    capitals except the multiplication sign. *)
Definition lowerChar (c : ascii) : ascii :=
  let n := nat_of_ascii c in
  if (((65 <=? n) && (n <=? 90)) ||
      ((192 <=? n) && (n <=? 222) && negb (n =? 215)))%nat
  then ascii_of_nat (n + 32) else c.

Fixpoint toLowerCase (s : string) : string :=
  match s with
  | EmptyString => EmptyString
  | String c s' => String (lowerChar c) (toLowerCase s')
  end.

(** White space and line terminators below 256: TAB, LF, VT, FF, CR, SP and
    NBSP. *)
Definition isWhiteSpace (c : ascii) : bool :=
  let n := nat_of_ascii c in
  (((9 <=? n) && (n <=? 13)) || (n =? 32) || (n =? 160))%nat.

Fixpoint trimStart (s : string) : string :=
  match s with
  | EmptyString => EmptyString
  | String c s' => if isWhiteSpace c then trimStart s' else s
  end.

Fixpoint trimEnd (s : string) : string :=
  match s with
  | EmptyString => EmptyString
  | String c s' =>
      match trimEnd s' with
      | EmptyString => if isWhiteSpace c then EmptyString else String c EmptyString
      | r => String c r
      end
  end.

(** [s.trim()] *)
Definition trim (s : string) : string := trimEnd (trimStart s).

(* ===================================================================== *)
(** * route.ts: [toV2BaseUrl] *)
(* ===================================================================== *)

(** [v1Url.replace(/\/api\/?$/, '/v2/api')]: the pattern is anchored at the
    end of the input, so it matches a final [/api/] or a final [/api]; a
    string has at most one of the two endings. *)
Definition replaceApiSuffix (v1Url : string) : string :=
  match stripSuffix "/api/" v1Url with
  | Some pre => pre ++ "/v2/api"
  | None =>
      match stripSuffix "/api" v1Url with
      | Some pre => pre ++ "/v2/api"
      | None => v1Url
      end
  end.

Definition toV2BaseUrl (v1Url : string) : string :=
  if includes v1Url "/v2/" then v1Url else replaceApiSuffix v1Url.

(* ===================================================================== *)
(** * JSON values and the JavaScript operations the code applies to them *)
(* ===================================================================== *)

(** A JavaScript number: [NaN], an infinity, or a double that holds an
    integer.  [Finite n] is the double nearest to [n], which is [n] itself
    when [n] has at most 53 significant bits. *)
Inductive number : Type :=
| NaN
| Infinity (negative : bool)
| Finite (n : Z).

(** The number value of the integer [n]: the nearest double, the even one
    of two that are equally near, and an infinity from 2^1024 - 2^970 on. *)
Definition toDouble (n : Z) : number :=
  let a := Z.abs n in
  let shift := (Z.log2 a - 52)%Z in
  let r :=
    if (shift <=? 0)%Z then a
    else
      let q := Z.shiftr a shift in
      let rest := (a - Z.shiftl q shift)%Z in
      let half := Z.shiftl 1 (shift - 1) in
      Z.shiftl (if (half <? rest)%Z || ((rest =? half)%Z && Z.odd q)
                then q + 1 else q)%Z shift in
  if (2 ^ 1024 <=? r)%Z then Infinity (n <? 0)%Z
  else Finite (if (n <? 0)%Z then - r else r)%Z.

#[warnings="-register-all"]
Inductive json : Type :=
| JNull
| JBool (b : bool)
| JNum (x : number)
| JStr (s : string)
| JArr (items : list json)
| JObj (fields : list (string * json)).

(** A thrown exception carries the message of the JavaScript [Error]. *)
Inductive result (A : Type) : Type :=
| Ok (a : A)
| Throw (message : string).
Arguments Ok {A} a.
Arguments Throw {A} message.

Definition TypeError {A : Type} : result A := Throw "TypeError".

Definition rbind {A B : Type} (r : result A) (k : A -> result B) : result B :=
  match r with
  | Ok a => k a
  | Throw e => Throw e
  end.

Definition rmap {A B : Type} (f : A -> B) (r : result A) : result B :=
  rbind r (fun a => Ok (f a)).

(** Truthiness ([if (v)], [v || d], [v && w]); [None] is [undefined]. *)
Definition truthy (v : json) : bool :=
  match v with
  | JNull => false
  | JBool b => b
  | JNum NaN => false
  | JNum (Infinity _) => true
  | JNum (Finite n) => negb (n =? 0)%Z
  | JStr s => negb (String.eqb s EmptyString)
  | JArr _ | JObj _ => true
  end.

Definition truthyOpt (v : option json) : bool :=
  match v with
  | Some v => truthy v
  | None => false
  end.

(** The decimal digits of an integer: [String(n)] for an integer below
    2^53 in absolute value. *)
Definition stringOfZ (n : Z) : string :=
  match n with
  | Z0 => "0"
  | Zpos p => NilEmpty.string_of_uint (Pos.to_uint p)
  | Zneg p => "-" ++ NilEmpty.string_of_uint (Pos.to_uint p)
  end.

(** [Number::toString] writes the shortest decimal that reads back as the
    same double, [s] of [k] digits times a power of ten: with zeros after
    the digits up to 21 places, in exponent notation beyond.
    [candidates x k] are the pairs [(s, n)] with [s] of [k] digits and
    [s * 10^(n-k)] of number value [x]; the one nearest to [x] is taken, the
    even one of two that are equally near. *)
Definition decimalLength (a : Z) : Z := Z.of_nat (String.length (stringOfZ a)).

Definition hasNumberValue (x v : Z) : bool :=
  match toDouble v with
  | Finite m => (m =? x)%Z
  | _ => false
  end.

Definition candidates (x k : Z) : list (Z * Z) :=
  flat_map
    (fun n =>
       let scale := (10 ^ (n - k))%Z in
       filter (fun c => (10 ^ (k - 1) <=? fst c)%Z && (fst c <? 10 ^ k)%Z &&
                        hasNumberValue x (fst c * scale))
              [((x / scale)%Z, n); ((x / scale + 1)%Z, n)])
    [decimalLength x; (decimalLength x + 1)%Z].

Definition distance (x k : Z) (c : Z * Z) : Z :=
  Z.abs (fst c * 10 ^ (snd c - k) - x).

Definition nearer (x k : Z) (c d : Z * Z) : Z * Z :=
  if (distance x k d <? distance x k c)%Z ||
     ((distance x k d =? distance x k c)%Z && Z.even (fst d))
  then d else c.

Fixpoint shortestDigits (fuel : nat) (x k : Z) : Z * Z :=
  match fuel with
  | O => (x, decimalLength x)
  | S fuel' =>
      match candidates x k with
      | c :: rest => fold_left (nearer x k) rest c
      | [] => shortestDigits fuel' x (k + 1)
      end
  end.

Fixpoint zeros (n : nat) : string :=
  match n with
  | O => EmptyString
  | S n' => String "0" (zeros n')
  end.

(** An integer from 2^53 on; seventeen digits identify a double. *)
Definition shortestDecimal (x : Z) : string :=
  let '(s, n) := shortestDigits 17 x 1 in
  if (n <=? 21)%Z then stringOfZ s ++ zeros (Z.to_nat (n - decimalLength s))
  else
    match stringOfZ s with
    | String d EmptyString => String d ("e+" ++ stringOfZ (n - 1))
    | String d rest => String d ("." ++ rest ++ "e+" ++ stringOfZ (n - 1))
    | EmptyString => EmptyString
    end.

(** [String(x)] for a number. *)
Definition numberToString (x : number) : string :=
  match match x with Finite n => toDouble n | _ => x end with
  | NaN => "NaN"
  | Infinity false => "Infinity"
  | Infinity true => "-Infinity"
  | Finite m =>
      (if (m <? 0)%Z then "-" else EmptyString) ++
      (if (Z.abs m <? 2 ^ 53)%Z then stringOfZ (Z.abs m)
       else shortestDecimal (Z.abs m))
  end.

Fixpoint lookup (k : string) (fields : list (string * json)) : option json :=
  match fields with
  | [] => None
  | (k', v) :: rest => if String.eqb k k' then Some v else lookup k rest
  end.

(** [String(v)] and the conversion made by a template literal.  An array is
    joined with commas, [null] elements giving the empty string.  An object
    is converted by its [toString]: the inherited one gives
    [[object Object]], and an own property of that name, which is no
    function in a JSON document, makes the conversion throw a [TypeError]. *)
Fixpoint js_String (v : json) : result string :=
  match v with
  | JNull => Ok "null"
  | JBool true => Ok "true"
  | JBool false => Ok "false"
  | JNum x => Ok (numberToString x)
  | JStr s => Ok s
  | JArr items =>
      (fix join (l : list json) : result string :=
         match l with
         | [] => Ok EmptyString
         | [x] => match x with JNull => Ok EmptyString | _ => js_String x end
         | x :: rest =>
             rbind (match x with JNull => Ok EmptyString | _ => js_String x end)
                   (fun first =>
             rbind (join rest) (fun others => Ok (first ++ "," ++ others)))
         end) items
  | JObj fields =>
      match lookup "toString" fields with
      | Some _ => TypeError
      | None => Ok "[object Object]"
      end
  end.

Definition js_StringOpt (v : option json) : result string :=
  match v with
  | Some v => js_String v
  | None => Ok "undefined"
  end.

(** [v || ''] followed by [String( )]. *)
Definition stringOrEmpty (v : option json) : result string :=
  if truthyOpt v then js_StringOpt v else Ok EmptyString.

Definition isDigit (c : ascii) : bool :=
  let n := nat_of_ascii c in ((48 <=? n) && (n <=? 57))%nat.

Fixpoint digitsValue (acc : Z) (s : string) : option Z :=
  match s with
  | EmptyString => Some acc
  | String c s' =>
      if isDigit c
      then digitsValue (10 * acc + (Z.of_nat (nat_of_ascii c) - 48))%Z s'
      else None
  end.

(** A canonical array index: ["0"], or digits without a leading zero. *)
Definition parseIndex (k : string) : option Z :=
  match k with
  | EmptyString => None
  | String "0" EmptyString => Some 0%Z
  | String "0" _ => None
  | _ => digitsValue 0 k
  end.

Definition nthZ {A : Type} (l : list A) (i : Z) : option A :=
  if (i <? Z.of_nat (List.length l))%Z then nth_error l (Z.to_nat i) else None.

(** [v.k] (or [v[k]]) on a value other than [null] and [undefined], for the
    property names the code reads; none of them is inherited from a
    prototype.  A primitive has no such property. *)
Definition getProp (v : json) (k : string) : option json :=
  match v with
  | JObj fields => lookup k fields
  | JArr items =>
      match parseIndex k with
      | Some i => nthZ items i
      | None =>
          if String.eqb k "length"
          then Some (JNum (Finite (Z.of_nat (List.length items))))
          else None
      end
  | JStr s =>
      match parseIndex k with
      | Some i =>
          match nthZ (list_ascii_of_string s) i with
          | Some c => Some (JStr (String c EmptyString))
          | None => None
          end
      | None =>
          if String.eqb k "length"
          then Some (JNum (Finite (Z.of_nat (String.length s))))
          else None
      end
  | JNull | JBool _ | JNum _ => None
  end.

(** [v.k]: a [TypeError] on [null]. *)
Definition prop (v : json) (k : string) : result (option json) :=
  match v with
  | JNull => TypeError
  | _ => Ok (getProp v k)
  end.

(** [v.k] where [v] may also be [undefined]. *)
Definition propOpt (v : option json) (k : string) : result (option json) :=
  match v with
  | Some v => prop v k
  | None => TypeError
  end.

(** [v?.k] *)
Definition optChain (v : option json) (k : string) : option json :=
  match v with
  | Some JNull | None => None
  | Some v => getProp v k
  end.

Fixpoint indexed {A B : Type} (f : A -> B) (i : nat) (l : list A)
  : list (string * B) :=
  match l with
  | [] => []
  | x :: rest => (stringOfZ (Z.of_nat i), f x) :: indexed f (S i) rest
  end.

(** The own enumerable properties of a value: the fields of an object, the
    indices of an array or of a string, nothing for the other primitives. *)
Definition ownEntries (v : json) : list (string * json) :=
  match v with
  | JObj fields => fields
  | JArr items => indexed (fun x => x) 0 items
  | JStr s => indexed (fun c => JStr (String c EmptyString)) 0 (list_ascii_of_string s)
  | JNull | JBool _ | JNum _ => []
  end.

(** [Object.entries(v)]: a [TypeError] on [null]. *)
Definition objectEntries (v : json) : result (list (string * json)) :=
  match v with
  | JNull => TypeError
  | _ => Ok (ownEntries v)
  end.

Definition objectEntriesOpt (v : option json) : result (list (string * json)) :=
  match v with
  | Some v => objectEntries v
  | None => TypeError
  end.

(** [parseInt(s)] without a radix: leading white space, a sign, an optional
    [0x] prefix, then the longest run of digits: [NaN] without a digit, and
    otherwise the number value of the integer that the digits write (the
    standard lets an implementation round a decimal run after its twentieth
    digit; the engines round the whole run). *)
Definition digitOf (radix : Z) (c : ascii) : option Z :=
  let n := Z.of_nat (nat_of_ascii c) in
  let d :=
    if ((48 <=? n) && (n <=? 57))%Z then Some (n - 48)%Z
    else if ((97 <=? n) && (n <=? 122))%Z then Some (n - 87)%Z
    else if ((65 <=? n) && (n <=? 90))%Z then Some (n - 55)%Z
    else None in
  match d with
  | Some d => if (d <? radix)%Z then Some d else None
  | None => None
  end.

Fixpoint parseDigits (radix : Z) (acc : option Z) (s : string) : option Z :=
  match s with
  | EmptyString => acc
  | String c s' =>
      match digitOf radix c with
      | Some d =>
          parseDigits radix
            (Some (radix * match acc with Some a => a | None => 0 end + d)%Z) s'
      | None => acc
      end
  end.

Definition parseInt (s : string) : number :=
  let s := trimStart s in
  let '(sign, s) :=
    match s with
    | String "-" s' => ((-1)%Z, s')
    | String "+" s' => (1%Z, s')
    | _ => (1%Z, s)
    end in
  let '(radix, s) :=
    match s with
    | String "0" (String "x" s') => (16%Z, s')
    | String "0" (String "X" s') => (16%Z, s')
    | _ => (10%Z, s)
    end in
  match parseDigits radix None s with
  | Some n => toDouble (sign * n)
  | None => NaN
  end.

(** [v === s] for a string literal [s]. *)
Definition strictEqStr (v : option json) (s : string) : bool :=
  match v with
  | Some (JStr t) => String.eqb t s
  | _ => false
  end.

(** [typeof v === 'object'] *)
Definition isObjectType (v : json) : bool :=
  match v with
  | JNull | JArr _ | JObj _ => true
  | _ => false
  end.

(* ===================================================================== *)
(** * A reference [JSON.parse] *)
(* ===================================================================== *)

(** The handler is stated over any [JSON.parse] (a variable of the section
    below).  [parseJson] is a parser of the JSON grammar that is used to run
    the handler on concrete payloads: it accepts the JSON texts whose numbers
    are integer literals and whose [u] escapes are below 256, and builds
    objects the way [JSON.parse] does (a repeated key keeps its first
    position and its last value; array-index keys are enumerated first, in
    ascending order). *)

Definition isJsonSpace (c : ascii) : bool :=
  let n := nat_of_ascii c in
  ((n =? 32) || (n =? 9) || (n =? 10) || (n =? 13))%nat.

Fixpoint skipSpace (s : string) : string :=
  match s with
  | EmptyString => EmptyString
  | String c s' => if isJsonSpace c then skipSpace s' else s
  end.

Definition hexByte (a b c d : ascii) : option ascii :=
  match digitOf 16 a, digitOf 16 b, digitOf 16 c, digitOf 16 d with
  | Some 0%Z, Some 0%Z, Some x, Some y => Some (ascii_of_nat (Z.to_nat (16 * x + y)))
  | _, _, _, _ => None
  end.

Definition doubleQuote : ascii := ascii_of_nat 34.

Definition backslash : ascii := ascii_of_nat 92.

Definition unescape (e : ascii) : option ascii :=
  if Ascii.eqb e doubleQuote then Some doubleQuote
  else if Ascii.eqb e backslash then Some backslash
  else match e with
       | "/"%char => Some "/"%char
       | "b"%char => Some (ascii_of_nat 8)
       | "f"%char => Some (ascii_of_nat 12)
       | "n"%char => Some (ascii_of_nat 10)
       | "r"%char => Some (ascii_of_nat 13)
       | "t"%char => Some (ascii_of_nat 9)
       | _ => None
       end.

(** The characters of a string literal after its opening quote, and the
    text after its closing quote. *)
Fixpoint parseStringBody (s : string) : option (string * string) :=
  let cons (c : ascii) (r : option (string * string)) :=
    match r with
    | Some (body, rest) => Some (String c body, rest)
    | None => None
    end in
  match s with
  | EmptyString => None
  | String c s1 =>
      if Ascii.eqb c doubleQuote then Some (EmptyString, s1)
      else if Ascii.eqb c backslash then
        match s1 with
        | String "u" (String h1 (String h2 (String h3 (String h4 s6)))) =>
            match hexByte h1 h2 h3 h4 with
            | Some c' => cons c' (parseStringBody s6)
            | None => None
            end
        | String e s2 =>
            match unescape e with
            | Some c' => cons c' (parseStringBody s2)
            | None => None
            end
        | EmptyString => None
        end
      else if (nat_of_ascii c <? 32)%nat then None
      else cons c (parseStringBody s1)
  end.

Fixpoint spanDigits (s : string) : string * string :=
  match s with
  | EmptyString => (EmptyString, EmptyString)
  | String c s' =>
      if isDigit c
      then let '(ds, rest) := spanDigits s' in (String c ds, rest)
      else (EmptyString, s)
  end.

(** An integer literal: an optional minus sign, then a zero or a run of
    digits that does not start with a zero; not followed by a fraction or an
    exponent. *)
Definition parseNumber (s : string) : option (Z * string) :=
  let '(negative, s1) :=
    match s with
    | String "-" s' => (true, s')
    | _ => (false, s)
    end in
  let '(ds, rest) :=
    match s1 with
    | String "0" s' => ("0", s')
    | _ => spanDigits s1
    end in
  match digitsValue 0 ds, ds, rest with
  | _, EmptyString, _ => None
  | _, _, String "." _ => None
  | _, _, String "e" _ => None
  | _, _, String "E" _ => None
  | Some n, _, _ => Some (if negative then (- n)%Z else n, rest)
  | None, _, _ => None
  end.

(** [CreateDataProperty]: a key that exists keeps its position. *)
Fixpoint defineProperty (k : string) (v : json) (fields : list (string * json))
  : list (string * json) :=
  match fields with
  | [] => [(k, v)]
  | (k', v') :: rest =>
      if String.eqb k' k then (k, v) :: rest
      else (k', v') :: defineProperty k v rest
  end.

Definition arrayIndex (k : string) : option Z :=
  match parseIndex k with
  | Some i => if (i <? 4294967295)%Z then Some i else None
  | None => None
  end.

Fixpoint insertIndexed (i : Z) (kv : string * json)
         (l : list (Z * (string * json))) : list (Z * (string * json)) :=
  match l with
  | [] => [(i, kv)]
  | (j, kv') :: rest =>
      if (i <? j)%Z then (i, kv) :: l else (j, kv') :: insertIndexed i kv rest
  end.

(** The order of [Object.entries]: array-index keys in ascending order, then
    the other keys in creation order. *)
Definition ownPropertyOrder (fields : list (string * json)) : list (string * json) :=
  let indexedKeys :=
    fold_left
      (fun acc kv =>
         match arrayIndex (fst kv) with
         | Some i => insertIndexed i kv acc
         | None => acc
         end) fields [] in
  let others :=
    filter (fun kv => match arrayIndex (fst kv) with Some _ => false | None => true end)
           fields in
  (map snd indexedKeys ++ others)%list.

Fixpoint stripPrefix (p s : string) : option string :=
  match p, s with
  | EmptyString, _ => Some s
  | String _ _, EmptyString => None
  | String a p', String b s' => if Ascii.eqb a b then stripPrefix p' s' else None
  end.

Fixpoint parseValue (fuel : nat) (s : string) : option (json * string) :=
  match fuel with
  | O => None
  | S fuel' =>
      match skipSpace s with
      | EmptyString => None
      | String c r as s1 =>
          if Ascii.eqb c "{" then
            match skipSpace r with
            | String "}" r' => Some (JObj [], r')
            | r1 => parseMembers fuel' r1 []
            end
          else if Ascii.eqb c "[" then
            match skipSpace r with
            | String "]" r' => Some (JArr [], r')
            | r1 => parseElements fuel' r1 []
            end
          else if Ascii.eqb c doubleQuote then
            match parseStringBody r with
            | Some (body, r') => Some (JStr body, r')
            | None => None
            end
          else
            match stripPrefix "true" s1, stripPrefix "false" s1, stripPrefix "null" s1 with
            | Some r', _, _ => Some (JBool true, r')
            | _, Some r', _ => Some (JBool false, r')
            | _, _, Some r' => Some (JNull, r')
            | None, None, None =>
                match parseNumber s1 with
                | Some (n, r') => Some (JNum (toDouble n), r')
                | None => None
                end
            end
      end
  end
with parseMembers (fuel : nat) (s : string) (acc : list (string * json))
  : option (json * string) :=
  match fuel with
  | O => None
  | S fuel' =>
      match skipSpace s with
      | EmptyString => None
      | String c r =>
          if Ascii.eqb c doubleQuote then
            match parseStringBody r with
            | Some (k, r1) =>
                match skipSpace r1 with
                | String ":" r2 =>
                    match parseValue fuel' r2 with
                    | Some (v, r3) =>
                        match skipSpace r3 with
                        | String "," r4 =>
                            parseMembers fuel' r4 (defineProperty k v acc)
                        | String "}" r4 =>
                            Some (JObj (ownPropertyOrder (defineProperty k v acc)), r4)
                        | _ => None
                        end
                    | None => None
                    end
                | _ => None
                end
            | None => None
            end
          else None
      end
  end
with parseElements (fuel : nat) (s : string) (acc : list json)
  : option (json * string) :=
  match fuel with
  | O => None
  | S fuel' =>
      match parseValue fuel' s with
      | Some (v, r) =>
          match skipSpace r with
          | String "," r' => parseElements fuel' r' (acc ++ [v])%list
          | String "]" r' => Some (JArr (acc ++ [v])%list, r')
          | _ => None
          end
      | None => None
      end
  end.

(** Payloads are written with an apostrophe for each double quote. *)
Fixpoint jsonText (s : string) : string :=
  match s with
  | EmptyString => EmptyString
  | String c s' =>
      String (if Ascii.eqb c "'" then doubleQuote else c) (jsonText s')
  end.

Definition parseJson (text : string) : option json :=
  match parseValue (S (String.length text)) text with
  | Some (v, rest) =>
      match skipSpace rest with
      | EmptyString => Some v
      | _ => None
      end
  | None => None
  end.

(* ===================================================================== *)
(** * Computations with a network: the monad [M] *)
(* ===================================================================== *)

(** A computation reads and extends the log of the requests issued so far
    (type [R]) and returns a value or throws. *)
Definition M (R A : Type) : Type := list R -> list R * result A.

Definition ret {R A : Type} (a : A) : M R A := fun log => (log, Ok a).

Definition throw {R A : Type} (e : string) : M R A := fun log => (log, Throw e).

Definition bind {R A B : Type} (m : M R A) (k : A -> M R B) : M R B :=
  fun log =>
    match m log with
    | (log', Ok a) => k a log'
    | (log', Throw e) => (log', Throw e)
    end.

Definition lift {R A : Type} (r : result A) : M R A := fun log => (log, r).

(** [try { m } catch (e) { h e }] *)
Definition tryCatch {R A : Type} (m : M R A) (h : string -> M R A) : M R A :=
  fun log =>
    match m log with
    | (log', Ok a) => (log', Ok a)
    | (log', Throw e) => h e log'
    end.

(** [await fetch(req)] together with the decoding of the body: the oracle
    sees the requests issued before. *)
Definition fetchWith {R A : Type} (oracle : list R -> R -> result A) (req : R)
  : M R A :=
  fun log => ((log ++ [req])%list, oracle log req).

(** Every request that [m] issues satisfies [P]. *)
Definition issuesOnly {R A : Type} (P : R -> Prop) (m : M R A) : Prop :=
  forall log, exists new, fst (m log) = (log ++ new)%list /\ Forall P new.

Declare Scope m_scope.
Delimit Scope m_scope with m.
Notation "x <- m ;; k" := (bind m (fun x => k))
  (at level 61, m at next level, right associativity) : m_scope.
Notation "' pat <- m ;; k" := (bind m (fun x => match x with pat => k end))
  (at level 61, pat pattern, m at next level, right associativity) : m_scope.

(* ===================================================================== *)
(** * route.ts *)
(* ===================================================================== *)

(** [type ContractFile] *)
Record ContractFile : Type := mkFile {
  name : string;
  path : string;
  content : string
}.

(** An explorer request [`${baseUrl}?${p.toString()}`]: the base URL and the
    query parameters in order. *)
Record Request : Type := mkRequest {
  baseUrl : string;
  query : list (string * string)
}.

Definition removeKey (k : string) (p : list (string * string))
  : list (string * string) :=
  filter (fun kv => negb (String.eqb (fst kv) k)) p.

(** [p.set(k, v)] on a [URLSearchParams]: the first pair named [k] gets the
    value and the others named [k] are removed; without one the pair is
    appended. *)
Fixpoint paramsSet (k v : string) (p : list (string * string))
  : list (string * string) :=
  match p with
  | [] => [(k, v)]
  | (k', v') :: rest =>
      if String.eqb k' k then (k, v) :: removeKey k rest
      else (k', v') :: paramsSet k v rest
  end.

Fixpoint paramsGet (k : string) (p : list (string * string)) : option string :=
  match p with
  | [] => None
  | (k', v) :: rest => if String.eqb k' k then Some v else paramsGet k rest
  end.

(** The two [String( )] of line 27 throw on a value that does not convert. *)
Definition isDeprecatedV1Error (data : json) : result bool :=
  rbind (stringOrEmpty (optChain (Some data) "result")) (fun result =>
  rbind (stringOrEmpty (optChain (Some data) "message")) (fun message =>
  let msg := toLowerCase (result ++ " " ++ message) in
  Ok (includes msg "deprecated" && includes msg "v1"))).

(** Line 85: [json?.status === '0' && isDeprecatedV1Error(json)]. *)
Definition v1Deprecated (json : json) : result bool :=
  if strictEqStr (optChain (Some json) "status") "0"
  then isDeprecatedV1Error json
  else Ok false.

Definition extractSourceContent (fileInfo : json) : string :=
  match fileInfo with
  | JStr s => s
  | JObj fields =>
      match lookup "content" fields with
      | Some (JStr c) => c
      | _ => EmptyString
      end
  | _ => EmptyString
  end.

Definition getResultArray (data : json) : list json :=
  match getProp data "result" with
  | Some (JArr items) => items
  | _ => []
  end.

Definition getFirstSourceItem (data : json) : option json :=
  match nth_error (getResultArray data) 0 with
  | Some first => if truthy first && isObjectType first then Some first else None
  | None => None
  end.

Definition placeholderApiKey : string := "YourApiKeyToken".

Definition zeroAddress : string := "0x0000000000000000000000000000000000000000".

(** [apiKey || 'YourApiKeyToken'] *)
Definition effectiveApiKey (apiKey : option string) : string :=
  match apiKey with
  | Some k => if String.eqb k EmptyString then placeholderApiKey else k
  | None => placeholderApiKey
  end.

(** [new URLSearchParams({module: 'contract', action, address})] followed by
    [set('apikey', key)]. *)
Definition contractParams (action address key : string) : list (string * string) :=
  paramsSet "apikey" key
    [("module", "contract"); ("action", action); ("address", address)].

(** [path.split('/').pop() || path] *)
Definition fileName (p : string) : string :=
  let seg := lastSegment "/" p in
  if String.eqb seg EmptyString then p else seg.

(** The file pushed for one entry of a sources map, under a role prefix. *)
Definition fileOfEntry (prefix : string) (entry : string * json) : ContractFile :=
  {| name := fileName (fst entry);
     path := prefix ++ fst entry;
     content := extractSourceContent (snd entry) |}.

(** The single file [`${result.ContractName}.sol`] holding the raw source;
    the template literal throws when the name does not convert. *)
Definition singleFile (prefix : string) (item : json) (sourceCode : string)
  : result ContractFile :=
  rbind (js_StringOpt (getProp item "ContractName")) (fun contractName =>
  Ok {| name := contractName ++ ".sol";
        path := prefix ++ contractName ++ ".sol";
        content := sourceCode |}).

(** Lines 209-215: the implementation address, [null] when the reported
    field is not a string, is empty or is the zero address. *)
Definition normalizedImplementation (item : json) : option string :=
  let implementationRaw :=
    match getProp item "Implementation" with
    | Some (JStr s) => s
    | _ => EmptyString
    end in
  if negb (String.eqb implementationRaw EmptyString) &&
     negb (String.eqb implementationRaw zeroAddress)
  then Some implementationRaw else None.

Definition isProxy (item : json) : bool :=
  match normalizedImplementation item with
  | Some _ => true
  | None => false
  end.

(** [parseInt(result.Runs) || 200]: 200 for [NaN] and for zero; [parseInt]
    converts its argument to a string first, which may throw. *)
Definition defaultRuns (item : json) : result number :=
  rbind (js_StringOpt (getProp item "Runs")) (fun text =>
  Ok match parseInt text with
     | NaN | Finite Z0 => Finite 200
     | runs => runs
     end).

(** Lines 184-205: the default [settings.json]. *)
Definition defaultSettings (item : json) : result json :=
  rbind (defaultRuns item) (fun runs =>
  Ok (JObj
    [("remappings", JArr []);
     ("optimizer",
      JObj
        [("enabled", JBool (strictEqStr (getProp item "OptimizationUsed") "1"));
         ("runs", JNum runs)]);
     ("metadata", JObj [("bytecodeHash", JStr "none")]);
     ("outputSelection",
      JObj
        [("*",
          JObj
            [("*",
              JArr
                [JStr "evm.bytecode"; JStr "evm.deployedBytecode"; JStr "devdoc";
                 JStr "userdoc"; JStr "metadata"; JStr "abi"])])])])).

(** The body of a resolved response (lines 363-373), as the object handed
    to [NextResponse.json]. *)
Record Bundle : Type := mkBundle {
  files : list ContractFile;
  settings : json;
  contractName : option json;
  compiler : option json;
  optimization : option json;
  runs : option json;
  abi : json;
  implementationAbi : json
}.

Inductive Response : Type :=
| BadRequest                    (* 400, Address and chain are required *)
| NotVerified                   (* 404, Contract source code not verified *)
| Resolved (bundle : Bundle)    (* 200 *)
| ExplorerFailure (status message result : option json) (apiKeyMode : string)
                                (* 502, Failed to fetch contract source *)
| InternalError.                (* 500, Failed to fetch contract source *)

Section Route.

(** [JSON.parse]: [None] is a [SyntaxError]. *)
Variable JSON_parse : string -> option json.

(** [fetch(requestUrl)] followed by [resp.json()]: what the explorer
    answers to a request, given the requests issued before; [Throw] is a
    network error or a body that is not JSON. *)
Variable explorer : list Request -> Request -> result json.

(** [getApiScanConfig] and [getChainId] of [@/utils/chainServices], the
    chain registry: the explorer URL and the optional API key of a chain,
    and its optional chain id. *)
Variable getApiScanConfig : string -> result (string * option string).
Variable getChainId : string -> result (option string).

Local Open Scope m_scope.

Definition parseOrThrow (text : string) : result json :=
  match JSON_parse text with
  | Some v => Ok v
  | None => Throw "SyntaxError"
  end.

(** [SourceCode.substring(1, SourceCode.length - 1)] *)
Definition unwrapBraces (sourceCode : string) : string :=
  js_substring sourceCode 1 (String.length sourceCode - 1).

Section FetchExplorer.

(** The variables [url] and [chainId] captured by the closure. *)
Variable url : string.
Variable chainId : string.

Definition attempt (params : list (string * string)) (base : string)
           (useV2 : bool) : M Request (json * Request) :=
  let p :=
    if useV2 && negb (String.eqb chainId EmptyString)
    then paramsSet "chainid" chainId params
    else params in
  let requestUrl := {| baseUrl := base; query := p |} in
  json <- fetchWith explorer requestUrl ;;
  ret (json, requestUrl).

Definition fetchExplorer (params : list (string * string))
  : M Request (json * Request) :=
  ' (json, requestUrl) <- attempt params url false ;;
  deprecated <- lift (v1Deprecated json) ;;
  if deprecated
  then attempt params (toV2BaseUrl url) true
  else ret (json, requestUrl).

End FetchExplorer.

(** Lines 139-165, the body of the first [try]: the files and the settings
    of a packed multi-file source. *)
Definition parseMultiFile (sourceCode : string)
  : result (list ContractFile * option json) :=
  rbind (parseOrThrow (unwrapBraces sourceCode)) (fun parsed =>
  rbind (prop parsed "settings") (fun parsedSettings =>
  let settings := if truthyOpt parsedSettings then parsedSettings else None in
  rbind (prop parsed "sources") (fun sources =>
  rbind (if truthyOpt sources then objectEntriesOpt sources
         else objectEntries parsed) (fun entries =>
  Ok (map (fileOfEntry EmptyString) entries, settings))))).

(** Lines 133-180: [files] and [settings] after the first pass; the [catch]
    and the [else] push the single file. *)
Definition normalizeSource (item : json) (sourceCode : string)
  : result (list ContractFile * option json) :=
  if startsWith sourceCode "{" then
    match parseMultiFile sourceCode with
    | Ok pass => Ok pass
    | Throw _ =>
        rbind (singleFile EmptyString item sourceCode) (fun file =>
        Ok ([file], None))
    end
  else
    rbind (singleFile EmptyString item sourceCode) (fun file =>
    Ok ([file], None)).

(** Lines 219-247: what the proxy branch pushes on [filteredFiles] for the
    proxy itself, under [proxy/]. *)
Definition proxyFiles (item : json) (sourceCode : string)
  : result (list ContractFile) :=
  if startsWith sourceCode "{" then
    match
      rbind (parseOrThrow (unwrapBraces sourceCode)) (fun parsed =>
      rbind (prop parsed "sources") (fun sources =>
      if truthyOpt sources
      then rbind (objectEntriesOpt sources) (fun entries =>
           Ok (map (fileOfEntry "proxy/") entries))
      else Ok []))
    with
    | Ok pushed => Ok pushed
    | Throw _ =>
        rbind (singleFile "proxy/" item sourceCode) (fun file => Ok [file])
    end
  else rbind (singleFile "proxy/" item sourceCode) (fun file => Ok [file]).

(** Lines 261-289: what it pushes for the implementation, under
    [implementation/]. *)
Definition implementationFiles (implItem : json) (implSource : string)
  : result (list ContractFile) :=
  if startsWith implSource "{" then
    match
      rbind (parseOrThrow (unwrapBraces implSource)) (fun parsed =>
      rbind (prop parsed "sources") (fun sources =>
      if truthyOpt sources
      then rbind (objectEntriesOpt sources) (fun entries =>
           Ok (map (fileOfEntry "implementation/") entries))
      else Ok []))
    with
    | Ok pushed => Ok pushed
    | Throw _ =>
        rbind (singleFile "implementation/" implItem implSource) (fun file =>
        Ok [file])
    end
  else
    rbind (singleFile "implementation/" implItem implSource) (fun file =>
    Ok [file]).

(** Lines 293-321: what the other branch pushes for a contract that is not
    a proxy, without a prefix. *)
Definition plainFiles (item : json) (sourceCode : string)
  : result (list ContractFile) :=
  if startsWith sourceCode "{" then
    match
      rbind (parseOrThrow (unwrapBraces sourceCode)) (fun parsed =>
      rbind (prop parsed "sources") (fun sources =>
      if truthyOpt sources
      then rbind (objectEntriesOpt sources) (fun entries =>
           Ok (map (fileOfEntry EmptyString) entries))
      else Ok []))
    with
    | Ok pushed => Ok pushed
    | Throw _ =>
        rbind (singleFile EmptyString item sourceCode) (fun file => Ok [file])
    end
  else rbind (singleFile EmptyString item sourceCode) (fun file => Ok [file]).

(** [x.SourceCode.startsWith] needs a string. *)
Definition sourceCodeOf (item : json) : result string :=
  match getProp item "SourceCode" with
  | Some (JStr s) => Ok s
  | _ => TypeError
  end.

(** [data.status === '1' ? getFirstSourceItem(data) : null] *)
Definition successItem (data : json) : result (option json) :=
  rbind (prop data "status") (fun status =>
  Ok (if strictEqStr status "1" then getFirstSourceItem data else None)).

(** Lines 336-342 and 354-360: the ABI of an answer, [[]] by default. *)
Definition abiOf (abiData : json) : result json :=
  rbind (prop abiData "status") (fun status =>
  if strictEqStr status "1" then
    rbind (prop abiData "result") (fun r =>
    match r with
    | Some (JStr text) =>
        match JSON_parse text with
        | Some v => Ok v
        | None => Ok (JArr [])
        end
    | _ => Ok (JArr [])
    end)
  else Ok (JArr [])).

(** Lines 217-322: [filteredFiles]. *)
Definition resolveFiles (url chainId key : string) (item : json)
           (sourceCode : string) : M Request (list ContractFile) :=
  match normalizedImplementation item with
  | Some implementation =>
      proxy <- lift (proxyFiles item sourceCode) ;;
      ' (implData, _) <-
        fetchExplorer url chainId
          (contractParams "getsourcecode" implementation key) ;;
      implResult <- lift (successItem implData) ;;
      match implResult with
      | Some implItem =>
          implSource <- lift (sourceCodeOf implItem) ;;
          pushed <- lift (implementationFiles implItem implSource) ;;
          ret (proxy ++ pushed)%list
      | None => ret proxy
      end
  | None => lift (plainFiles item sourceCode)
  end.

(** Lines 324-361: [contractABI] and [implementationABI]. *)
Definition resolveAbis (url chainId key address : string) (item : json)
  : M Request (json * json) :=
  ' (abiData, _) <-
    fetchExplorer url chainId (contractParams "getabi" address key) ;;
  contractABI <- lift (abiOf abiData) ;;
  match normalizedImplementation item with
  | Some implementation =>
      ' (implAbiData, _) <-
        fetchExplorer url chainId (contractParams "getabi" implementation key) ;;
      implementationABI <- lift (abiOf implAbiData) ;;
      ret (contractABI, implementationABI)
  | None => ret (contractABI, JArr [])
  end.

(** Lines 363-373: the response object; [settings.optimizer.enabled] and
    [settings.optimizer.runs] throw when [settings.optimizer] is missing. *)
Definition makeBundle (filteredFiles : list ContractFile) (settings item : json)
           (abis : json * json) : result Bundle :=
  rbind (prop settings "optimizer") (fun optimizer =>
  rbind (propOpt optimizer "enabled") (fun enabled =>
  rbind (propOpt optimizer "runs") (fun runs =>
  Ok {| files := filteredFiles;
        settings := settings;
        contractName := getProp item "ContractName";
        compiler := getProp item "CompilerVersion";
        optimization := enabled;
        runs := runs;
        abi := fst abis;
        implementationAbi := snd abis |}))).

(** Lines 135-206: the first pass, then [settings], the default when the
    first pass has left it [null]. *)
Definition resolveSettings (item : json) (sourceCode : string) : result json :=
  rbind (normalizeSource item sourceCode) (fun pass =>
  match snd pass with
  | Some parsedSettings => Ok parsedSettings
  | None => defaultSettings item
  end).

(** [getChainId(chain) || ''] *)
Definition chainIdOrEmpty (configured : option string) : string :=
  match configured with
  | Some c => c
  | None => EmptyString
  end.

(** Lines 63-397, the body of the outer [try]. *)
Definition resolve (address chain : string) : M Request Response :=
  ' (url, apiKey) <- lift (getApiScanConfig chain) ;;
  configuredChainId <- lift (getChainId chain) ;;
  let chainId := chainIdOrEmpty configuredChainId in
  let key := effectiveApiKey apiKey in
  ' (data, apiUrl) <-
    fetchExplorer url chainId (contractParams "getsourcecode" address key) ;;
  result <- lift (successItem data) ;;
  match result with
  | Some item =>
      if strictEqStr (getProp item "SourceCode") EmptyString then ret NotVerified
      else
        sourceCode <- lift (sourceCodeOf item) ;;
        settings <- lift (resolveSettings item sourceCode) ;;
        filteredFiles <- resolveFiles url chainId key item sourceCode ;;
        abis <- resolveAbis url chainId key address item ;;
        bundle <- lift (makeBundle filteredFiles settings item abis) ;;
        ret (Resolved bundle)
  | None =>
      ret (ExplorerFailure (optChain (Some data) "status")
                           (optChain (Some data) "message")
                           (optChain (Some data) "result")
                           (if truthyOpt (option_map JStr apiKey)
                            then "custom" else "public"))
  end.

(** [export async function GET(request)]; [address] and [chain] are the
    two [searchParams.get], [None] when the parameter is absent. *)
Definition GET (address chain : option string) : M Request Response :=
  match address, chain with
  | Some a, Some c =>
      if String.eqb a EmptyString || String.eqb c EmptyString then ret BadRequest
      else tryCatch (resolve a c) (fun _ => ret InternalError)
  | _, _ => ret BadRequest
  end.

End Route.

(* ===================================================================== *)
(** * neversight-models.ts *)
(* ===================================================================== *)

Module NeversightModels.

(** [interface NeversightModel] *)
Record NeversightModel : Type := mkModel {
  id : string;
  name : string;
  description : option string
}.

Definition NEVERSIGHT_MODELS : list NeversightModel :=
  [ {| id := "anthropic/claude-4.5-opus";
       name := "Claude 4.5 Opus";
       description := Some "Anthropic Claude 4.5 Opus" |};
    {| id := "anthropic/claude-4.5-opus-max";
       name := "Claude 4.5 Opus Max";
       description := Some "Anthropic Claude 4.5 Opus Max" |};
    {| id := "google/gemini-3-pro";
       name := "Gemini 3 Pro";
       description := Some "Google Gemini 3 Pro" |};
    {| id := "google/gemini-3-flash";
       name := "Gemini 3 Flash";
       description := Some "Google Gemini 3 Flash" |};
    {| id := "openai/gpt-5.2";
       name := "GPT-5.2";
       description := Some "OpenAI GPT-5.2" |};
    {| id := "openai/gpt-5.2-high";
       name := "GPT-5.2 High";
       description := Some "OpenAI GPT-5.2 High" |} ].

(** [NEVERSIGHT_MODELS.find((m) => m.id === modelId)]; the argument is a
    value read from the stored configuration. *)
Definition getNeversightModelById (modelId : option json) : option NeversightModel :=
  find (fun m => strictEqStr modelId (id m)) NEVERSIGHT_MODELS.

End NeversightModels.

(* ===================================================================== *)
(** * ai.ts *)
(* ===================================================================== *)

Module Ai.

Import NeversightModels.

Definition SYSTEM_PROMPT : string :=
  "You are a smart contract security auditor with the following responsibilities:
- Identify potential security vulnerabilities and risks
- Analyze code for best practices and standards compliance
- Suggest gas optimizations and efficiency improvements
- Provide detailed explanations of findings
- Recommend specific fixes and improvements
Format your response with clear sections for vulnerabilities, optimizations, and recommendations.
Please include full code snippets and function names in your response.".

(** The message of the error of line 133. *)
Definition malformedResponse : string := "Unexpected response format from Neversight".

(** The request of lines 103-121; the temperature is the constant 0.5. *)
Record InferenceRequest : Type := mkInferenceRequest {
  endpoint : string;
  method : string;
  contentType : string;
  authorization : string;
  model : string;
  messages : list (string * string)
}.

(** What the code reads of the [Response]: [ok], [status], [statusText],
    [await response.text()] and [await response.json()]. *)
Record InferenceResponse : Type := mkInferenceResponse {
  ok : bool;
  status : Z;
  statusText : string;
  text : result string;
  body : result json
}.

Section Analyze.

Variable JSON_parse : string -> option json.

(** [localStorage.getItem], [None] for [null]. *)
Variable localStorage_getItem : string -> option string.

(** [fetch] on the inference endpoint; [Throw] is a rejected promise (a
    network error, or the abort of the signal). *)
Variable inference :
  list InferenceRequest -> InferenceRequest -> result InferenceResponse.

Local Open Scope m_scope.

(** [config.apiKey?.trim()] *)
Definition trimmedApiKey (config : json) : result (option string) :=
  match getProp config "apiKey" with
  | None | Some JNull => Ok None
  | Some (JStr k) => Ok (Some (trim k))
  | Some _ => TypeError
  end.

(** [data?.choices?.[0]?.message?.content] *)
Definition completionOf (data : json) : option json :=
  optChain (optChain (optChain (optChain (Some data) "choices") "0") "message")
           "content".

Definition inferenceRequest (apiKey modelId prompt : string) : InferenceRequest :=
  {| endpoint := "https://api.neversight.dev/v1/chat/completions";
     method := "POST";
     contentType := "application/json";
     authorization := "Bearer " ++ apiKey;
     model := modelId;
     messages := [("system", SYSTEM_PROMPT); ("user", prompt)] |}.

(** Lines 102-135, the body of the [try]. *)
Definition requestCompletion (apiKey modelId prompt : string)
  : M InferenceRequest string :=
  response <- fetchWith inference (inferenceRequest apiKey modelId prompt) ;;
  if negb (ok response) then
    errorData <- lift (text response) ;;
    throw ("Neversight API request failed: "
           ++ numberToString (Finite (status response))
           ++ " " ++ statusText response ++ ". Details: " ++ errorData)
  else
    data <- lift (body response) ;;
    match completionOf data with
    | Some (JStr content) =>
        if String.eqb content EmptyString
        then throw "Unexpected response format from Neversight"
        else ret content
    | _ => throw "Unexpected response format from Neversight"
    end.

(** [export async function analyzeWithAI(prompt, signal)]; every thrown
    value is an [Error], which the [catch] of line 136 throws again. *)
Definition analyzeWithAI (prompt : string) : M InferenceRequest string :=
  match localStorage_getItem "ai_config" with
  | None => throw "AI configuration not found"
  | Some savedConfig =>
      if String.eqb savedConfig EmptyString
      then throw "AI configuration not found"
      else
        config <- lift (parseOrThrow JSON_parse savedConfig) ;;
        selectedModel <- lift (prop config "selectedModel") ;;
        match getNeversightModelById selectedModel with
        | None =>
            shown <- lift (js_StringOpt selectedModel) ;;
            throw ("Invalid model selected: " ++ shown)
        | Some model =>
            apiKey <- lift (trimmedApiKey config) ;;
            match apiKey with
            | None => throw "Neversight API key not found"
            | Some key =>
                if String.eqb key EmptyString
                then throw "Neversight API key not found"
                else tryCatch (requestCompletion key (id model) prompt)
                              (fun e => throw e)
            end
        end
  end.

(** The stored configuration passes the three checks of lines 86-100 with
    the model [model] and the trimmed key [key]. *)
Definition configured (model : NeversightModel) (key : string) : Prop :=
  exists savedConfig config apiKey,
    localStorage_getItem "ai_config" = Some savedConfig /\
    savedConfig <> EmptyString /\
    JSON_parse savedConfig = Some config /\
    getNeversightModelById (getProp config "selectedModel") = Some model /\
    getProp config "apiKey" = Some (JStr apiKey) /\
    trim apiKey = key /\
    key <> EmptyString.

End Analyze.

(** [type AIConfig] of [@/types/ai]: the four fields that [ai.ts] reads and
    writes. *)
Record AIConfig : Type := mkAIConfig {
  apiKey : string;
  selectedModel : string;
  language : string;
  superPrompt : bool
}.

(** The class [[a-z0-9._-]]. *)
Definition isFileNameChar (c : ascii) : bool :=
  let n := nat_of_ascii c in
  (((97 <=? n) && (n <=? 122)) || ((48 <=? n) && (n <=? 57)) ||
   (n =? 46) || (n =? 95) || (n =? 45))%nat.

(** [s.replace(/C+/g, "-")] for a class [C] of characters: every maximal run
    of characters of the class becomes one dash; [inRun] tells that the
    previous character was of the class. *)
Fixpoint replaceRuns (inClass : ascii -> bool) (inRun : bool) (s : string) : string :=
  match s with
  | EmptyString => EmptyString
  | String c s' =>
      if inClass c then
        if inRun then replaceRuns inClass true s'
        else String "-" (replaceRuns inClass true s')
      else String c (replaceRuns inClass false s')
  end.

Definition isDash (c : ascii) : bool := Ascii.eqb c "-".

Definition dropLeadingDash (s : string) : string :=
  match s with
  | String c s' => if isDash c then s' else s
  | EmptyString => EmptyString
  end.

Fixpoint dropTrailingDash (s : string) : string :=
  match s with
  | EmptyString => EmptyString
  | String c EmptyString => if isDash c then EmptyString else s
  | String c s' => String c (dropTrailingDash s')
  end.

(** [export function getModelName(config)] *)
Definition getModelName (config : AIConfig) : string :=
  let selected :=
    if String.eqb (selectedModel config) EmptyString then "model"
    else selectedModel config in
  dropTrailingDash
    (dropLeadingDash
       (replaceRuns isDash false
          (replaceRuns (fun c => negb (isFileNameChar c)) false
             (toLowerCase selected)))).

Section Config.

Variable JSON_parse : string -> option json.
Variable localStorage_getItem : string -> option string.

(** [NEVERSIGHT_MODELS[0].id]; the table is not empty. *)
Definition firstModelId : string :=
  match NEVERSIGHT_MODELS with
  | m :: _ => id m
  | [] => EmptyString
  end.

(** [defaultConfig] of [useAIConfig] *)
Definition defaultConfig : AIConfig :=
  {| apiKey := EmptyString;
     selectedModel := firstModelId;
     language := "english";
     superPrompt := true |}.

(** Lines 51-67, the body of the [try]: the stored fields of the right type,
    the defaults for the others, and the default model for a model that is
    not registered. *)
Definition mergeSaved (saved : string) : result AIConfig :=
  rbind (parseOrThrow JSON_parse saved) (fun raw =>
  rbind (prop raw "apiKey") (fun rawApiKey =>
  rbind (prop raw "selectedModel") (fun rawSelectedModel =>
  rbind (prop raw "language") (fun rawLanguage =>
  rbind (prop raw "superPrompt") (fun rawSuperPrompt =>
  let merged :=
    {| apiKey := match rawApiKey with
                 | Some (JStr k) => k
                 | _ => apiKey defaultConfig
                 end;
       selectedModel := match rawSelectedModel with
                        | Some (JStr m) => m
                        | _ => selectedModel defaultConfig
                        end;
       language := match rawLanguage with
                   | Some (JStr l) => l
                   | _ => language defaultConfig
                   end;
       superPrompt := match rawSuperPrompt with
                      | Some (JBool b) => b
                      | _ => superPrompt defaultConfig
                      end |} in
  match getNeversightModelById (Some (JStr (selectedModel merged))) with
  | Some _ => Ok merged
  | None =>
      Ok {| apiKey := apiKey merged;
            selectedModel := selectedModel defaultConfig;
            language := language merged;
            superPrompt := superPrompt merged |}
  end))))).

(** The initial state of [useAIConfig] (lines 37-71); [windowDefined] is
    [typeof window !== "undefined"]. *)
Definition initialConfig (windowDefined : bool) : AIConfig :=
  if negb windowDefined then defaultConfig
  else
    match localStorage_getItem "ai_config" with
    | None => defaultConfig
    | Some saved =>
        if String.eqb saved EmptyString then defaultConfig
        else match mergeSaved saved with
             | Ok merged => merged
             | Throw _ => defaultConfig
             end
    end.

End Config.

End Ai.

(** The request carries the API key [key]. *)
Definition carriesApiKey (key : string) (req : Request) : Prop :=
  paramsGet "apikey" (query req) = Some key.

(** [item] is the result item, with the source [sourceCode], that the
    explorer reports for the address of the request. *)
Definition reportedSource
           (explorer : list Request -> Request -> result json)
           (getApiScanConfig : string -> result (string * option string))
           (getChainId : string -> result (option string))
           (address chain : option string) (log : list Request)
           (item : json) (sourceCode : string) : Prop :=
  exists a c url apiKey cid data req l1,
    address = Some a /\ chain = Some c /\
    getApiScanConfig c = Ok (url, apiKey) /\
    getChainId c = Ok cid /\
    fetchExplorer explorer url (chainIdOrEmpty cid)
      (contractParams "getsourcecode" a (effectiveApiKey apiKey)) log
    = (l1, Ok (data, req)) /\
    successItem data = Ok (Some item) /\
    getProp item "SourceCode" = Some (JStr sourceCode) /\
    sourceCode <> EmptyString.

(** The entries that the first pass turns into files: those of
    [parsed.sources] when it is truthy, those of [parsed] otherwise. *)
Definition packedEntries (parsed : json) : list (string * json) :=
  match getProp parsed "sources" with
  | Some srcs => if truthy srcs then ownEntries srcs else ownEntries parsed
  | None => ownEntries parsed
  end.

(** The entries that a later pass turns into files: those of
    [parsed.sources] when it is truthy, none otherwise. *)
Definition sourcesEntries (parsed : json) : list (string * json) :=
  match getProp parsed "sources" with
  | Some srcs => if truthy srcs then ownEntries srcs else []
  | None => []
  end.

(** The two requests that [fetchExplorer] can issue for [params]: the v1
    request, and the request of the v2 attempt, on the rewritten base URL
    and with [chainid] set when the chain has an id. *)
Definition v1Request (url : string) (params : list (string * string)) : Request :=
  {| baseUrl := url; query := params |}.

Definition v2Request (url chainId : string) (params : list (string * string))
  : Request :=
  {| baseUrl := toV2BaseUrl url;
     query := if String.eqb chainId EmptyString then params
              else paramsSet "chainid" chainId params |}.

(** [m] issues at most [n] requests, and each of them satisfies [P]. *)
Definition issuesWithin {R A : Type} (P : R -> Prop) (n : nat) (m : M R A) : Prop :=
  forall log,
    exists new,
      fst (m log) = (log ++ new)%list /\ Forall P new /\ List.length new <= n.

(** A request to the explorer at [url], on its v1 or its v2 surface, for the
    source or the ABI of a contract, with the API key [key]. *)
Definition explorerRequestOf (url key : string) (req : Request) : Prop :=
  (baseUrl req = url \/ baseUrl req = toV2BaseUrl url) /\
  paramsGet "module" (query req) = Some "contract" /\
  (paramsGet "action" (query req) = Some "getsourcecode" \/
   paramsGet "action" (query req) = Some "getabi") /\
  paramsGet "apikey" (query req) = Some key.

(** The shape that the three blocks of lines 219-247, 261-289 and 293-321
    have in common, with the prefix as a parameter. *)
Definition parseRoleFiles (JSON_parse : string -> option json)
           (prefix sourceCode : string) : result (list ContractFile) :=
  rbind (parseOrThrow JSON_parse (unwrapBraces sourceCode)) (fun parsed =>
  rbind (prop parsed "sources") (fun sources =>
  if truthyOpt sources
  then rbind (objectEntriesOpt sources) (fun entries =>
       Ok (map (fileOfEntry prefix) entries))
  else Ok [])).

Definition roleFiles (JSON_parse : string -> option json)
           (prefix : string) (item : json) (sourceCode : string)
  : result (list ContractFile) :=
  if startsWith sourceCode "{" then
    match parseRoleFiles JSON_parse prefix sourceCode with
    | Ok pushed => Ok pushed
    | Throw _ => rbind (singleFile prefix item sourceCode) (fun file => Ok [file])
    end
  else rbind (singleFile prefix item sourceCode) (fun file => Ok [file]).

(** The file [f] under a role prefix. *)
Definition addPrefix (prefix : string) (f : ContractFile) : ContractFile :=
  {| name := name f; path := prefix ++ path f; content := content f |}.

(** [apiKey ? 'custom' : 'public'] *)
Definition apiKeyModeOf (apiKey : option string) : string :=
  if truthyOpt (option_map JStr apiKey) then "custom" else "public".

(* ===================================================================== *)
(** * Scenarios *)
(* ===================================================================== *)

(** Concrete explorers, payloads and configurations on which the handler is
    run below. *)
Module Scenario.

Definition etherscan : string := "https://api.etherscan.io/api".

(** The answer of an explorer that has retired its v1 surface. *)
Definition deprecatedAnswer : json :=
  JObj [("status", JStr "0");
        ("message", JStr "NOTOK");
        ("result",
         JStr "You are using a deprecated V1 endpoint, switch to Etherscan API V2")].

Definition deprecatedExplorer : list Request -> Request -> result json :=
  fun _ _ => Ok deprecatedAnswer.

(** An object with a [toString] property of its own, which [String( )] and
    a template literal cannot convert, and a rejection that carries one as
    its [result]. *)
Definition unconvertible : json := JObj [("toString", JNum (Finite 1))].

Definition unconvertibleAnswer : json :=
  JObj [("status", JStr "0"); ("message", JStr "NOTOK"); ("result", unconvertible)].

Definition sourceRequest (address : string) : list (string * string) :=
  contractParams "getsourcecode" address placeholderApiKey.

(** A result item of [getsourcecode]. *)
Definition sourceItem (sourceCode contractName implementation : string) : json :=
  JObj [("SourceCode", JStr sourceCode);
        ("ABI", JStr "[]");
        ("ContractName", JStr contractName);
        ("CompilerVersion", JStr "v0.8.20+commit.a1b79de6");
        ("OptimizationUsed", JStr "1");
        ("Runs", JStr "999");
        ("Implementation", JStr implementation)].

Definition success (result : json) : json :=
  JObj [("status", JStr "1"); ("message", JStr "OK"); ("result", result)].

Definition failure (message : string) : json :=
  JObj [("status", JStr "0"); ("message", JStr "NOTOK"); ("result", JStr message)].

Definition implementationAddress : string :=
  "0xBBBBBBBBBBBBBBBBBBBBBBBBBBBBBBBBBBBBBBBB".

Definition contractAddress : string :=
  "0xAAAAAAAAAAAAAAAAAAAAAAAAAAAAAAAAAAAAAAAA".

(** An explorer given by a table: the answer to each pair of an action and
    an address; the fetch of a pair that is not listed fails. *)
Fixpoint answerOf (table : list (string * string * json)) (action address : string)
  : result json :=
  match table with
  | [] => Throw "fetch failed"
  | (action', address', answer) :: rest =>
      if String.eqb action action' && String.eqb address address'
      then Ok answer else answerOf rest action address
  end.

Definition explorerOf (table : list (string * string * json))
  : list Request -> Request -> result json :=
  fun _ req =>
    match paramsGet "action" (query req), paramsGet "address" (query req) with
    | Some action, Some address => answerOf table action address
    | _, _ => Throw "fetch failed"
    end.

(** The handler on a chain whose registry entry has the chain id 1 and no
    API key. *)
Definition run (table : list (string * string * json)) (address : string)
  : list Request * result Response :=
  GET parseJson (explorerOf table)
      (fun _ => Ok (etherscan, None)) (fun _ => Ok (Some "1"))
      (Some address) (Some "ethereum") [].

Definition emptyAbi : json := success (JStr "[]").

(** A contract that is not a proxy, with the source [sourceCode]. *)
Definition plainContract (sourceCode : string) : list (string * string * json) :=
  [("getsourcecode", contractAddress,
    success (JArr [sourceItem sourceCode "Foo" EmptyString]));
   ("getabi", contractAddress, emptyAbi)].

(** A proxy whose implementation the explorer answers with
    [implementationAnswer]. *)
Definition proxyContract (implementationAnswer : json)
  : list (string * string * json) :=
  [("getsourcecode", contractAddress,
    success (JArr [sourceItem "contract Proxy {}" "Proxy" implementationAddress]));
   ("getsourcecode", implementationAddress, implementationAnswer);
   ("getabi", contractAddress, emptyAbi);
   ("getabi", implementationAddress, emptyAbi)].

(** The same proxy when the fetch of the implementation source fails. *)
Definition proxyUnreachableImplementation : list (string * string * json) :=
  [("getsourcecode", contractAddress,
    success (JArr [sourceItem "contract Proxy {}" "Proxy" implementationAddress]));
   ("getabi", contractAddress, emptyAbi);
   ("getabi", implementationAddress, emptyAbi)].

(** Packed sources. *)
Definition flatMapSource : string :=
  jsonText "{{'contracts/A.sol':{'content':'contract A {}'}}}".

Definition prefixedPathSource : string :=
  jsonText "{{'language':'Solidity','sources':{'proxy/A.sol':{'content':'contract A {}'}}}}".


Definition standardJsonSource : string :=
  jsonText "{{'language':'Solidity','sources':{'src/A.sol':{'content':'contract A {}'}},'settings':{'optimizer':{'enabled':false,'runs':77}}}}".

(** The configuration store, a stored configuration, and an inference
    endpoint that answers every request with [response]. *)
Definition storage (saved : option string) : string -> option string :=
  fun key => if String.eqb key "ai_config" then saved else None.

Definition savedConfig (apiKey selectedModel : string) : string :=
  jsonText ("{'apiKey':'" ++ apiKey ++ "','selectedModel':'" ++ selectedModel
            ++ "','language':'english','superPrompt':true}").

Definition endpoint (response : Ai.InferenceResponse)
  : list Ai.InferenceRequest -> Ai.InferenceRequest -> result Ai.InferenceResponse :=
  fun _ _ => Ok response.

Definition okResponse (data : json) : Ai.InferenceResponse :=
  {| Ai.ok := true; Ai.status := 200; Ai.statusText := "OK";
     Ai.text := Ok EmptyString; Ai.body := Ok data |}.

Definition completion (content : json) : json :=
  JObj [("id", JStr "chatcmpl-1");
        ("choices",
         JArr [JObj [("index", JNum (Finite 0));
                     ("message",
                      JObj [("role", JStr "assistant"); ("content", content)])]])].

Definition gpt : string := "openai/gpt-5.2".

(** An explorer that rejects the request, and packed sources whose settings
    have no optimizer. *)
Definition rejected : list (string * string * json) :=
  [("getsourcecode", contractAddress, failure "Invalid API Key")].

Definition noOptimizerSource : string :=
  jsonText "{{'language':'Solidity','sources':{'A.sol':{'content':'contract A {}'}},'settings':{'evmVersion':'paris'}}}".

Definition twoFilesSource : string :=
  jsonText "{{'language':'Solidity','sources':{'src/A.sol':{'content':'contract A {}'},'lib/B.sol':{'content':'library B {}'}},'settings':{'optimizer':{'enabled':true,'runs':200}}}}".

(** A proxy whose own source is [proxySource] and whose implementation has
    the source [implementationSource]. *)
Definition verifiedProxy (proxySource implementationSource : string)
  : list (string * string * json) :=
  [("getsourcecode", contractAddress,
    success (JArr [sourceItem proxySource "Proxy" implementationAddress]));
   ("getsourcecode", implementationAddress,
    success (JArr [sourceItem implementationSource "Impl" EmptyString]));
   ("getabi", contractAddress, emptyAbi);
   ("getabi", implementationAddress, failure "Contract source code not verified")].




Definition config (model : string) : Ai.AIConfig :=
  {| Ai.apiKey := "sk-live"; Ai.selectedModel := model;
     Ai.language := "english"; Ai.superPrompt := true |}.

End Scenario.

(* ===================================================================== *)
(** * Properties *)
(* ===================================================================== *)

(** ** Strings *)

Lemma startsWith_app (p s : string) : startsWith (p ++ s) p = true.
Proof.
  induction p as [|c p IH]; simpl; [now destruct s|].
  now rewrite Ascii.eqb_refl, IH.
Qed.

Lemma includes_app_r (a b p : string) :
  includes b p = true -> includes (a ++ b) p = true.
Proof.
  intros H. induction a as [|c a IH]; simpl; [exact H|].
  rewrite IH. apply orb_true_r.
Qed.

Lemma stripSuffix_nil (p : string) :
  stripSuffix p EmptyString = if String.eqb EmptyString p then Some EmptyString else None.
Proof. reflexivity. Qed.

Lemma stripSuffix_cons (p : string) (c : ascii) (s : string) :
  stripSuffix p (String c s) =
  if String.eqb (String c s) p then Some EmptyString
  else match stripSuffix p s with
       | Some r => Some (String c r)
       | None => None
       end.
Proof. reflexivity. Qed.

Lemma stripSuffix_sound (p s pre : string) :
  stripSuffix p s = Some pre -> s = pre ++ p.
Proof.
  revert pre. induction s as [|c s IH]; intros pre.
  - rewrite stripSuffix_nil.
    destruct (String.eqb_spec EmptyString p) as [<-|]; [|discriminate].
    now intros [= <-].
  - rewrite stripSuffix_cons.
    destruct (String.eqb_spec (String c s) p) as [<-|].
    + now intros [= <-].
    + destruct (stripSuffix p s) as [r|]; [|discriminate].
      intros [= <-]. simpl. now rewrite (IH r eq_refl).
Qed.

Lemma stripSuffix_complete (p pre : string) :
  exists pre', stripSuffix p (pre ++ p) = Some pre'.
Proof.
  induction pre as [|c pre [r IH]].
  - exists EmptyString. cbn [append]. destruct p.
    + reflexivity.
    + rewrite stripSuffix_cons. now rewrite String.eqb_refl.
  - cbn [append]. rewrite stripSuffix_cons.
    destruct (String.eqb (String c (pre ++ p)) p); [now eexists|].
    rewrite IH. now eexists.
Qed.

Lemma endsWith_iff (s p : string) :
  endsWith s p = true <-> exists pre, s = pre ++ p.
Proof.
  unfold endsWith. split.
  - destruct (stripSuffix p s) as [r|] eqn:E; [|discriminate].
    intros _. exists r. now apply stripSuffix_sound.
  - intros [pre ->]. destruct (stripSuffix_complete p pre) as [r ->]. reflexivity.
Qed.

(** ** [toV2BaseUrl] *)

Lemma replaceApiSuffix_cases (u : string) :
  replaceApiSuffix u = u \/ includes (replaceApiSuffix u) "/v2/" = true.
Proof.
  unfold replaceApiSuffix.
  destruct (stripSuffix "/api/" u) as [pre|].
  - right. apply includes_app_r. reflexivity.
  - destruct (stripSuffix "/api" u) as [pre|].
    + right. apply includes_app_r. reflexivity.
    + now left.
Qed.

(** C10. [toV2BaseUrl] is idempotent; a URL that contains [/v2/] is returned
    unchanged, and so is a URL that ends neither in [/api] nor in [/api/]. *)
Theorem toV2BaseUrl_idempotent (u : string) :
  toV2BaseUrl (toV2BaseUrl u) = toV2BaseUrl u /\
  (includes u "/v2/" = true -> toV2BaseUrl u = u) /\
  (endsWith u "/api" = false -> endsWith u "/api/" = false -> toV2BaseUrl u = u).
Proof.
  split; [|split].
  - unfold toV2BaseUrl at 2.
    destruct (includes u "/v2/") eqn:E.
    + unfold toV2BaseUrl. now rewrite E.
    + destruct (replaceApiSuffix_cases u) as [H|H].
      * rewrite H. unfold toV2BaseUrl. now rewrite E.
      * unfold toV2BaseUrl. now rewrite H, E.
  - intros H. unfold toV2BaseUrl. now rewrite H.
  - unfold endsWith, toV2BaseUrl, replaceApiSuffix. intros H1 H2.
    destruct (stripSuffix "/api/" u); [discriminate|].
    destruct (stripSuffix "/api" u); [discriminate|].
    now destruct (includes u "/v2/").
Qed.

Lemma toV2BaseUrl_idempotent_witness :
  toV2BaseUrl "https://api.etherscan.io/v2/api" = "https://api.etherscan.io/v2/api" /\
  toV2BaseUrl "https://example.org/rpc" = "https://example.org/rpc" /\
  toV2BaseUrl (toV2BaseUrl "https://api.bscscan.com/api") =
    toV2BaseUrl "https://api.bscscan.com/api".
Proof.
  split; [|split].
  - apply (proj1 (proj2 (toV2BaseUrl_idempotent "https://api.etherscan.io/v2/api"))).
    reflexivity.
  - apply (proj2 (proj2 (toV2BaseUrl_idempotent "https://example.org/rpc")));
      reflexivity.
  - apply (proj1 (toV2BaseUrl_idempotent "https://api.bscscan.com/api")).
Defined.

(** The rewrite that the upgrade performs on v1 URLs. *)
Example toV2BaseUrl_examples :
  toV2BaseUrl "https://api.etherscan.io/api" = "https://api.etherscan.io/v2/api" /\
  toV2BaseUrl "https://api.etherscan.io/api/" = "https://api.etherscan.io/v2/api" /\
  toV2BaseUrl "https://api.etherscan.io/api?x" = "https://api.etherscan.io/api?x".
Proof. repeat split. Qed.

(** ** The monad *)

Lemma bind_ok {R A B : Type} (m : M R A) (k : A -> M R B) log log' a :
  m log = (log', Ok a) -> bind m k log = k a log'.
Proof. intros H. unfold bind. now rewrite H. Qed.

Lemma bind_throw {R A B : Type} (m : M R A) (k : A -> M R B) log log' e :
  m log = (log', Throw e) -> bind m k log = (log', Throw e).
Proof. intros H. unfold bind. now rewrite H. Qed.

(** ** [URLSearchParams] *)

Lemma paramsGet_paramsSet (k v : string) (p : list (string * string)) :
  paramsGet k (paramsSet k v p) = Some v.
Proof.
  induction p as [|[k' v'] p IH]; simpl.
  - now rewrite String.eqb_refl.
  - destruct (String.eqb k' k) eqn:E; simpl.
    + now rewrite String.eqb_refl.
    + now rewrite E.
Qed.

Lemma paramsGet_removeKey_other (k k0 : string) (p : list (string * string)) :
  k0 <> k -> paramsGet k0 (removeKey k p) = paramsGet k0 p.
Proof.
  intros Hne. induction p as [|[k' v'] p IH]; simpl; [reflexivity|].
  destruct (String.eqb_spec k' k) as [->|Hk]; simpl.
  - destruct (String.eqb_spec k k0) as [->|]; [contradiction|exact IH].
  - destruct (String.eqb k' k0); [reflexivity|exact IH].
Qed.

Lemma paramsGet_paramsSet_other (k k0 v : string) (p : list (string * string)) :
  k0 <> k -> paramsGet k0 (paramsSet k v p) = paramsGet k0 p.
Proof.
  intros Hne. induction p as [|[k' v'] p IH]; simpl.
  - destruct (String.eqb_spec k k0) as [->|]; [contradiction|reflexivity].
  - destruct (String.eqb_spec k' k) as [->|Hk]; simpl.
    + destruct (String.eqb_spec k k0) as [->|]; [contradiction|].
      now apply paramsGet_removeKey_other.
    + destruct (String.eqb k' k0); [reflexivity|exact IH].
Qed.

(** ** The explorer client *)

Section FetchExplorerFacts.

Variable explorer : list Request -> Request -> result json.
Variables url chainId : string.

Lemma fetchExplorer_upgrade params log first :
  explorer log (v1Request url params) = Ok first ->
  v1Deprecated first = Ok true ->
  fetchExplorer explorer url chainId params log =
  ((log ++ [v1Request url params; v2Request url chainId params])%list,
   rbind (explorer (log ++ [v1Request url params])%list (v2Request url chainId params))
         (fun json => Ok (json, v2Request url chainId params))).
Proof.
  intros H1 Hd.
  unfold fetchExplorer, attempt, bind, fetchWith, ret, lift. cbn.
  fold (v1Request url params). rewrite H1, Hd.
  unfold v2Request.
  destruct (String.eqb chainId EmptyString); cbn;
    rewrite <- app_assoc; cbn;
    match goal with |- context [explorer ?l ?r] => destruct (explorer l r) end;
    reflexivity.
Qed.

Lemma fetchExplorer_single params log first :
  explorer log (v1Request url params) = Ok first ->
  v1Deprecated first = Ok false ->
  fetchExplorer explorer url chainId params log =
  ((log ++ [v1Request url params])%list, Ok (first, v1Request url params)).
Proof.
  intros H1 Hd.
  unfold fetchExplorer, attempt, bind, fetchWith, ret, lift. cbn.
  fold (v1Request url params). now rewrite H1, Hd.
Qed.

Lemma fetchExplorer_unconvertible params log first e :
  explorer log (v1Request url params) = Ok first ->
  v1Deprecated first = Throw e ->
  fetchExplorer explorer url chainId params log =
  ((log ++ [v1Request url params])%list, Throw e).
Proof.
  intros H1 Hd.
  unfold fetchExplorer, attempt, bind, fetchWith, ret, lift. cbn.
  fold (v1Request url params). now rewrite H1, Hd.
Qed.

Lemma fetchExplorer_error params log e :
  explorer log (v1Request url params) = Throw e ->
  fetchExplorer explorer url chainId params log =
  ((log ++ [v1Request url params])%list, Throw e).
Proof.
  intros H1.
  unfold fetchExplorer, attempt, bind, fetchWith, ret. cbn.
  fold (v1Request url params). now rewrite H1.
Qed.

End FetchExplorerFacts.

(** The deprecation test throws only on an answer of status ["0"] whose
    [result] or [message] does not convert to a string. *)
Lemma v1Deprecated_throws (first : json) (e : string) :
  v1Deprecated first = Throw e ->
  strictEqStr (optChain (Some first) "status") "0" = true /\
  (stringOrEmpty (optChain (Some first) "result") = Throw e \/
   stringOrEmpty (optChain (Some first) "message") = Throw e).
Proof.
  unfold v1Deprecated, isDeprecatedV1Error.
  destruct (strictEqStr (optChain (Some first) "status") "0"); [|discriminate].
  intros H. split; [reflexivity|].
  destruct (stringOrEmpty (optChain (Some first) "result")) as [r|e1];
    [|cbn in H; injection H as ->; now left].
  destruct (stringOrEmpty (optChain (Some first) "message")) as [m|e2];
    [discriminate|cbn in H; injection H as ->; now right].
Qed.

(** C2, as the code has it.  When the first answer has status ["0"] and its
    text names a deprecated v1, [fetchExplorer] issues exactly one further
    request, on the v2 base URL, whose [chainid] parameter is the chain id
    whenever the chain has one, and returns whatever that request gives;
    after any other first answer, and after a failed first fetch, the first
    request is the only one.  An answer of status ["0"] whose [result] or
    [message] does not convert to a string has no text: the call throws
    after the first request. *)
Theorem fetchExplorer_one_shot_upgrade
        (explorer : list Request -> Request -> result json)
        (url chainId : string) (params : list (string * string))
        (log : list Request) :
  (forall first,
     explorer log (v1Request url params) = Ok first ->
     v1Deprecated first = Ok true ->
     fetchExplorer explorer url chainId params log =
     ((log ++ [v1Request url params; v2Request url chainId params])%list,
      rbind (explorer (log ++ [v1Request url params])%list
                      (v2Request url chainId params))
            (fun json => Ok (json, v2Request url chainId params))) /\
     baseUrl (v2Request url chainId params) = toV2BaseUrl url /\
     (chainId <> EmptyString ->
      paramsGet "chainid" (query (v2Request url chainId params)) = Some chainId) /\
     (chainId = EmptyString -> query (v2Request url chainId params) = params)) /\
  (forall first,
     explorer log (v1Request url params) = Ok first ->
     v1Deprecated first = Ok false ->
     fetchExplorer explorer url chainId params log =
     ((log ++ [v1Request url params])%list, Ok (first, v1Request url params))) /\
  (forall first e,
     explorer log (v1Request url params) = Ok first ->
     v1Deprecated first = Throw e ->
     fetchExplorer explorer url chainId params log =
     ((log ++ [v1Request url params])%list, Throw e) /\
     strictEqStr (optChain (Some first) "status") "0" = true /\
     (stringOrEmpty (optChain (Some first) "result") = Throw e \/
      stringOrEmpty (optChain (Some first) "message") = Throw e)) /\
  (forall e,
     explorer log (v1Request url params) = Throw e ->
     fetchExplorer explorer url chainId params log =
     ((log ++ [v1Request url params])%list, Throw e)).
Proof.
  split; [|split; [|split]].
  - intros first H1 Hd. split; [now apply fetchExplorer_upgrade with first|].
    split; [reflexivity|]. unfold v2Request. cbn. split.
    + intros Hne. destruct (String.eqb_spec chainId EmptyString); [contradiction|].
      apply paramsGet_paramsSet.
    + intros ->. reflexivity.
  - apply fetchExplorer_single.
  - intros first e H1 Hd. split.
    + now apply fetchExplorer_unconvertible with first.
    + now apply v1Deprecated_throws.
  - apply fetchExplorer_error.
Qed.

Lemma fetchExplorer_one_shot_upgrade_witness :
  let params := Scenario.sourceRequest "0xAAA" in
  fst (fetchExplorer Scenario.deprecatedExplorer Scenario.etherscan "1" params []) =
    [ {| baseUrl := "https://api.etherscan.io/api"; query := params |};
      {| baseUrl := "https://api.etherscan.io/v2/api";
         query := (params ++ [("chainid", "1")])%list |} ] /\
  paramsGet "chainid"
    (query (v2Request Scenario.etherscan "1" params)) = Some "1" /\
  fetchExplorer (fun _ _ => Ok Scenario.unconvertibleAnswer) Scenario.etherscan "1"
                params [] =
    ([ {| baseUrl := "https://api.etherscan.io/api"; query := params |} ],
     Throw "TypeError").
Proof.
  intros params.
  destruct (fetchExplorer_one_shot_upgrade Scenario.deprecatedExplorer
              Scenario.etherscan "1" params []) as [H _].
  destruct (H Scenario.deprecatedAnswer eq_refl eq_refl) as (E & _ & Hc & _).
  destruct (fetchExplorer_one_shot_upgrade
              (fun _ _ => Ok Scenario.unconvertibleAnswer)
              Scenario.etherscan "1" params []) as (_ & _ & Hthrow & _).
  destruct (Hthrow Scenario.unconvertibleAnswer "TypeError" eq_refl eq_refl)
    as [Et _].
  split; [|split].
  - rewrite E. reflexivity.
  - apply Hc. discriminate.
  - exact Et.
Defined.

(** C2, as stated, fails for a chain without a chain id: the answer is the
    deprecation notice, the second request goes to the v2 URL, and it
    carries no [chainid] parameter. *)
Lemma fetchExplorer_chainid_counterexample :
  let params := Scenario.sourceRequest "0xAAA" in
  v1Deprecated Scenario.deprecatedAnswer = Ok true /\
  fst (fetchExplorer Scenario.deprecatedExplorer Scenario.etherscan EmptyString
                     params []) =
    [ {| baseUrl := "https://api.etherscan.io/api"; query := params |};
      {| baseUrl := "https://api.etherscan.io/v2/api"; query := params |} ] /\
  paramsGet "chainid" params = None.
Proof. repeat split. Qed.

(** ** The first request of a call *)

Lemma fetchExplorer_first_request
      (explorer : list Request -> Request -> result json)
      (url chainId : string) (params : list (string * string)) (log : list Request) :
  exists rest,
    fst (fetchExplorer explorer url chainId params log) =
    (log ++ v1Request url params :: rest)%list.
Proof.
  destruct (explorer log (v1Request url params)) as [first|e] eqn:E.
  - destruct (v1Deprecated first) as [[|]|e] eqn:Ed.
    + rewrite (fetchExplorer_upgrade _ _ _ _ _ _ E Ed). now eexists.
    + rewrite (fetchExplorer_single _ _ _ _ _ _ E Ed). now eexists.
    + rewrite (fetchExplorer_unconvertible _ _ _ _ _ _ _ E Ed). now eexists.
  - rewrite (fetchExplorer_error _ _ _ _ _ _ E). now eexists.
Qed.

(** ** The source normaliser *)

(** The three blocks have the shape of [roleFiles]. *)
Lemma proxyFiles_shape (JSON_parse : string -> option json)
      (item : json) (sc : string) :
  proxyFiles JSON_parse item sc = roleFiles JSON_parse "proxy/" item sc.
Proof. reflexivity. Qed.

Lemma implementationFiles_shape (JSON_parse : string -> option json)
      (item : json) (sc : string) :
  implementationFiles JSON_parse item sc =
  roleFiles JSON_parse "implementation/" item sc.
Proof. reflexivity. Qed.

Lemma plainFiles_shape (JSON_parse : string -> option json)
      (item : json) (sc : string) :
  plainFiles JSON_parse item sc = roleFiles JSON_parse EmptyString item sc.
Proof. reflexivity. Qed.

Lemma singleFile_ok (prefix : string) (item : json) (sc cn : string) :
  js_StringOpt (getProp item "ContractName") = Ok cn ->
  singleFile prefix item sc =
  Ok {| name := cn ++ ".sol"; path := prefix ++ cn ++ ".sol"; content := sc |}.
Proof. intros H. unfold singleFile. now rewrite H. Qed.

Lemma singleFile_throws (prefix : string) (item : json) (sc e : string) :
  js_StringOpt (getProp item "ContractName") = Throw e ->
  singleFile prefix item sc = Throw e.
Proof. intros H. unfold singleFile. now rewrite H. Qed.

Section NormalizerFacts.

Variable JSON_parse : string -> option json.

Lemma prop_nonnull (v : json) (k : string) :
  v <> JNull -> prop v k = Ok (getProp v k).
Proof. now destruct v. Qed.

Lemma objectEntries_nonnull (v : json) :
  v <> JNull -> objectEntries v = Ok (ownEntries v).
Proof. now destruct v. Qed.

Lemma objectEntriesOpt_truthy (v : option json) :
  truthyOpt v = true ->
  exists srcs, v = Some srcs /\ objectEntriesOpt v = Ok (ownEntries srcs).
Proof.
  destruct v as [srcs|]; [|discriminate].
  intros H. exists srcs. split; [reflexivity|].
  apply objectEntries_nonnull. now intros ->.
Qed.

(** The [try] of the first pass throws only when [JSON.parse] does, or on
    [parsed.settings] for a payload that is [null]; neither [files] nor
    [settings] has been written at that point. *)
Lemma parseMultiFile_ok sc parsed :
  JSON_parse (unwrapBraces sc) = Some parsed ->
  parsed <> JNull ->
  parseMultiFile JSON_parse sc =
  Ok (map (fileOfEntry EmptyString) (packedEntries parsed),
      if truthyOpt (getProp parsed "settings")
      then getProp parsed "settings" else None).
Proof.
  intros Hp Hn. unfold parseMultiFile, parseOrThrow, packedEntries.
  rewrite Hp. cbn [rbind]. rewrite !prop_nonnull by assumption. cbn [rbind].
  destruct (getProp parsed "sources") as [srcs|]; cbn [truthyOpt].
  - destruct (truthy srcs) eqn:Et.
    + cbn [objectEntriesOpt]. rewrite objectEntries_nonnull; [reflexivity|].
      now intros ->.
    + now rewrite objectEntries_nonnull.
  - now rewrite objectEntries_nonnull.
Qed.

Lemma parseMultiFile_throws sc e :
  parseMultiFile JSON_parse sc = Throw e ->
  JSON_parse (unwrapBraces sc) = None \/ JSON_parse (unwrapBraces sc) = Some JNull.
Proof.
  destruct (JSON_parse (unwrapBraces sc)) as [parsed|] eqn:Hp; [|now left].
  destruct parsed; try (now right);
    (rewrite (parseMultiFile_ok _ _ Hp); [discriminate|discriminate]).
Qed.

(** The same for the three later passes. *)
Lemma parseRoleFiles_ok prefix sc parsed :
  JSON_parse (unwrapBraces sc) = Some parsed ->
  parsed <> JNull ->
  parseRoleFiles JSON_parse prefix sc =
  Ok (map (fileOfEntry prefix) (sourcesEntries parsed)).
Proof.
  intros Hp Hn. unfold parseRoleFiles, parseOrThrow, sourcesEntries.
  rewrite Hp. cbn [rbind]. rewrite prop_nonnull by assumption. cbn [rbind].
  destruct (getProp parsed "sources") as [srcs|]; cbn [truthyOpt]; [|reflexivity].
  destruct (truthy srcs) eqn:Et; [|reflexivity].
  cbn [objectEntriesOpt]. rewrite objectEntries_nonnull; [reflexivity|].
  now intros ->.
Qed.

End NormalizerFacts.

Lemma normalizeSource_fallback (JSON_parse : string -> option json)
      (item : json) (sc : string) :
  startsWith sc "{" = false \/ JSON_parse (unwrapBraces sc) = None \/
  JSON_parse (unwrapBraces sc) = Some JNull ->
  normalizeSource JSON_parse item sc =
  rbind (singleFile EmptyString item sc) (fun file => Ok ([file], None)).
Proof.
  unfold normalizeSource. intros [->|H]; [reflexivity|].
  destruct (startsWith sc "{"); [|reflexivity].
  unfold parseMultiFile, parseOrThrow. now destruct H as [-> | ->].
Qed.

Lemma normalizeSource_parsed (JSON_parse : string -> option json)
      (item : json) (sc : string) (parsed : json) :
  startsWith sc "{" = true ->
  JSON_parse (unwrapBraces sc) = Some parsed ->
  parsed <> JNull ->
  normalizeSource JSON_parse item sc =
  Ok (map (fileOfEntry EmptyString) (packedEntries parsed),
      if truthyOpt (getProp parsed "settings")
      then getProp parsed "settings" else None).
Proof.
  intros Hs Hp Hn. unfold normalizeSource.
  now rewrite Hs, (parseMultiFile_ok _ _ _ Hp Hn).
Qed.

Lemma roleFiles_fallback (JSON_parse : string -> option json)
      (prefix : string) (item : json) (sc : string) :
  startsWith sc "{" = false \/ JSON_parse (unwrapBraces sc) = None \/
  JSON_parse (unwrapBraces sc) = Some JNull ->
  roleFiles JSON_parse prefix item sc =
  rbind (singleFile prefix item sc) (fun file => Ok [file]).
Proof.
  unfold roleFiles. intros [->|H]; [reflexivity|].
  destruct (startsWith sc "{"); [|reflexivity].
  unfold parseRoleFiles, parseOrThrow. now destruct H as [-> | ->].
Qed.

Lemma roleFiles_parsed (JSON_parse : string -> option json)
      (prefix : string) (item : json) (sc : string) (parsed : json) :
  startsWith sc "{" = true ->
  JSON_parse (unwrapBraces sc) = Some parsed ->
  parsed <> JNull ->
  roleFiles JSON_parse prefix item sc =
  Ok (map (fileOfEntry prefix) (sourcesEntries parsed)).
Proof.
  intros Hs Hp Hn. unfold roleFiles.
  now rewrite Hs, (parseRoleFiles_ok _ _ _ _ Hp Hn).
Qed.

(** A source is in one of two cases: the single file, or the entries of a
    payload that parses to a value other than [null]. *)
Lemma source_cases (JSON_parse : string -> option json) (sc : string) :
  (startsWith sc "{" = false \/ JSON_parse (unwrapBraces sc) = None \/
   JSON_parse (unwrapBraces sc) = Some JNull) \/
  (exists parsed,
     startsWith sc "{" = true /\ JSON_parse (unwrapBraces sc) = Some parsed /\
     parsed <> JNull).
Proof.
  destruct (startsWith sc "{"); [|now left; left].
  destruct (JSON_parse (unwrapBraces sc)) as [parsed|]; [|now left; right; left].
  destruct parsed;
    try (now left; right; right);
    (right; eexists; repeat split; discriminate).
Qed.

Lemma resolveFiles_plain (JSON_parse : string -> option json)
      (explorer : list Request -> Request -> result json)
      (url chainId key : string) (item : json) (sc : string) (log : list Request) :
  isProxy item = false ->
  resolveFiles JSON_parse explorer url chainId key item sc log =
  (log, plainFiles JSON_parse item sc).
Proof.
  unfold isProxy, resolveFiles.
  now destruct (normalizedImplementation item).
Qed.

(** C7. A source that starts with a brace and whose interior does not parse
    gives exactly one file, named [<ContractName>.sol] at the path
    [<ContractName>.sol], that holds the raw source with its braces: in the
    first pass, and in the files returned for a contract that is not a
    proxy, which the handler computes without throwing. *)
Theorem malformed_multifile_fallback
        (JSON_parse : string -> option json)
        (explorer : list Request -> Request -> result json)
        (url chainId key : string) (item : json) (sc cn : string)
        (log : list Request) :
  startsWith sc "{" = true ->
  JSON_parse (unwrapBraces sc) = None ->
  getProp item "ContractName" = Some (JStr cn) ->
  let file := {| name := cn ++ ".sol"; path := cn ++ ".sol"; content := sc |} in
  normalizeSource JSON_parse item sc = Ok ([file], None) /\
  plainFiles JSON_parse item sc = Ok [file] /\
  (isProxy item = false ->
   resolveFiles JSON_parse explorer url chainId key item sc log = (log, Ok [file])).
Proof.
  intros Hs Hp Hc file.
  assert (singleFile EmptyString item sc = Ok file) as Hf.
  { apply singleFile_ok. now rewrite Hc. }
  split; [|split].
  - rewrite normalizeSource_fallback by auto. now rewrite Hf.
  - rewrite plainFiles_shape, roleFiles_fallback by auto. now rewrite Hf.
  - intros Hn. rewrite resolveFiles_plain by assumption.
    rewrite plainFiles_shape, roleFiles_fallback by auto. now rewrite Hf.
Qed.

Lemma malformed_multifile_fallback_witness :
  let sc := "{ pragma solidity ^0.8.0; contract Foo {} }" in
  let item := Scenario.sourceItem sc "Foo" EmptyString in
  let file := {| name := "Foo.sol"; path := "Foo.sol"; content := sc |} in
  normalizeSource parseJson item sc = Ok ([file], None) /\
  plainFiles parseJson item sc = Ok [file] /\
  resolveFiles parseJson Scenario.deprecatedExplorer Scenario.etherscan "1"
               placeholderApiKey item sc [] = ([], Ok [file]).
Proof.
  intros sc item file.
  destruct (malformed_multifile_fallback parseJson Scenario.deprecatedExplorer
              Scenario.etherscan "1" placeholderApiKey item sc "Foo" [])
    as (H1 & H2 & H3); [reflexivity|reflexivity|reflexivity|].
  split; [exact H1|split; [exact H2|]].
  apply H3. reflexivity.
Defined.

(** ** The handler *)

Lemma bind_inv {R A B : Type} (m : M R A) (k : A -> M R B) log log' b :
  bind m k log = (log', Ok b) ->
  exists l a, m log = (l, Ok a) /\ k a l = (log', Ok b).
Proof.
  unfold bind. destruct (m log) as [l [a|e]]; [|discriminate].
  intros H. now exists l, a.
Qed.

Lemma lift_inv {R A : Type} (r : result A) (log log' : list R) a :
  lift r log = (log', Ok a) -> log' = log /\ r = Ok a.
Proof. unfold lift. now intros [= -> ->]. Qed.

Lemma ret_inv {R A : Type} (x a : A) (log log' : list R) :
  ret x log = (log', Ok a) -> log' = log /\ x = a.
Proof. unfold ret. now intros [= -> ->]. Qed.

Lemma makeBundle_inv ff st item abis b :
  makeBundle ff st item abis = Ok b ->
  files b = ff /\ settings b = st /\
  contractName b = getProp item "ContractName" /\
  compiler b = getProp item "CompilerVersion" /\
  abi b = fst abis /\ implementationAbi b = snd abis /\
  exists optimizer,
    getProp st "optimizer" = Some optimizer /\ optimizer <> JNull /\
    optimization b = getProp optimizer "enabled" /\
    runs b = getProp optimizer "runs".
Proof.
  unfold makeBundle.
  destruct st; cbn; try discriminate;
    match goal with
    | |- context [propOpt ?o _] => destruct o as [[| | | | |]|] eqn:Eo
    end; cbn; try discriminate;
    intros [= <-]; cbn; repeat split; eexists; repeat split; discriminate.
Qed.

Section HandlerFacts.

Variable JSON_parse : string -> option json.
Variable explorer : list Request -> Request -> result json.
Variable getApiScanConfig : string -> result (string * option string).
Variable getChainId : string -> result (option string).

(** What a resolved response tells about the run of the handler. *)
Lemma GET_resolved_inv address chain log log' b :
  GET JSON_parse explorer getApiScanConfig getChainId address chain log
  = (log', Ok (Resolved b)) ->
  exists a c url apiKey cid data req l1 item sc st l2 ff abis,
    address = Some a /\ chain = Some c /\
    getApiScanConfig c = Ok (url, apiKey) /\
    getChainId c = Ok cid /\
    fetchExplorer explorer url (chainIdOrEmpty cid)
      (contractParams "getsourcecode" a (effectiveApiKey apiKey)) log
    = (l1, Ok (data, req)) /\
    successItem data = Ok (Some item) /\
    getProp item "SourceCode" = Some (JStr sc) /\
    sc <> EmptyString /\
    resolveSettings JSON_parse item sc = Ok st /\
    resolveFiles JSON_parse explorer url (chainIdOrEmpty cid)
      (effectiveApiKey apiKey) item sc l1 = (l2, Ok ff) /\
    resolveAbis JSON_parse explorer url (chainIdOrEmpty cid)
      (effectiveApiKey apiKey) a item l2 = (log', Ok abis) /\
    makeBundle ff st item abis = Ok b.
Proof.
  unfold GET.
  destruct address as [a|]; [|discriminate].
  destruct chain as [c|]; [|discriminate].
  destruct (String.eqb a EmptyString || String.eqb c EmptyString); [discriminate|].
  unfold tryCatch.
  destruct (resolve _ _ _ _ a c log) as [l [r|e]] eqn:E; [|discriminate].
  intros [= -> ->].
  unfold resolve in E.
  apply bind_inv in E as (l0 & [url apiKey] & E0 & E).
  apply lift_inv in E0 as [-> Hcfg].
  apply bind_inv in E as (l0 & cid & E0 & E).
  apply lift_inv in E0 as [-> Hcid].
  apply bind_inv in E as (l1 & [data req] & Hfetch & E).
  apply bind_inv in E as (l0 & result & E0 & E).
  apply lift_inv in E0 as [-> Hitem].
  destruct result as [item|]; [|discriminate].
  destruct (strictEqStr (getProp item "SourceCode") EmptyString) eqn:Hne;
    [discriminate|].
  apply bind_inv in E as (l0 & sc & E0 & E).
  apply lift_inv in E0 as [-> Hsc].
  apply bind_inv in E as (l0 & st & E0 & E).
  apply lift_inv in E0 as [-> Hst].
  apply bind_inv in E as (l2 & ff & Hfiles & E).
  apply bind_inv in E as (l3 & abis & Habis & E).
  apply bind_inv in E as (l4 & bundle & E0 & E).
  apply lift_inv in E0 as [-> Hb].
  apply ret_inv in E as [-> [= ->]].
  exists a, c, url, apiKey, cid, data, req, l1, item, sc, st, l2, ff, abis.
  unfold sourceCodeOf in Hsc.
  destruct (getProp item "SourceCode") as [[| | |s| |]|] eqn:Hs; try discriminate.
  injection Hsc as ->.
  repeat split; try assumption.
  intros ->. discriminate.
Qed.

End HandlerFacts.

Lemma successItem_none (data : json) :
  successItem data = Ok None <->
  data <> JNull /\
  (strictEqStr (getProp data "status") "1" = false \/ getFirstSourceItem data = None).
Proof.
  unfold successItem. split.
  - destruct data; cbn; try discriminate;
      (split; [discriminate|]);
      match goal with
      | H : context [if ?b then _ else _] |- _ => destruct b
      | _ => idtac
      end; auto;
      match goal with
      | H : Ok ?x = Ok None |- _ => injection H as H; auto
      end.
  - intros [Hn H]. rewrite prop_nonnull by assumption. cbn.
    destruct H as [-> | ->]; [reflexivity|].
    now destruct (strictEqStr _ _).
Qed.

Lemma roleFiles_prefixed (JSON_parse : string -> option json)
      (prefix : string) (item : json) (sc : string)
      (pushed : list ContractFile) (f : ContractFile) :
  roleFiles JSON_parse prefix item sc = Ok pushed ->
  In f pushed -> startsWith (path f) prefix = true.
Proof.
  destruct (source_cases JSON_parse sc) as [H|(parsed & Hs & Hp & Hn)].
  - rewrite (roleFiles_fallback _ _ _ _ H). unfold singleFile.
    destruct (js_StringOpt (getProp item "ContractName")); [|discriminate].
    intros [= <-] [<-|[]]. apply startsWith_app.
  - rewrite (roleFiles_parsed _ _ _ _ _ Hs Hp Hn). intros [= <-].
    rewrite in_map_iff. intros (entry & <- & _). apply startsWith_app.
Qed.

Section ProxyFacts.

Variable JSON_parse : string -> option json.
Variable explorer : list Request -> Request -> result json.
Variable getApiScanConfig : string -> result (string * option string).
Variable getChainId : string -> result (option string).

Variables (a c url : string) (apiKey cid : option string).
Variables (data : json) (req : Request) (item : json) (sc impl : string).
Variables (st : json) (pushed : list ContractFile).
Variables (log l1 : list Request).

Hypothesis address_given : a <> EmptyString.
Hypothesis chain_given : c <> EmptyString.
Hypothesis registry_url : getApiScanConfig c = Ok (url, apiKey).
Hypothesis registry_id : getChainId c = Ok cid.
Hypothesis source_fetched :
  fetchExplorer explorer url (chainIdOrEmpty cid)
    (contractParams "getsourcecode" a (effectiveApiKey apiKey)) log
  = (l1, Ok (data, req)).
Hypothesis source_item : successItem data = Ok (Some item).
Hypothesis source_code : getProp item "SourceCode" = Some (JStr sc).
Hypothesis source_verified : sc <> EmptyString.

(** The handler once the source item of the address is known: the first
    pass and the settings, the files, the ABIs, the response. *)
Lemma GET_after_item :
  GET JSON_parse explorer getApiScanConfig getChainId (Some a) (Some c) log =
  tryCatch
    (bind (lift (resolveSettings JSON_parse item sc))
       (fun settings =>
        bind (resolveFiles JSON_parse explorer url (chainIdOrEmpty cid)
                (effectiveApiKey apiKey) item sc)
          (fun filteredFiles =>
           bind (resolveAbis JSON_parse explorer url (chainIdOrEmpty cid)
                   (effectiveApiKey apiKey) a item)
             (fun abis =>
              bind (lift (makeBundle filteredFiles settings item abis))
                (fun bundle => ret (Resolved bundle))))))
    (fun _ => ret InternalError) l1.
Proof.
  unfold GET.
  destruct (String.eqb_spec a EmptyString); [contradiction|].
  destruct (String.eqb_spec c EmptyString); [contradiction|].
  cbn [orb]. unfold tryCatch, resolve.
  unfold bind at 1. unfold lift at 1. rewrite registry_url.
  unfold bind at 1. unfold lift at 1. rewrite registry_id.
  unfold bind at 1. rewrite source_fetched.
  unfold bind at 1. unfold lift at 1. rewrite source_item.
  assert (strictEqStr (getProp item "SourceCode") EmptyString = false) as ->.
  { rewrite source_code. cbn. now destruct (String.eqb_spec sc EmptyString). }
  unfold bind at 1. unfold lift at 1. unfold sourceCodeOf. rewrite source_code.
  reflexivity.
Qed.

(** An exception of the first pass or of the default settings ends the
    handler before any further request. *)
Lemma GET_settings_throw e :
  resolveSettings JSON_parse item sc = Throw e ->
  GET JSON_parse explorer getApiScanConfig getChainId (Some a) (Some c) log =
  (l1, Ok InternalError).
Proof.
  intros H. rewrite GET_after_item. unfold tryCatch, bind, lift. now rewrite H.
Qed.

Hypothesis settings_resolved : resolveSettings JSON_parse item sc = Ok st.

Lemma GET_after_source :
  GET JSON_parse explorer getApiScanConfig getChainId (Some a) (Some c) log =
  tryCatch
    (bind (resolveFiles JSON_parse explorer url (chainIdOrEmpty cid)
             (effectiveApiKey apiKey) item sc)
       (fun filteredFiles =>
        bind (resolveAbis JSON_parse explorer url (chainIdOrEmpty cid)
                (effectiveApiKey apiKey) a item)
          (fun abis =>
           bind (lift (makeBundle filteredFiles st item abis))
             (fun bundle => ret (Resolved bundle)))))
    (fun _ => ret InternalError) l1.
Proof.
  rewrite GET_after_item. unfold tryCatch.
  unfold bind at 1. unfold lift at 1. now rewrite settings_resolved.
Qed.

Hypothesis proxy : normalizedImplementation item = Some impl.
Hypothesis proxy_pushed : proxyFiles JSON_parse item sc = Ok pushed.

(** When the explorer has no verified item for the implementation, the
    files are those of the proxy. *)
Lemma resolveFiles_partial implData implReq l2 :
  fetchExplorer explorer url (chainIdOrEmpty cid)
    (contractParams "getsourcecode" impl (effectiveApiKey apiKey)) l1
  = (l2, Ok (implData, implReq)) ->
  successItem implData = Ok None ->
  resolveFiles JSON_parse explorer url (chainIdOrEmpty cid)
    (effectiveApiKey apiKey) item sc l1
  = (l2, Ok pushed).
Proof.
  intros Hf Hs. unfold resolveFiles. rewrite proxy.
  unfold bind at 1. unfold lift at 1. rewrite proxy_pushed.
  unfold bind at 1. rewrite Hf.
  unfold bind at 1. unfold lift at 1. now rewrite Hs.
Qed.

Lemma resolveFiles_unreachable l2 e :
  fetchExplorer explorer url (chainIdOrEmpty cid)
    (contractParams "getsourcecode" impl (effectiveApiKey apiKey)) l1
  = (l2, Throw e) ->
  resolveFiles JSON_parse explorer url (chainIdOrEmpty cid)
    (effectiveApiKey apiKey) item sc l1
  = (l2, Throw e).
Proof.
  intros Hf. unfold resolveFiles. rewrite proxy.
  unfold bind at 1. unfold lift at 1. rewrite proxy_pushed.
  unfold bind at 1. now rewrite Hf.
Qed.

Lemma resolveFiles_null_answer l2 implReq :
  fetchExplorer explorer url (chainIdOrEmpty cid)
    (contractParams "getsourcecode" impl (effectiveApiKey apiKey)) l1
  = (l2, Ok (JNull, implReq)) ->
  resolveFiles JSON_parse explorer url (chainIdOrEmpty cid)
    (effectiveApiKey apiKey) item sc l1
  = (l2, Throw "TypeError").
Proof.
  intros Hf. unfold resolveFiles. rewrite proxy.
  unfold bind at 1. unfold lift at 1. rewrite proxy_pushed.
  unfold bind at 1. now rewrite Hf.
Qed.

End ProxyFacts.

(** C1, as the code has it.  For a proxy whose own source was fetched and
    normalised (the first pass, the settings and the files of the proxy
    computed without an exception), when the explorer answers the request
    for the implementation source with a body other than [null] that has
    no verified item (a status other than ["1"], or no result item) and the
    rest of the handler completes, the response is a resolved bundle whose
    files are the files of the proxy alone, all under [proxy/].  When the
    fetch of the implementation source itself fails, when the deprecation
    test of its answer throws, or when the body is [null], the response is
    the internal error. *)
Theorem proxy_partial_bundle
        (JSON_parse : string -> option json)
        (explorer : list Request -> Request -> result json)
        (getApiScanConfig : string -> result (string * option string))
        (getChainId : string -> result (option string))
        (a c url : string) (apiKey cid : option string)
        (data : json) (req : Request) (item : json) (sc impl : string)
        (st : json) (pushed : list ContractFile)
        (log l1 : list Request) :
  a <> EmptyString -> c <> EmptyString ->
  getApiScanConfig c = Ok (url, apiKey) ->
  getChainId c = Ok cid ->
  fetchExplorer explorer url (chainIdOrEmpty cid)
    (contractParams "getsourcecode" a (effectiveApiKey apiKey)) log
  = (l1, Ok (data, req)) ->
  successItem data = Ok (Some item) ->
  getProp item "SourceCode" = Some (JStr sc) ->
  sc <> EmptyString ->
  normalizedImplementation item = Some impl ->
  resolveSettings JSON_parse item sc = Ok st ->
  proxyFiles JSON_parse item sc = Ok pushed ->
  let implementationRequest :=
    v1Request url (contractParams "getsourcecode" impl (effectiveApiKey apiKey)) in
  (forall implData implReq l2 abis l3 bundle,
     fetchExplorer explorer url (chainIdOrEmpty cid)
       (contractParams "getsourcecode" impl (effectiveApiKey apiKey)) l1
     = (l2, Ok (implData, implReq)) ->
     implData <> JNull ->
     strictEqStr (getProp implData "status") "1" = false \/
     getFirstSourceItem implData = None ->
     resolveAbis JSON_parse explorer url (chainIdOrEmpty cid)
       (effectiveApiKey apiKey) a item l2 = (l3, Ok abis) ->
     makeBundle pushed st item abis = Ok bundle ->
     GET JSON_parse explorer getApiScanConfig getChainId (Some a) (Some c) log
     = (l3, Ok (Resolved bundle)) /\
     files bundle = pushed /\
     (forall f, In f (files bundle) -> startsWith (path f) "proxy/" = true)) /\
  (forall l2 e,
     fetchExplorer explorer url (chainIdOrEmpty cid)
       (contractParams "getsourcecode" impl (effectiveApiKey apiKey)) l1
     = (l2, Throw e) ->
     GET JSON_parse explorer getApiScanConfig getChainId (Some a) (Some c) log
     = (l2, Ok InternalError)) /\
  (forall e,
     explorer l1 implementationRequest = Throw e ->
     GET JSON_parse explorer getApiScanConfig getChainId (Some a) (Some c) log
     = ((l1 ++ [implementationRequest])%list, Ok InternalError)) /\
  (forall first e,
     explorer l1 implementationRequest = Ok first ->
     v1Deprecated first = Throw e ->
     GET JSON_parse explorer getApiScanConfig getChainId (Some a) (Some c) log
     = ((l1 ++ [implementationRequest])%list, Ok InternalError)) /\
  (forall l2 implReq,
     fetchExplorer explorer url (chainIdOrEmpty cid)
       (contractParams "getsourcecode" impl (effectiveApiKey apiKey)) l1
     = (l2, Ok (JNull, implReq)) ->
     GET JSON_parse explorer getApiScanConfig getChainId (Some a) (Some c) log
     = (l2, Ok InternalError)).
Proof.
  intros Ha Hc Hurl Hid Hsrc Hitem Hsc Hne Himpl Hst Hpushed request.
  pose proof (GET_after_source JSON_parse explorer getApiScanConfig getChainId
                a c url apiKey cid data req item sc st log l1
                Ha Hc Hurl Hid Hsrc Hitem Hsc Hne Hst) as HGET.
  assert (forall l2 e,
            fetchExplorer explorer url (chainIdOrEmpty cid)
              (contractParams "getsourcecode" impl (effectiveApiKey apiKey)) l1
            = (l2, Throw e) ->
            GET JSON_parse explorer getApiScanConfig getChainId (Some a) (Some c) log
            = (l2, Ok InternalError)) as Hthrow.
  { intros l2 e Hf.
    pose proof (resolveFiles_unreachable JSON_parse explorer url apiKey cid item sc
                  impl pushed l1 Himpl Hpushed l2 e Hf) as Hfiles.
    rewrite HGET. unfold tryCatch.
    now rewrite (bind_throw _ _ _ _ _ Hfiles). }
  split; [|split; [|split; [|split]]].
  - intros implData implReq l2 abis l3 bundle Hf Hn Hs Habi Hb.
    assert (successItem implData = Ok None) as Hnone
        by (apply successItem_none; auto).
    pose proof (resolveFiles_partial JSON_parse explorer url apiKey cid item sc
                  impl pushed l1 Himpl Hpushed implData implReq l2 Hf Hnone)
      as Hfiles.
    split; [|split].
    + rewrite HGET. unfold tryCatch.
      rewrite (bind_ok _ _ _ _ _ Hfiles), (bind_ok _ _ _ _ _ Habi).
      unfold bind, lift. now rewrite Hb.
    + now apply makeBundle_inv in Hb.
    + apply makeBundle_inv in Hb as [-> _].
      intros f. apply (roleFiles_prefixed JSON_parse "proxy/" item sc).
      exact Hpushed.
  - exact Hthrow.
  - intros e He. apply (Hthrow _ e). now apply fetchExplorer_error.
  - intros first e H1 Hd. apply (Hthrow _ e).
    now apply fetchExplorer_unconvertible with first.
  - intros l2 implReq Hf.
    pose proof (resolveFiles_null_answer JSON_parse explorer url apiKey cid item sc
                  impl pushed l1 Himpl Hpushed l2 implReq Hf) as Hfiles.
    rewrite HGET. unfold tryCatch.
    now rewrite (bind_throw _ _ _ _ _ Hfiles).
Qed.

Lemma proxy_partial_bundle_witness :
  exists bundle log,
    Scenario.run
      (Scenario.proxyContract (Scenario.failure "Contract source code not verified"))
      Scenario.contractAddress = (log, Ok (Resolved bundle)) /\
    files bundle =
      [ {| name := "Proxy.sol"; path := "proxy/Proxy.sol";
           content := "contract Proxy {}" |} ] /\
    snd (Scenario.run Scenario.proxyUnreachableImplementation
                      Scenario.contractAddress) = Ok InternalError /\
    snd (Scenario.run (Scenario.proxyContract Scenario.unconvertibleAnswer)
                      Scenario.contractAddress) = Ok InternalError.
Proof.
  pose (answered :=
          Scenario.proxyContract (Scenario.failure "Contract source code not verified")).
  edestruct (proxy_partial_bundle parseJson (Scenario.explorerOf answered)
               (fun _ => Ok (Scenario.etherscan, None)) (fun _ => Ok (Some "1"))
               Scenario.contractAddress "ethereum" Scenario.etherscan None (Some "1"))
    as [Hpartial _];
    [discriminate | discriminate | reflexivity | reflexivity | reflexivity
    | reflexivity | reflexivity | discriminate | reflexivity | reflexivity
    | reflexivity | ].
  edestruct Hpartial as (HGET & Hfiles & _);
    [reflexivity | discriminate | left; reflexivity | reflexivity | reflexivity | ].
  edestruct (proxy_partial_bundle parseJson
               (Scenario.explorerOf Scenario.proxyUnreachableImplementation)
               (fun _ => Ok (Scenario.etherscan, None)) (fun _ => Ok (Some "1"))
               Scenario.contractAddress "ethereum" Scenario.etherscan None (Some "1"))
    as (_ & Hunreachable & _);
    [discriminate | discriminate | reflexivity | reflexivity | reflexivity
    | reflexivity | reflexivity | discriminate | reflexivity | reflexivity
    | reflexivity | ].
  edestruct (proxy_partial_bundle parseJson
               (Scenario.explorerOf
                  (Scenario.proxyContract Scenario.unconvertibleAnswer))
               (fun _ => Ok (Scenario.etherscan, None)) (fun _ => Ok (Some "1"))
               Scenario.contractAddress "ethereum" Scenario.etherscan None (Some "1"))
    as (_ & _ & _ & Hunconvertible & _);
    [discriminate | discriminate | reflexivity | reflexivity | reflexivity
    | reflexivity | reflexivity | discriminate | reflexivity | reflexivity
    | reflexivity | ].
  do 2 eexists. split; [exact HGET|]. split; [exact Hfiles|]. split.
  - unfold Scenario.run. erewrite Hunreachable; reflexivity.
  - unfold Scenario.run.
    erewrite (Hunconvertible Scenario.unconvertibleAnswer); reflexivity.
Defined.

(** C1, as stated, fails when the fetch of the implementation source itself
    fails: the proxy was fetched and normalised, and the response is the
    internal error, not a bundle. *)
Lemma proxy_partial_counterexample :
  let item := Scenario.sourceItem "contract Proxy {}" "Proxy"
                                  Scenario.implementationAddress in
  let sourceRequest address :=
    {| baseUrl := Scenario.etherscan; query := Scenario.sourceRequest address |} in
  isProxy item = true /\
  proxyFiles parseJson item "contract Proxy {}" =
    Ok [ {| name := "Proxy.sol"; path := "proxy/Proxy.sol";
            content := "contract Proxy {}" |} ] /\
  Scenario.explorerOf Scenario.proxyUnreachableImplementation
    [sourceRequest Scenario.contractAddress]
    (sourceRequest Scenario.implementationAddress) = Throw "fetch failed" /\
  Scenario.run Scenario.proxyUnreachableImplementation Scenario.contractAddress =
    ([sourceRequest Scenario.contractAddress;
      sourceRequest Scenario.implementationAddress], Ok InternalError).
Proof. repeat split. Qed.

(** ** Files and settings of a resolved bundle *)

Lemma roleFiles_paths (JSON_parse : string -> option json)
      (prefix : string) (item : json) (sc : string)
      (pushed : list ContractFile) (f : ContractFile) :
  roleFiles JSON_parse prefix item sc = Ok pushed ->
  In f pushed ->
  (exists cn, js_StringOpt (getProp item "ContractName") = Ok cn /\
              path f = prefix ++ cn ++ ".sol") \/
  exists parsed reported info,
    startsWith sc "{" = true /\
    JSON_parse (unwrapBraces sc) = Some parsed /\
    In (reported, info) (sourcesEntries parsed) /\
    path f = prefix ++ reported.
Proof.
  destruct (source_cases JSON_parse sc) as [H|(parsed & Hs & Hp & Hn)].
  - rewrite (roleFiles_fallback _ _ _ _ H). unfold singleFile.
    destruct (js_StringOpt (getProp item "ContractName")) as [cn|]; [|discriminate].
    intros [= <-] [<-|[]]. left. now exists cn.
  - rewrite (roleFiles_parsed _ _ _ _ _ Hs Hp Hn). intros [= <-].
    rewrite in_map_iff. intros ([reported info] & <- & Hin).
    right. now exists parsed, reported, info.
Qed.


Lemma resolveSettings_parsed (JSON_parse : string -> option json)
      (item : json) (sc : string) (parsed v : json) :
  startsWith sc "{" = true ->
  JSON_parse (unwrapBraces sc) = Some parsed ->
  getProp parsed "settings" = Some v ->
  truthy v = true ->
  resolveSettings JSON_parse item sc = Ok v.
Proof.
  intros Hs Hp Hv Ht. unfold resolveSettings.
  rewrite (normalizeSource_parsed _ _ _ _ Hs Hp).
  - cbn [rbind snd]. rewrite Hv. cbn [truthyOpt]. now rewrite Ht.
  - intros ->. discriminate.
Qed.




Lemma GET_reportedSource
      (JSON_parse : string -> option json)
      (explorer : list Request -> Request -> result json)
      (getApiScanConfig : string -> result (string * option string))
      (getChainId : string -> result (option string))
      (address chain : option string) (log log' : list Request) (b : Bundle) :
  GET JSON_parse explorer getApiScanConfig getChainId address chain log
  = (log', Ok (Resolved b)) ->
  exists item sc,
    reportedSource explorer getApiScanConfig getChainId address chain log item sc /\
    resolveSettings JSON_parse item sc = Ok (settings b) /\
    (isProxy item = false -> plainFiles JSON_parse item sc = Ok (files b)) /\
    exists optimizer,
      getProp (settings b) "optimizer" = Some optimizer /\ optimizer <> JNull /\
      optimization b = getProp optimizer "enabled" /\
      runs b = getProp optimizer "runs".
Proof.
  intros H.
  apply GET_resolved_inv in H
    as (a & c & url & apiKey & cid & data & req & l1 & item & sc & st & l2 & ff
        & abis & -> & -> & Hcfg & Hid & Hfetch & Hitem & Hsc & Hne & Hsettings
        & Hfiles & Habis & Hb).
  apply makeBundle_inv in Hb as (Hf & Hst & _ & _ & _ & _ & optimizer & Ho).
  exists item, sc. split; [|split; [now rewrite Hst|split]].
  - now exists a, c, url, apiKey, cid, data, req, l1.
  - intros Hp. rewrite resolveFiles_plain in Hfiles by assumption.
    injection Hfiles as _ ->. now rewrite Hf.
  - exists optimizer. now rewrite Hst.
Qed.

(** A packed source without a truthy [sources] is turned into files by the
    first pass, and into no file by the pass that fills the response. *)
Lemma flat_map_roleFiles (JSON_parse : string -> option json)
      (prefix : string) (item : json) (sc : string) (parsed : json) :
  startsWith sc "{" = true ->
  JSON_parse (unwrapBraces sc) = Some parsed ->
  parsed <> JNull ->
  truthyOpt (getProp parsed "sources") = false ->
  roleFiles JSON_parse prefix item sc = Ok [] /\
  exists parsedSettings,
    normalizeSource JSON_parse item sc =
    Ok (map (fileOfEntry EmptyString) (ownEntries parsed), parsedSettings).
Proof.
  intros Hs Hp Hn Hf.
  rewrite (roleFiles_parsed _ _ _ _ _ Hs Hp Hn), (normalizeSource_parsed _ _ _ _ Hs Hp Hn).
  unfold sourcesEntries, packedEntries.
  destruct (getProp parsed "sources") as [srcs|]; [|split; [reflexivity|now eexists]].
  cbn in Hf. rewrite Hf. split; [reflexivity|now eexists].
Qed.

(** C3, on the code.  For the flat map of one path to its content, wrapped
    in braces, the first pass builds one file, and the response is a
    resolved bundle whose file list is empty. *)
Theorem flat_map_bundle_has_no_files :
  let sc := Scenario.flatMapSource in
  let item := Scenario.sourceItem sc "Foo" EmptyString in
  sc <> EmptyString /\
  parseJson (unwrapBraces sc) =
    Some (JObj [("contracts/A.sol", JObj [("content", JStr "contract A {}")])]) /\
  normalizeSource parseJson item sc =
    Ok ([ {| name := "A.sol"; path := "contracts/A.sol";
             content := "contract A {}" |} ], None) /\
  plainFiles parseJson item sc = Ok [] /\
  exists bundle log,
    Scenario.run (Scenario.plainContract sc) Scenario.contractAddress
    = (log, Ok (Resolved bundle)) /\
    files bundle = [].
Proof.
  cbv zeta. split; [discriminate|]. split; [reflexivity|].
  split; [reflexivity|]. split; [reflexivity|].
  do 2 eexists. split; reflexivity.
Qed.

(** C5, as the code has it.  In a bundle resolved for a contract that is not
    a proxy the handler adds no prefix: every path is a path of the reported
    sources map, verbatim, or [<ContractName>.sol]; so no path starts with a
    prefix that neither a reported path nor that file name starts with. *)
Theorem plain_bundle_paths_verbatim
        (JSON_parse : string -> option json)
        (explorer : list Request -> Request -> result json)
        (getApiScanConfig : string -> result (string * option string))
        (getChainId : string -> result (option string))
        (address chain : option string) (log log' : list Request) (b : Bundle) :
  GET JSON_parse explorer getApiScanConfig getChainId address chain log
  = (log', Ok (Resolved b)) ->
  exists item sc,
    reportedSource explorer getApiScanConfig getChainId address chain log item sc /\
    (isProxy item = false ->
     (forall f, In f (files b) ->
        (exists cn, js_StringOpt (getProp item "ContractName") = Ok cn /\
                    path f = cn ++ ".sol") \/
        exists parsed info,
          startsWith sc "{" = true /\
          JSON_parse (unwrapBraces sc) = Some parsed /\
          In (path f, info) (sourcesEntries parsed)) /\
     (forall prefix,
        (forall cn, js_StringOpt (getProp item "ContractName") = Ok cn ->
                    startsWith (cn ++ ".sol") prefix = false) ->
        (forall parsed reported info,
           JSON_parse (unwrapBraces sc) = Some parsed ->
           In (reported, info) (sourcesEntries parsed) ->
           startsWith reported prefix = false) ->
        forall f, In f (files b) -> startsWith (path f) prefix = false)).
Proof.
  intros H.
  apply GET_reportedSource in H as (item & sc & Hrep & _ & Hfiles & _).
  exists item, sc. split; [exact Hrep|].
  intros Hplain. specialize (Hfiles Hplain). rewrite plainFiles_shape in Hfiles.
  assert (forall f, In f (files b) ->
            (exists cn, js_StringOpt (getProp item "ContractName") = Ok cn /\
                        path f = cn ++ ".sol") \/
            exists parsed info,
              startsWith sc "{" = true /\
              JSON_parse (unwrapBraces sc) = Some parsed /\
              In (path f, info) (sourcesEntries parsed)) as Hpaths.
  { intros f Hin.
    destruct (roleFiles_paths _ _ _ _ _ _ Hfiles Hin)
      as [(cn & Hcn & E)|(parsed & reported & info & Hs & Hp & Hin' & E)].
    - left. now exists cn.
    - right. exists parsed, info. cbn in E. now rewrite E. }
  split; [exact Hpaths|].
  intros prefix Hname Hreported f Hin.
  destruct (Hpaths f Hin) as [(cn & Hcn & ->)|(parsed & info & _ & Hp & Hin')].
  - now apply Hname.
  - now apply (Hreported parsed (path f) info).
Qed.

Lemma plain_bundle_paths_verbatim_witness :
  exists bundle log,
    Scenario.run (Scenario.plainContract Scenario.standardJsonSource)
                 Scenario.contractAddress = (log, Ok (Resolved bundle)) /\
    forall f, In f (files bundle) -> startsWith (path f) "proxy/" = false.
Proof.
  do 2 eexists. split; [reflexivity|].
  intros f Hin.
  edestruct (plain_bundle_paths_verbatim parseJson
               (Scenario.explorerOf (Scenario.plainContract Scenario.standardJsonSource))
               (fun _ => Ok (Scenario.etherscan, None)) (fun _ => Ok (Some "1"))
               (Some Scenario.contractAddress) (Some "ethereum") [])
    as (item & sc & Hrep & Hpaths); [reflexivity|].
  destruct Hrep as (a & c & url & apiKey & cid & data & req & l1
                    & Ha & Hc & Hcfg & Hid & Hfetch & Hitem & Hsc & _).
  injection Ha as <-. injection Hc as <-.
  injection Hcfg as <- <-. injection Hid as <-.
  cbv in Hfetch. injection Hfetch as _ <- _.
  cbv in Hitem. injection Hitem as <-.
  cbv in Hsc. injection Hsc as <-.
  destruct (Hpaths eq_refl) as [_ Hprefix].
  apply (Hprefix "proxy/"); [| |exact Hin].
  - intros cn Hcn. cbv in Hcn. injection Hcn as <-. reflexivity.
  - intros parsed reported info Hp Hr.
    cbv in Hp. injection Hp as <-.
    destruct Hr as [[= <- _]|[]]. reflexivity.
Defined.

(** C5, as stated, fails on a multi-file payload whose own path starts with
    [proxy/]: the contract is not a proxy and the path is returned as it is. *)
Lemma plain_bundle_prefix_counterexample :
  let sc := Scenario.prefixedPathSource in
  let item := Scenario.sourceItem sc "Foo" EmptyString in
  isProxy item = false /\
  exists bundle log,
    Scenario.run (Scenario.plainContract sc) Scenario.contractAddress
    = (log, Ok (Resolved bundle)) /\
    files bundle =
      [ {| name := "A.sol"; path := "proxy/A.sol"; content := "contract A {}" |} ] /\
    existsb (fun f => startsWith (path f) "proxy/") (files bundle) = true.
Proof.
  cbv zeta. split; [reflexivity|].
  do 2 eexists. split; [reflexivity|]. split; reflexivity.
Qed.

(** ** Numbers *)








(** ** The default settings *)





(** ** Proxy detection *)




(** ** The analysis call *)

Lemma tryCatch_rethrow {R A : Type} (m : M R A) (log : list R) :
  tryCatch m (fun e => throw e) log = m log.
Proof.
  unfold tryCatch, throw. now destruct (m log) as [l [a|e]].
Qed.

Lemma getNeversightModelById_registered (v : option json) :
  NeversightModels.getNeversightModelById v = None <->
  forall m, In m NeversightModels.NEVERSIGHT_MODELS ->
            v <> Some (JStr (NeversightModels.id m)).
Proof.
  unfold NeversightModels.getNeversightModelById. split.
  - intros H m Hin ->.
    apply (find_none _ _ H) in Hin. cbn in Hin.
    now rewrite String.eqb_refl in Hin.
  - intros H.
    destruct (find _ _) as [m|] eqn:E; [|reflexivity].
    apply find_some in E as [Hin E].
    exfalso. apply (H m Hin).
    destruct v as [[| | |s| |]|]; try discriminate.
    cbn in E. apply String.eqb_eq in E. now subst.
Qed.

Section AnalyzeFacts.

Import NeversightModels Ai.

Variable JSON_parse : string -> option json.
Variable localStorage_getItem : string -> option string.
Variable inference :
  list InferenceRequest -> InferenceRequest -> result InferenceResponse.
Variable prompt : string.

Local Abbreviation analyze := (analyzeWithAI JSON_parse localStorage_getItem inference prompt).
Local Abbreviation configured := (configured JSON_parse localStorage_getItem).

(** Once the checks have passed, the call is the request. *)
Lemma analyzeWithAI_configured model key log :
  configured model key ->
  analyze log = requestCompletion inference key (id model) prompt log.
Proof.
  intros (saved & config & apiKey & Hget & Hne & Hparse & Hmodel & Hkey & Htrim & Hk).
  unfold analyzeWithAI. rewrite Hget.
  destruct (String.eqb_spec saved EmptyString); [contradiction|].
  unfold bind at 1. unfold lift at 1. unfold parseOrThrow. rewrite Hparse.
  assert (config <> JNull) as Hn.
  { intros ->. cbn in Hmodel. discriminate. }
  unfold bind at 1. unfold lift at 1. rewrite prop_nonnull by assumption.
  rewrite Hmodel.
  unfold bind at 1. unfold lift at 1. unfold trimmedApiKey. rewrite Hkey, Htrim.
  destruct (String.eqb_spec key EmptyString); [contradiction|].
  apply tryCatch_rethrow.
Qed.

(** Otherwise the call throws and issues no request. *)
Lemma analyzeWithAI_cases log :
  (exists e, analyze log = (log, Throw e)) \/
  (exists model key, configured model key).
Proof.
  unfold analyzeWithAI.
  destruct (localStorage_getItem "ai_config") as [saved|] eqn:Hget;
    [|left; now eexists].
  destruct (String.eqb_spec saved EmptyString) as [|Hne]; [left; now eexists|].
  unfold bind at 1. unfold lift at 1. unfold parseOrThrow.
  destruct (JSON_parse saved) as [config|] eqn:Hparse; [|left; now eexists].
  unfold bind at 1. unfold lift at 1.
  destruct (prop config "selectedModel") as [selected|e] eqn:Hsel;
    [|left; now eexists].
  assert (config <> JNull) as Hn by (intros ->; discriminate).
  rewrite prop_nonnull in Hsel by assumption. injection Hsel as <-.
  destruct (getNeversightModelById (getProp config "selectedModel")) as [model|]
    eqn:Hmodel;
    [|left; unfold bind, lift, throw;
      destruct (js_StringOpt (getProp config "selectedModel")); now eexists].
  unfold bind at 1. unfold lift at 1. unfold trimmedApiKey.
  destruct (getProp config "apiKey") as [[| | |apiKey| |]|] eqn:Hkey;
    try (left; now eexists).
  destruct (String.eqb_spec (trim apiKey) EmptyString) as [|Hk];
    [left; now eexists|].
  right. exists model, (trim apiKey), saved, config, apiKey. now repeat split.
Qed.

(** The request issues exactly one call, with the given key. *)
Lemma requestCompletion_log key modelId log :
  fst (requestCompletion inference key modelId prompt log) =
  (log ++ [inferenceRequest key modelId prompt])%list.
Proof.
  unfold requestCompletion, bind, fetchWith, lift, throw, ret.
  destruct (inference log _) as [response|e]; [|reflexivity].
  destruct (ok response); cbn.
  - destruct (body response) as [data|e]; [|reflexivity].
    destruct (completionOf data) as [[| | |content| |]|]; try reflexivity.
    now destruct (String.eqb content EmptyString).
  - now destruct (text response).
Qed.

Lemma requestCompletion_ok key modelId log log' s :
  requestCompletion inference key modelId prompt log = (log', Ok s) ->
  s <> EmptyString /\
  exists response data,
    inference log (inferenceRequest key modelId prompt) = Ok response /\
    ok response = true /\
    body response = Ok data /\
    completionOf data = Some (JStr s).
Proof.
  unfold requestCompletion, bind, fetchWith, lift, throw, ret.
  destruct (inference log _) as [response|e] eqn:Hr; [|discriminate].
  destruct (ok response) eqn:Hok; cbn.
  - destruct (body response) as [data|e] eqn:Hb; [|discriminate].
    destruct (completionOf data) as [[| | |content| |]|] eqn:Hc; try discriminate.
    destruct (String.eqb_spec content EmptyString); [discriminate|].
    intros [= _ <-]. split; [assumption|].
    now exists response, data.
  - now destruct (text response).
Qed.

Lemma requestCompletion_malformed key modelId log response data :
  inference log (inferenceRequest key modelId prompt) = Ok response ->
  ok response = true ->
  body response = Ok data ->
  (forall content, completionOf data = Some (JStr content) -> content = EmptyString) ->
  requestCompletion inference key modelId prompt log =
  ((log ++ [inferenceRequest key modelId prompt])%list, Throw malformedResponse).
Proof.
  intros Hr Hok Hb Hc.
  unfold requestCompletion, bind, fetchWith, lift, throw, ret.
  rewrite Hr, Hok. cbn. rewrite Hb.
  destruct (completionOf data) as [[| | |content| |]|]; try reflexivity.
  now rewrite (Hc content eq_refl).
Qed.

End AnalyzeFacts.

(** ** The API key of the explorer requests *)

Lemma issuesOnly_ret {R A : Type} (P : R -> Prop) (a : A) : issuesOnly P (@ret R A a).
Proof. intros log. exists []. now rewrite app_nil_r. Qed.

Lemma issuesOnly_throw {R A : Type} (P : R -> Prop) e : issuesOnly P (@throw R A e).
Proof. intros log. exists []. now rewrite app_nil_r. Qed.

Lemma issuesOnly_lift {R A : Type} (P : R -> Prop) (r : result A) :
  issuesOnly P (@lift R A r).
Proof. intros log. exists []. now rewrite app_nil_r. Qed.

Lemma issuesOnly_fetchWith {R A : Type} (P : R -> Prop)
      (oracle : list R -> R -> result A) (req : R) :
  P req -> issuesOnly P (fetchWith oracle req).
Proof. intros H log. exists [req]. split; [reflexivity|]. now constructor. Qed.

Lemma issuesOnly_bind {R A B : Type} (P : R -> Prop) (m : M R A) (k : A -> M R B) :
  issuesOnly P m -> (forall a, issuesOnly P (k a)) -> issuesOnly P (bind m k).
Proof.
  intros Hm Hk log. unfold bind.
  destruct (Hm log) as (new & E & Hnew).
  destruct (m log) as [l [a|e]]; cbn in E; subst l.
  - destruct (Hk a (log ++ new)%list) as (new' & E' & Hnew').
    exists (new ++ new')%list. rewrite E', app_assoc. split; [reflexivity|].
    now apply Forall_app.
  - now exists new.
Qed.

Lemma issuesOnly_bind_ok {R A B : Type} (P : R -> Prop) (a : A) (k : A -> M R B) :
  issuesOnly P (k a) -> issuesOnly P (bind (lift (Ok a)) k).
Proof. intros H log. apply H. Qed.

Lemma issuesOnly_tryCatch {R A : Type} (P : R -> Prop) (m : M R A) h :
  issuesOnly P m -> (forall e, issuesOnly P (h e)) -> issuesOnly P (tryCatch m h).
Proof.
  intros Hm Hh log. unfold tryCatch.
  destruct (Hm log) as (new & E & Hnew).
  destruct (m log) as [l [a|e]]; cbn in E; subst l.
  - now exists new.
  - destruct (Hh e (log ++ new)%list) as (new' & E' & Hnew').
    exists (new ++ new')%list. rewrite E', app_assoc. split; [reflexivity|].
    now apply Forall_app.
Qed.

Section ApiKeyFacts.

Variable JSON_parse : string -> option json.
Variable explorer : list Request -> Request -> result json.
Variables url chainId key : string.

Lemma contractParams_apikey action address :
  paramsGet "apikey" (contractParams action address key) = Some key.
Proof. apply paramsGet_paramsSet. Qed.

Lemma issuesOnly_fetchExplorer params :
  paramsGet "apikey" params = Some key ->
  issuesOnly (carriesApiKey key) (fetchExplorer explorer url chainId params).
Proof.
  intros Hp.
  assert (forall base useV2,
            issuesOnly (carriesApiKey key) (attempt explorer chainId params base useV2))
    as Hattempt.
  { intros base useV2. unfold attempt.
    apply issuesOnly_bind; [|intros; apply issuesOnly_ret].
    apply issuesOnly_fetchWith. unfold carriesApiKey. cbn.
    destruct (useV2 && negb (String.eqb chainId EmptyString)); [|exact Hp].
    rewrite paramsGet_paramsSet_other; [exact Hp|discriminate]. }
  unfold fetchExplorer.
  apply issuesOnly_bind; [apply Hattempt|].
  intros [json requestUrl].
  apply issuesOnly_bind; [apply issuesOnly_lift|].
  intros [|]; [apply Hattempt|apply issuesOnly_ret].
Qed.

Lemma issuesOnly_resolveFiles item sc :
  issuesOnly (carriesApiKey key)
             (resolveFiles JSON_parse explorer url chainId key item sc).
Proof.
  unfold resolveFiles.
  destruct (normalizedImplementation item) as [impl|]; [|apply issuesOnly_lift].
  apply issuesOnly_bind; [apply issuesOnly_lift|]. intros proxy.
  apply issuesOnly_bind;
    [apply issuesOnly_fetchExplorer, contractParams_apikey|].
  intros [implData implReq].
  apply issuesOnly_bind; [apply issuesOnly_lift|].
  intros [implItem|]; [|apply issuesOnly_ret].
  apply issuesOnly_bind; [apply issuesOnly_lift|]. intros implSource.
  apply issuesOnly_bind; [apply issuesOnly_lift|].
  intros; apply issuesOnly_ret.
Qed.

Lemma issuesOnly_resolveAbis address item :
  issuesOnly (carriesApiKey key)
             (resolveAbis JSON_parse explorer url chainId key address item).
Proof.
  unfold resolveAbis.
  apply issuesOnly_bind;
    [apply issuesOnly_fetchExplorer, contractParams_apikey|].
  intros [abiData abiReq].
  apply issuesOnly_bind; [apply issuesOnly_lift|].
  intros contractABI.
  destruct (normalizedImplementation item) as [impl|]; [|apply issuesOnly_ret].
  apply issuesOnly_bind;
    [apply issuesOnly_fetchExplorer, contractParams_apikey|].
  intros [implAbiData implAbiReq].
  apply issuesOnly_bind; [apply issuesOnly_lift|].
  intros; apply issuesOnly_ret.
Qed.

End ApiKeyFacts.

(** Every request of the handler carries the effective API key of the
    chain. *)
Lemma GET_issuesOnly_effectiveApiKey
      (JSON_parse : string -> option json)
      (explorer : list Request -> Request -> result json)
      (getApiScanConfig : string -> result (string * option string))
      (getChainId : string -> result (option string))
      (address : option string) (c url : string) (apiKey : option string) :
  getApiScanConfig c = Ok (url, apiKey) ->
  issuesOnly (carriesApiKey (effectiveApiKey apiKey))
             (GET JSON_parse explorer getApiScanConfig getChainId address (Some c)).
Proof.
  intros Hcfg. unfold GET.
  destruct address as [a|]; [|apply issuesOnly_ret].
  destruct (String.eqb a EmptyString || String.eqb c EmptyString);
    [apply issuesOnly_ret|].
  apply issuesOnly_tryCatch; [|intros; apply issuesOnly_ret].
  unfold resolve. rewrite Hcfg.
  apply issuesOnly_bind_ok.
  apply issuesOnly_bind; [apply issuesOnly_lift|]. intros cid.
  apply issuesOnly_bind;
    [apply issuesOnly_fetchExplorer, contractParams_apikey|].
  intros [data apiUrl].
  apply issuesOnly_bind; [apply issuesOnly_lift|].
  intros [item|]; [|apply issuesOnly_ret].
  destruct (strictEqStr (getProp item "SourceCode") EmptyString);
    [apply issuesOnly_ret|].
  apply issuesOnly_bind; [apply issuesOnly_lift|]. intros sc.
  apply issuesOnly_bind; [apply issuesOnly_lift|]. intros settings.
  apply issuesOnly_bind; [apply issuesOnly_resolveFiles|]. intros filteredFiles.
  apply issuesOnly_bind; [apply issuesOnly_resolveAbis|]. intros abis.
  apply issuesOnly_bind; [apply issuesOnly_lift|].
  intros; apply issuesOnly_ret.
Qed.

(** C8. [analyzeWithAI] throws, and issues no inference request, when the
    stored configuration is absent, when its [selectedModel] is not the id of
    a registered model, and when its [apiKey] is absent or trims to the empty
    string.  A request that is issued carries the stored key, trimmed: the
    key is never defaulted.  The explorer requests of the handler carry the
    placeholder token when the chain has no API key. *)
Theorem analyzeWithAI_requires_configuration
        (JSON_parse : string -> option json)
        (localStorage_getItem : string -> option string)
        (inference : list Ai.InferenceRequest -> Ai.InferenceRequest ->
                     result Ai.InferenceResponse)
        (prompt : string) (log : list Ai.InferenceRequest) :
  let analyze := Ai.analyzeWithAI JSON_parse localStorage_getItem inference prompt in
  (localStorage_getItem "ai_config" = None \/
   localStorage_getItem "ai_config" = Some EmptyString ->
   exists e, analyze log = (log, Throw e)) /\
  (forall saved config,
     localStorage_getItem "ai_config" = Some saved ->
     JSON_parse saved = Some config ->
     (forall m, In m NeversightModels.NEVERSIGHT_MODELS ->
                getProp config "selectedModel" <> Some (JStr (NeversightModels.id m))) \/
     getProp config "apiKey" = None \/
     getProp config "apiKey" = Some JNull \/
     (exists k, getProp config "apiKey" = Some (JStr k) /\ trim k = EmptyString) ->
     exists e, analyze log = (log, Throw e)) /\
  (forall log' r,
     analyze log = (log', r) -> log' <> log ->
     exists saved config k model,
       localStorage_getItem "ai_config" = Some saved /\
       JSON_parse saved = Some config /\
       getProp config "apiKey" = Some (JStr k) /\
       trim k <> EmptyString /\
       NeversightModels.getNeversightModelById (getProp config "selectedModel")
       = Some model /\
       log' = (log ++ [Ai.inferenceRequest (trim k) (NeversightModels.id model) prompt])%list /\
       Ai.authorization (Ai.inferenceRequest (trim k) (NeversightModels.id model) prompt)
       = "Bearer " ++ trim k) /\
  (forall explorer getApiScanConfig getChainId address c url apiKey,
     getApiScanConfig c = Ok (url, apiKey) ->
     apiKey = None \/ apiKey = Some EmptyString ->
     issuesOnly (carriesApiKey placeholderApiKey)
       (GET JSON_parse explorer getApiScanConfig getChainId address (Some c))).
Proof.
  intros analyze. subst analyze.
  split; [|split; [|split]].
  - intros Hnone.
    destruct (analyzeWithAI_cases JSON_parse localStorage_getItem inference prompt log)
      as [H|(model & key & saved & config & k & Hget & Hne & _)]; [exact H|].
    destruct Hnone; congruence.
  - intros saved config Hget Hparse Hbad.
    destruct (analyzeWithAI_cases JSON_parse localStorage_getItem inference prompt log)
      as [H|(model & key & saved' & config' & k & Hget' & _ & Hparse' & Hmodel
             & Hkey & Htrim & Hk)]; [exact H|].
    exfalso.
    rewrite Hget in Hget'. injection Hget' as <-.
    rewrite Hparse in Hparse'. injection Hparse' as <-.
    destruct Hbad as [Hbad|[Hbad|[Hbad|(k' & Hbad & Hempty)]]].
    + apply getNeversightModelById_registered in Hbad. congruence.
    + congruence.
    + congruence.
    + rewrite Hkey in Hbad. injection Hbad as <-. congruence.
  - intros log' r Hrun Hlog.
    destruct (analyzeWithAI_cases JSON_parse localStorage_getItem inference prompt log)
      as [(e & H)|(model & key & Hc)].
    + rewrite Hrun in H. injection H as -> _. contradiction.
    + pose proof Hc as (saved & config & k & Hget & _ & Hparse & Hmodel
                         & Hkey & Htrim & Hk).
      exists saved, config, k, model.
      rewrite (analyzeWithAI_configured _ _ _ _ _ _ _ Hc) in Hrun.
      pose proof (requestCompletion_log inference prompt key
                    (NeversightModels.id model) log) as Hl.
      rewrite Hrun in Hl. cbn in Hl. subst key.
      repeat split; try assumption.
  - intros explorer getApiScanConfig getChainId address c url apiKey Hcfg Hkey.
    replace placeholderApiKey with (effectiveApiKey apiKey)
      by (destruct Hkey as [-> | ->]; reflexivity).
    now apply GET_issuesOnly_effectiveApiKey with url.
Qed.

Lemma analyzeWithAI_requires_configuration_witness :
  let answer := Scenario.endpoint (Scenario.okResponse (Scenario.completion (JStr "ok"))) in
  (exists e, Ai.analyzeWithAI parseJson (Scenario.storage None) answer "audit" []
             = ([], Throw e)) /\
  (exists e, Ai.analyzeWithAI parseJson
               (Scenario.storage (Some (Scenario.savedConfig "sk-1" "openai/gpt-4")))
               answer "audit" [] = ([], Throw e)) /\
  (exists e, Ai.analyzeWithAI parseJson
               (Scenario.storage (Some (Scenario.savedConfig "   " Scenario.gpt)))
               answer "audit" [] = ([], Throw e)) /\
  issuesOnly (carriesApiKey placeholderApiKey)
    (GET parseJson (Scenario.explorerOf (Scenario.plainContract "contract Foo {}"))
         (fun _ => Ok (Scenario.etherscan, None)) (fun _ => Ok (Some "1"))
         (Some Scenario.contractAddress) (Some "ethereum")).
Proof.
  intros answer. split; [|split; [|split]].
  - apply (analyzeWithAI_requires_configuration parseJson (Scenario.storage None)
             answer "audit" []).
    left. reflexivity.
  - eapply (analyzeWithAI_requires_configuration parseJson
              (Scenario.storage (Some (Scenario.savedConfig "sk-1" "openai/gpt-4")))
              answer "audit" []); [reflexivity|reflexivity|].
    left. intros m Hin.
    repeat (destruct Hin as [<-|Hin]; [discriminate|]). destruct Hin.
  - eapply (analyzeWithAI_requires_configuration parseJson
              (Scenario.storage (Some (Scenario.savedConfig "   " Scenario.gpt)))
              answer "audit" []); [reflexivity|reflexivity|].
    right. right. right. exists "   ". split; reflexivity.
  - eapply (analyzeWithAI_requires_configuration parseJson (Scenario.storage None)
              answer "audit" []); [reflexivity|left; reflexivity].
Defined.

(** C9. When the decoded body of an accepted response has no string at
    [choices[0].message.content], or has the empty string there,
    [analyzeWithAI] throws the error of the malformed response, whose message
    differs from the message of every other error that it raises itself; when
    it returns, the result is that string and is not empty. *)
Theorem analyzeWithAI_malformed_response
        (JSON_parse : string -> option json)
        (localStorage_getItem : string -> option string)
        (inference : list Ai.InferenceRequest -> Ai.InferenceRequest ->
                     result Ai.InferenceResponse)
        (prompt : string) (log : list Ai.InferenceRequest) :
  let analyze := Ai.analyzeWithAI JSON_parse localStorage_getItem inference prompt in
  (forall model key response data,
     Ai.configured JSON_parse localStorage_getItem model key ->
     inference log (Ai.inferenceRequest key (NeversightModels.id model) prompt)
     = Ok response ->
     Ai.ok response = true ->
     Ai.body response = Ok data ->
     (forall content,
        Ai.completionOf data = Some (JStr content) -> content = EmptyString) ->
     analyze log =
     ((log ++ [Ai.inferenceRequest key (NeversightModels.id model) prompt])%list,
      Throw Ai.malformedResponse)) /\
  (forall log' s,
     analyze log = (log', Ok s) ->
     s <> EmptyString /\
     exists model key response data,
       Ai.configured JSON_parse localStorage_getItem model key /\
       inference log (Ai.inferenceRequest key (NeversightModels.id model) prompt)
       = Ok response /\
       Ai.ok response = true /\
       Ai.body response = Ok data /\
       Ai.completionOf data = Some (JStr s)) /\
  (Ai.malformedResponse <> "AI configuration not found" /\
   Ai.malformedResponse <> "Neversight API key not found" /\
   (forall selected, Ai.malformedResponse <> "Invalid model selected: " ++ selected) /\
   (forall details,
      Ai.malformedResponse <> "Neversight API request failed: " ++ details)).
Proof.
  intros analyze. subst analyze. split; [|split].
  - intros model key response data Hc Hr Hok Hb Hcontent.
    rewrite (analyzeWithAI_configured _ _ _ _ _ _ _ Hc).
    now apply requestCompletion_malformed with response data.
  - intros log' s Hrun.
    destruct (analyzeWithAI_cases JSON_parse localStorage_getItem inference prompt log)
      as [(e & H)|(model & key & Hc)]; [congruence|].
    rewrite (analyzeWithAI_configured _ _ _ _ _ _ _ Hc) in Hrun.
    apply requestCompletion_ok in Hrun as (Hs & response & data & Hr & Hok & Hb & Hd).
    split; [exact Hs|]. now exists model, key, response, data.
  - repeat split; try discriminate; intros x; discriminate.
Qed.

Lemma analyzeWithAI_malformed_response_witness :
  let store := Scenario.storage (Some (Scenario.savedConfig " sk-live " Scenario.gpt)) in
  let request :=
    Ai.inferenceRequest "sk-live" Scenario.gpt "audit" in
  Ai.analyzeWithAI parseJson store
    (Scenario.endpoint (Scenario.okResponse (Scenario.completion (JStr EmptyString))))
    "audit" [] = ([request], Throw Ai.malformedResponse) /\
  Ai.analyzeWithAI parseJson store
    (Scenario.endpoint (Scenario.okResponse (JObj [("choices", JArr [])])))
    "audit" [] = ([request], Throw Ai.malformedResponse) /\
  Ai.analyzeWithAI parseJson store
    (Scenario.endpoint (Scenario.okResponse (Scenario.completion (JStr "# Report"))))
    "audit" [] = ([request], Ok "# Report") /\
  "# Report" <> EmptyString.
Proof.
  intros store request.
  pose (model := {| NeversightModels.id := "openai/gpt-5.2";
                    NeversightModels.name := "GPT-5.2";
                    NeversightModels.description := Some "OpenAI GPT-5.2" |}).
  assert (Ai.configured parseJson store model "sk-live") as Hc.
  { exists (Scenario.savedConfig " sk-live " Scenario.gpt).
    eexists. exists " sk-live ".
    repeat split; try reflexivity; discriminate. }
  split; [|split; [|split]].
  - apply (proj1 (analyzeWithAI_malformed_response parseJson store
                    (Scenario.endpoint
                       (Scenario.okResponse (Scenario.completion (JStr EmptyString))))
                    "audit" [])
                 model "sk-live"
                 (Scenario.okResponse (Scenario.completion (JStr EmptyString)))
                 (Scenario.completion (JStr EmptyString))
                 Hc eq_refl eq_refl eq_refl).
    cbv. now intros content [= <-].
  - apply (proj1 (analyzeWithAI_malformed_response parseJson store
                    (Scenario.endpoint (Scenario.okResponse (JObj [("choices", JArr [])])))
                    "audit" [])
                 model "sk-live"
                 (Scenario.okResponse (JObj [("choices", JArr [])]))
                 (JObj [("choices", JArr [])])
                 Hc eq_refl eq_refl eq_refl).
    cbv. discriminate.
  - reflexivity.
  - apply (proj1 (proj2 (analyzeWithAI_malformed_response parseJson store
                           (Scenario.endpoint
                              (Scenario.okResponse (Scenario.completion (JStr "# Report"))))
                           "audit" []))
                 [request] "# Report").
    reflexivity.
Defined.

(* ===================================================================== *)
(** * Further properties of the handler *)
(* ===================================================================== *)

Lemma makeBundle_no_optimizer ff st item abis :
  getProp st "optimizer" = None \/ getProp st "optimizer" = Some JNull ->
  exists e, makeBundle ff st item abis = Throw e.
Proof.
  unfold makeBundle. intros H.
  destruct st; cbn [prop rbind]; try (now eexists);
    destruct H as [-> | ->]; now eexists.
Qed.

Section ResponseFacts.

Variable JSON_parse : string -> option json.
Variable explorer : list Request -> Request -> result json.
Variable getApiScanConfig : string -> result (string * option string).
Variable getChainId : string -> result (option string).

Local Abbreviation handler := (GET JSON_parse explorer getApiScanConfig getChainId).

(** The handler never throws. *)
Lemma GET_answers address chain log :
  exists response, snd (handler address chain log) = Ok response.
Proof.
  unfold GET.
  destruct address as [a|]; [|now eexists].
  destruct chain as [c|]; [|now eexists].
  destruct (String.eqb a EmptyString || String.eqb c EmptyString); [now eexists|].
  unfold tryCatch.
  destruct (resolve _ _ _ _ a c log) as [l [r|e]]; now eexists.
Qed.

Lemma GET_bad_request address chain log :
  address = None \/ address = Some EmptyString \/
  chain = None \/ chain = Some EmptyString ->
  handler address chain log = (log, Ok BadRequest).
Proof.
  unfold GET. intros [-> | [-> | [-> | ->]]]; try reflexivity.
  - now destruct chain.
  - now destruct address.
  - destruct address as [a|]; [|reflexivity].
    now rewrite orb_true_r.
Qed.

Variables (a c url : string) (apiKey cid : option string).
Variables (data : json) (req : Request).
Variables (log l1 : list Request).

Hypothesis address_given : a <> EmptyString.
Hypothesis chain_given : c <> EmptyString.

Lemma GET_registry_error e :
  getApiScanConfig c = Throw e \/
  (exists cfg, getApiScanConfig c = Ok cfg /\ getChainId c = Throw e) ->
  handler (Some a) (Some c) log = (log, Ok InternalError).
Proof.
  unfold GET.
  destruct (String.eqb_spec a EmptyString); [contradiction|].
  destruct (String.eqb_spec c EmptyString); [contradiction|].
  cbn [orb]. unfold tryCatch, resolve.
  intros [H|([u k] & H1 & H2)].
  - unfold bind at 1. unfold lift at 1. now rewrite H.
  - unfold bind at 1. unfold lift at 1. rewrite H1.
    unfold bind at 1. unfold lift at 1. now rewrite H2.
Qed.

Hypothesis registry_url : getApiScanConfig c = Ok (url, apiKey).
Hypothesis registry_id : getChainId c = Ok cid.
Hypothesis source_fetched :
  fetchExplorer explorer url (chainIdOrEmpty cid)
    (contractParams "getsourcecode" a (effectiveApiKey apiKey)) log
  = (l1, Ok (data, req)).

Lemma GET_source_fetch_error l e :
  fetchExplorer explorer url (chainIdOrEmpty cid)
    (contractParams "getsourcecode" a (effectiveApiKey apiKey)) log
  = (l, Throw e) ->
  handler (Some a) (Some c) log = (l, Ok InternalError).
Proof.
  intros H. unfold GET.
  destruct (String.eqb_spec a EmptyString); [contradiction|].
  destruct (String.eqb_spec c EmptyString); [contradiction|].
  cbn [orb]. unfold tryCatch, resolve.
  unfold bind at 1. unfold lift at 1. rewrite registry_url.
  unfold bind at 1. unfold lift at 1. rewrite registry_id.
  unfold bind at 1. now rewrite H.
Qed.

Lemma GET_not_verified item :
  successItem data = Ok (Some item) ->
  getProp item "SourceCode" = Some (JStr EmptyString) ->
  handler (Some a) (Some c) log = (l1, Ok NotVerified).
Proof.
  intros Hitem Hsc. unfold GET.
  destruct (String.eqb_spec a EmptyString); [contradiction|].
  destruct (String.eqb_spec c EmptyString); [contradiction|].
  cbn [orb]. unfold tryCatch, resolve.
  unfold bind at 1. unfold lift at 1. rewrite registry_url.
  unfold bind at 1. unfold lift at 1. rewrite registry_id.
  unfold bind at 1. rewrite source_fetched.
  unfold bind at 1. unfold lift at 1. rewrite Hitem, Hsc. reflexivity.
Qed.

Lemma GET_explorer_failure :
  successItem data = Ok None ->
  handler (Some a) (Some c) log =
  (l1, Ok (ExplorerFailure (getProp data "status") (getProp data "message")
                           (getProp data "result") (apiKeyModeOf apiKey))).
Proof.
  intros Hitem. unfold GET.
  destruct (String.eqb_spec a EmptyString); [contradiction|].
  destruct (String.eqb_spec c EmptyString); [contradiction|].
  cbn [orb]. unfold tryCatch, resolve.
  unfold bind at 1. unfold lift at 1. rewrite registry_url.
  unfold bind at 1. unfold lift at 1. rewrite registry_id.
  unfold bind at 1. rewrite source_fetched.
  unfold bind at 1. unfold lift at 1. rewrite Hitem.
  apply successItem_none in Hitem as [Hn _].
  unfold ret, apiKeyModeOf. now destruct data.
Qed.

Lemma GET_null_answer :
  data = JNull -> handler (Some a) (Some c) log = (l1, Ok InternalError).
Proof.
  intros Hd. unfold GET.
  destruct (String.eqb_spec a EmptyString); [contradiction|].
  destruct (String.eqb_spec c EmptyString); [contradiction|].
  cbn [orb]. unfold tryCatch, resolve.
  unfold bind at 1. unfold lift at 1. rewrite registry_url.
  unfold bind at 1. unfold lift at 1. rewrite registry_id.
  unfold bind at 1. rewrite source_fetched.
  unfold bind at 1. unfold lift at 1. now rewrite Hd.
Qed.

Lemma GET_source_not_string item :
  successItem data = Ok (Some item) ->
  (forall s, getProp item "SourceCode" <> Some (JStr s)) ->
  handler (Some a) (Some c) log = (l1, Ok InternalError).
Proof.
  intros Hitem Hsc. unfold GET.
  destruct (String.eqb_spec a EmptyString); [contradiction|].
  destruct (String.eqb_spec c EmptyString); [contradiction|].
  cbn [orb]. unfold tryCatch, resolve.
  unfold bind at 1. unfold lift at 1. rewrite registry_url.
  unfold bind at 1. unfold lift at 1. rewrite registry_id.
  unfold bind at 1. rewrite source_fetched.
  unfold bind at 1. unfold lift at 1. rewrite Hitem.
  unfold sourceCodeOf.
  destruct (getProp item "SourceCode") as [[| | |s| |]|] eqn:E; try reflexivity.
  now destruct (Hsc s).
Qed.

End ResponseFacts.

(** X1. The handler never throws: every run ends in a response.  Without an
    address or a chain (absent or empty) the response is the bad request and
    nothing is asked of the registry or of the explorer; when the registry
    lookup of the chain throws, it is the internal error, again without a
    request. *)
Theorem GET_always_answers
        (JSON_parse : string -> option json)
        (explorer : list Request -> Request -> result json)
        (getApiScanConfig : string -> result (string * option string))
        (getChainId : string -> result (option string))
        (address chain : option string) (log : list Request) :
  (exists response,
     snd (GET JSON_parse explorer getApiScanConfig getChainId address chain log)
     = Ok response) /\
  (address = None \/ address = Some EmptyString \/
   chain = None \/ chain = Some EmptyString ->
   GET JSON_parse explorer getApiScanConfig getChainId address chain log
   = (log, Ok BadRequest)) /\
  (forall a c e,
     address = Some a -> chain = Some c ->
     a <> EmptyString -> c <> EmptyString ->
     getApiScanConfig c = Throw e \/
     (exists cfg, getApiScanConfig c = Ok cfg /\ getChainId c = Throw e) ->
     GET JSON_parse explorer getApiScanConfig getChainId address chain log
     = (log, Ok InternalError)).
Proof.
  split; [apply GET_answers|]. split; [apply GET_bad_request|].
  intros a c e -> -> Ha Hc H. now apply GET_registry_error with e.
Qed.

Lemma GET_always_answers_witness :
  GET parseJson Scenario.deprecatedExplorer
      (fun _ => Throw "Unsupported chain") (fun _ => Ok None)
      (Some Scenario.contractAddress) (Some "ethereum") []
  = ([], Ok InternalError) /\
  GET parseJson Scenario.deprecatedExplorer
      (fun _ => Throw "Unsupported chain") (fun _ => Ok None)
      (Some Scenario.contractAddress) None []
  = ([], Ok BadRequest).
Proof.
  split.
  - apply (proj2 (proj2 (GET_always_answers parseJson Scenario.deprecatedExplorer
                           (fun _ => Throw "Unsupported chain") (fun _ => Ok None)
                           (Some Scenario.contractAddress) (Some "ethereum") []))
                 Scenario.contractAddress "ethereum" "Unsupported chain");
      try reflexivity; try discriminate.
    left. reflexivity.
  - apply (proj1 (proj2 (GET_always_answers parseJson Scenario.deprecatedExplorer
                           (fun _ => Throw "Unsupported chain") (fun _ => Ok None)
                           (Some Scenario.contractAddress) None []))).
    right. right. left. reflexivity.
Defined.

(** X2. When the first result item of a successful answer has the empty
    string as [SourceCode], the response is the 404 of an unverified
    contract, whatever else the item reports (an implementation included),
    and no further request is issued: neither the ABI nor an implementation
    is asked for. *)
Theorem GET_unverified_source
        (JSON_parse : string -> option json)
        (explorer : list Request -> Request -> result json)
        (getApiScanConfig : string -> result (string * option string))
        (getChainId : string -> result (option string))
        (a c url : string) (apiKey cid : option string)
        (data : json) (req : Request) (item : json)
        (log l1 : list Request) :
  a <> EmptyString -> c <> EmptyString ->
  getApiScanConfig c = Ok (url, apiKey) ->
  getChainId c = Ok cid ->
  fetchExplorer explorer url (chainIdOrEmpty cid)
    (contractParams "getsourcecode" a (effectiveApiKey apiKey)) log
  = (l1, Ok (data, req)) ->
  getProp data "status" = Some (JStr "1") ->
  getFirstSourceItem data = Some item ->
  getProp item "SourceCode" = Some (JStr EmptyString) ->
  GET JSON_parse explorer getApiScanConfig getChainId (Some a) (Some c) log
  = (l1, Ok NotVerified).
Proof.
  intros Ha Hc Hurl Hid Hfetch Hstatus Hitem Hsc.
  apply (GET_not_verified JSON_parse explorer getApiScanConfig getChainId
           a c url apiKey cid data req log l1 Ha Hc Hurl Hid Hfetch item);
    [|exact Hsc].
  unfold successItem. rewrite prop_nonnull by (intros ->; discriminate).
  cbn [rbind]. now rewrite Hstatus, Hitem.
Qed.

Lemma GET_unverified_source_witness :
  let table :=
    [("getsourcecode", Scenario.contractAddress,
      Scenario.success
        (JArr [Scenario.sourceItem EmptyString "" Scenario.implementationAddress]))] in
  Scenario.run table Scenario.contractAddress =
  ([ {| baseUrl := Scenario.etherscan;
        query := Scenario.sourceRequest Scenario.contractAddress |} ],
   Ok NotVerified).
Proof.
  intros table.
  eapply (GET_unverified_source parseJson (Scenario.explorerOf table)
            (fun _ => Ok (Scenario.etherscan, None)) (fun _ => Ok (Some "1"))
            Scenario.contractAddress "ethereum" Scenario.etherscan None (Some "1"));
    try reflexivity; discriminate.
Defined.

(** X3. When the answer to the source request is not a success with an
    object as first result item (its status is not the string ["1"], its
    result is not an array, the array is empty or starts with a primitive or
    [null]), the response is the 502 that carries the status, the message
    and the result of the answer as they are, and the key mode, [custom]
    exactly when the chain has a non-empty API key; no other request is
    issued.  An answer that is the JSON [null] gives the 500 instead, and so
    does an answer of status ["0"] whose [result] or [message] does not
    convert to a string: the deprecation test throws on it. *)
Theorem GET_explorer_failure_diagnostics
        (JSON_parse : string -> option json)
        (explorer : list Request -> Request -> result json)
        (getApiScanConfig : string -> result (string * option string))
        (getChainId : string -> result (option string))
        (a c url : string) (apiKey cid : option string)
        (log : list Request) :
  a <> EmptyString -> c <> EmptyString ->
  getApiScanConfig c = Ok (url, apiKey) ->
  getChainId c = Ok cid ->
  let sourceRequest :=
    v1Request url (contractParams "getsourcecode" a (effectiveApiKey apiKey)) in
  (forall data req l1,
     fetchExplorer explorer url (chainIdOrEmpty cid)
       (contractParams "getsourcecode" a (effectiveApiKey apiKey)) log
     = (l1, Ok (data, req)) ->
     data <> JNull ->
     strictEqStr (getProp data "status") "1" = false \/
     getFirstSourceItem data = None ->
     GET JSON_parse explorer getApiScanConfig getChainId (Some a) (Some c) log
     = (l1, Ok (ExplorerFailure (getProp data "status") (getProp data "message")
                                (getProp data "result") (apiKeyModeOf apiKey)))) /\
  (forall req l1,
     fetchExplorer explorer url (chainIdOrEmpty cid)
       (contractParams "getsourcecode" a (effectiveApiKey apiKey)) log
     = (l1, Ok (JNull, req)) ->
     GET JSON_parse explorer getApiScanConfig getChainId (Some a) (Some c) log
     = (l1, Ok InternalError)) /\
  (forall first e,
     explorer log sourceRequest = Ok first ->
     v1Deprecated first = Throw e ->
     GET JSON_parse explorer getApiScanConfig getChainId (Some a) (Some c) log
     = ((log ++ [sourceRequest])%list, Ok InternalError)) /\
  (apiKeyModeOf apiKey = "custom" <->
   exists k, apiKey = Some k /\ k <> EmptyString).
Proof.
  intros Ha Hc Hurl Hid sourceRequest.
  split; [|split; [|split]].
  - intros data req l1 Hfetch Hn H.
    apply (GET_explorer_failure JSON_parse explorer getApiScanConfig getChainId
             a c url apiKey cid data req log l1 Ha Hc Hurl Hid Hfetch).
    now apply successItem_none.
  - intros req l1 Hfetch.
    now apply (GET_null_answer JSON_parse explorer getApiScanConfig getChainId
                 a c url apiKey cid JNull req log l1 Ha Hc Hurl Hid Hfetch).
  - intros first e H1 Hd.
    apply (GET_source_fetch_error JSON_parse explorer getApiScanConfig getChainId
             a c url apiKey cid log Ha Hc Hurl Hid _ e).
    now apply fetchExplorer_unconvertible with first.
  - unfold apiKeyModeOf. destruct apiKey as [k|]; cbn.
    + destruct (String.eqb_spec k EmptyString) as [->|Hk]; cbn.
      * split; [discriminate|]. now intros (k' & [= <-] & H).
      * split; [|reflexivity]. intros _. now exists k.
    + split; [discriminate|]. now intros (k' & [=] & _).
Qed.

Lemma GET_explorer_failure_diagnostics_witness :
  Scenario.run Scenario.rejected Scenario.contractAddress =
  ([ {| baseUrl := Scenario.etherscan;
        query := Scenario.sourceRequest Scenario.contractAddress |} ],
   Ok (ExplorerFailure (Some (JStr "0")) (Some (JStr "NOTOK"))
                       (Some (JStr "Invalid API Key")) "public")) /\
  Scenario.run [("getsourcecode", Scenario.contractAddress,
                 Scenario.unconvertibleAnswer)] Scenario.contractAddress =
  ([ {| baseUrl := Scenario.etherscan;
        query := Scenario.sourceRequest Scenario.contractAddress |} ],
   Ok InternalError).
Proof.
  split.
  - edestruct (GET_explorer_failure_diagnostics parseJson
                 (Scenario.explorerOf Scenario.rejected)
                 (fun _ => Ok (Scenario.etherscan, None)) (fun _ => Ok (Some "1"))
                 Scenario.contractAddress "ethereum" Scenario.etherscan None
                 (Some "1") [])
      as (H & _);
      [discriminate|discriminate|reflexivity|reflexivity|].
    apply (H (Scenario.failure "Invalid API Key")
             {| baseUrl := Scenario.etherscan;
                query := Scenario.sourceRequest Scenario.contractAddress |});
      [reflexivity|discriminate|left; reflexivity].
  - edestruct (GET_explorer_failure_diagnostics parseJson
                 (Scenario.explorerOf
                    [("getsourcecode", Scenario.contractAddress,
                      Scenario.unconvertibleAnswer)])
                 (fun _ => Ok (Scenario.etherscan, None)) (fun _ => Ok (Some "1"))
                 Scenario.contractAddress "ethereum" Scenario.etherscan None
                 (Some "1") [])
      as (_ & _ & H & _);
      [discriminate|discriminate|reflexivity|reflexivity|].
    apply (H Scenario.unconvertibleAnswer "TypeError"); reflexivity.
Defined.

Lemma abiOf_nonnull (JSON_parse : string -> option json) (abiData : json) :
  abiData <> JNull ->
  abiOf JSON_parse abiData =
  Ok (if strictEqStr (getProp abiData "status") "1" then
        match getProp abiData "result" with
        | Some (JStr text) =>
            match JSON_parse text with
            | Some v => v
            | None => JArr []
            end
        | _ => JArr []
        end
      else JArr []).
Proof.
  intros Hn. unfold abiOf. rewrite !prop_nonnull by assumption. cbn [rbind].
  destruct (strictEqStr _ _); [|reflexivity].
  destruct (getProp abiData "result") as [[| | |text| |]|]; try reflexivity.
  now destruct (JSON_parse text).
Qed.

Section AfterSourceFacts.

Variable JSON_parse : string -> option json.
Variable explorer : list Request -> Request -> result json.
Variable getApiScanConfig : string -> result (string * option string).
Variable getChainId : string -> result (option string).

Variables (a c url : string) (apiKey cid : option string).
Variables (data : json) (req : Request) (item : json) (sc : string).
Variables (st : json) (pushed : list ContractFile).
Variables (log l1 : list Request).

Hypothesis address_given : a <> EmptyString.
Hypothesis chain_given : c <> EmptyString.
Hypothesis registry_url : getApiScanConfig c = Ok (url, apiKey).
Hypothesis registry_id : getChainId c = Ok cid.
Hypothesis source_fetched :
  fetchExplorer explorer url (chainIdOrEmpty cid)
    (contractParams "getsourcecode" a (effectiveApiKey apiKey)) log
  = (l1, Ok (data, req)).
Hypothesis source_item : successItem data = Ok (Some item).
Hypothesis source_code : getProp item "SourceCode" = Some (JStr sc).
Hypothesis source_verified : sc <> EmptyString.
Hypothesis settings_resolved : resolveSettings JSON_parse item sc = Ok st.

Local Abbreviation handler := (GET JSON_parse explorer getApiScanConfig getChainId).
Local Abbreviation after_source :=
  (GET_after_source JSON_parse explorer getApiScanConfig getChainId
     a c url apiKey cid data req item sc st log l1
     address_given chain_given registry_url registry_id source_fetched
     source_item source_code source_verified settings_resolved).

(** A settings value without an optimizer makes the response the internal
    error, wherever the handler gets to before. *)
Lemma GET_no_optimizer :
  getProp st "optimizer" = None \/ getProp st "optimizer" = Some JNull ->
  snd (handler (Some a) (Some c) log) = Ok InternalError.
Proof.
  intros H. rewrite after_source. unfold tryCatch, bind.
  destruct (resolveFiles _ _ _ _ _ _ _ l1) as [l2 [ff|e]]; [|reflexivity].
  destruct (resolveAbis _ _ _ _ _ _ _ l2) as [l3 [abis|e]]; [|reflexivity].
  unfold lift.
  destruct (makeBundle_no_optimizer ff _ item abis H) as [e ->]. reflexivity.
Qed.

Hypothesis plain_pushed : plainFiles JSON_parse item sc = Ok pushed.

Lemma resolveFiles_plain_pushed :
  isProxy item = false ->
  resolveFiles JSON_parse explorer url (chainIdOrEmpty cid)
    (effectiveApiKey apiKey) item sc l1 = (l1, Ok pushed).
Proof.
  intros Hplain. rewrite resolveFiles_plain by assumption.
  now rewrite plain_pushed.
Qed.

(** The steps after the files of a contract that is not a proxy. *)
Lemma GET_plain_abi abiData abiReq l2 bundle :
  isProxy item = false ->
  fetchExplorer explorer url (chainIdOrEmpty cid)
    (contractParams "getabi" a (effectiveApiKey apiKey)) l1
  = (l2, Ok (abiData, abiReq)) ->
  abiData <> JNull ->
  makeBundle pushed st
    item
    (if strictEqStr (getProp abiData "status") "1" then
       match getProp abiData "result" with
       | Some (JStr text) =>
           match JSON_parse text with
           | Some v => v
           | None => JArr []
           end
       | _ => JArr []
       end
     else JArr [], JArr []) = Ok bundle ->
  handler (Some a) (Some c) log = (l2, Ok (Resolved bundle)).
Proof.
  intros Hplain Hfetch Hn Hb. rewrite after_source. unfold tryCatch.
  rewrite (bind_ok _ _ _ _ _ (resolveFiles_plain_pushed Hplain)).
  assert (normalizedImplementation item = None) as Hnone.
  { unfold isProxy in Hplain. now destruct (normalizedImplementation item). }
  unfold resolveAbis. rewrite Hnone.
  unfold bind at 1. unfold bind at 1. rewrite Hfetch.
  unfold bind at 1. unfold lift at 1. rewrite (abiOf_nonnull _ _ Hn).
  unfold ret at 1. unfold bind, lift. now rewrite Hb.
Qed.

Lemma GET_plain_abi_error l2 e :
  isProxy item = false ->
  fetchExplorer explorer url (chainIdOrEmpty cid)
    (contractParams "getabi" a (effectiveApiKey apiKey)) l1
  = (l2, Throw e) ->
  handler (Some a) (Some c) log = (l2, Ok InternalError).
Proof.
  intros Hplain Hfetch. rewrite after_source. unfold tryCatch.
  rewrite (bind_ok _ _ _ _ _ (resolveFiles_plain_pushed Hplain)).
  assert (normalizedImplementation item = None) as Hnone.
  { unfold isProxy in Hplain. now destruct (normalizedImplementation item). }
  unfold resolveAbis. rewrite Hnone.
  unfold bind at 1. unfold bind at 1. now rewrite Hfetch.
Qed.

End AfterSourceFacts.

Lemma makeBundle_ok ff st item abis optimizer :
  getProp st "optimizer" = Some optimizer ->
  optimizer <> JNull ->
  makeBundle ff st item abis =
  Ok {| files := ff;
        settings := st;
        contractName := getProp item "ContractName";
        compiler := getProp item "CompilerVersion";
        optimization := getProp optimizer "enabled";
        runs := getProp optimizer "runs";
        abi := fst abis;
        implementationAbi := snd abis |}.
Proof.
  intros Ho Hn. unfold makeBundle.
  rewrite prop_nonnull by (intros ->; discriminate). cbn [rbind]. rewrite Ho.
  cbn [propOpt]. now rewrite !prop_nonnull by assumption.
Qed.

(** X4. When the packed multi-file JSON of a verified source carries a
    truthy [settings] value that has no [optimizer] (or a [null] one), the
    response is the internal error: reading [settings.optimizer.enabled]
    for the response throws, whatever the files and the ABI were. *)
Theorem GET_settings_without_optimizer
        (JSON_parse : string -> option json)
        (explorer : list Request -> Request -> result json)
        (getApiScanConfig : string -> result (string * option string))
        (getChainId : string -> result (option string))
        (a c url : string) (apiKey cid : option string)
        (data : json) (req : Request) (item : json) (sc : string)
        (parsed v : json) (log l1 : list Request) :
  a <> EmptyString -> c <> EmptyString ->
  getApiScanConfig c = Ok (url, apiKey) ->
  getChainId c = Ok cid ->
  fetchExplorer explorer url (chainIdOrEmpty cid)
    (contractParams "getsourcecode" a (effectiveApiKey apiKey)) log
  = (l1, Ok (data, req)) ->
  getProp data "status" = Some (JStr "1") ->
  getFirstSourceItem data = Some item ->
  getProp item "SourceCode" = Some (JStr sc) ->
  startsWith sc "{" = true ->
  JSON_parse (unwrapBraces sc) = Some parsed ->
  getProp parsed "settings" = Some v ->
  truthy v = true ->
  getProp v "optimizer" = None \/ getProp v "optimizer" = Some JNull ->
  snd (GET JSON_parse explorer getApiScanConfig getChainId (Some a) (Some c) log)
  = Ok InternalError.
Proof.
  intros Ha Hc Hurl Hid Hfetch Hstatus Hitem Hsc Hs Hp Hv Ht Ho.
  assert (successItem data = Ok (Some item)) as Hsucc.
  { unfold successItem. rewrite prop_nonnull by (intros ->; discriminate).
    cbn [rbind]. now rewrite Hstatus, Hitem. }
  assert (sc <> EmptyString) as Hne by (intros ->; discriminate).
  apply (GET_no_optimizer JSON_parse explorer getApiScanConfig getChainId
           a c url apiKey cid data req item sc v log l1
           Ha Hc Hurl Hid Hfetch Hsucc Hsc Hne
           (resolveSettings_parsed _ _ _ _ _ Hs Hp Hv Ht)).
  exact Ho.
Qed.

Lemma GET_settings_without_optimizer_witness :
  snd (Scenario.run (Scenario.plainContract Scenario.noOptimizerSource)
                    Scenario.contractAddress) = Ok InternalError.
Proof.
  eapply (GET_settings_without_optimizer parseJson
            (Scenario.explorerOf (Scenario.plainContract Scenario.noOptimizerSource))
            (fun _ => Ok (Scenario.etherscan, None)) (fun _ => Ok (Some "1"))
            Scenario.contractAddress "ethereum" Scenario.etherscan None (Some "1"));
    try reflexivity; try discriminate.
  left. reflexivity.
Defined.

(** X5. The ABI is auxiliary as long as its request is answered.  For a
    verified contract that is not a proxy, whose first pass, settings and
    files were computed without an exception and whose settings have an
    optimizer, every answer to the ABI request other than the JSON [null]
    gives a resolved bundle with the plain files: its [abi] is the parsed
    [result] when the status is ["1"] and the result is a string that
    parses, and the empty array in every other case; [implementationAbi] is
    the empty array.  When the fetch of the ABI itself fails, or the
    deprecation test of its answer throws, the response is the internal
    error. *)
Theorem GET_abi_is_auxiliary
        (JSON_parse : string -> option json)
        (explorer : list Request -> Request -> result json)
        (getApiScanConfig : string -> result (string * option string))
        (getChainId : string -> result (option string))
        (a c url : string) (apiKey cid : option string)
        (data : json) (req : Request) (item : json) (sc : string)
        (st optimizer : json) (pushed : list ContractFile)
        (log l1 : list Request) :
  a <> EmptyString -> c <> EmptyString ->
  getApiScanConfig c = Ok (url, apiKey) ->
  getChainId c = Ok cid ->
  fetchExplorer explorer url (chainIdOrEmpty cid)
    (contractParams "getsourcecode" a (effectiveApiKey apiKey)) log
  = (l1, Ok (data, req)) ->
  getProp data "status" = Some (JStr "1") ->
  getFirstSourceItem data = Some item ->
  getProp item "SourceCode" = Some (JStr sc) ->
  sc <> EmptyString ->
  isProxy item = false ->
  resolveSettings JSON_parse item sc = Ok st ->
  getProp st "optimizer" = Some optimizer ->
  optimizer <> JNull ->
  plainFiles JSON_parse item sc = Ok pushed ->
  let abiRequest :=
    v1Request url (contractParams "getabi" a (effectiveApiKey apiKey)) in
  (forall abiData abiReq l2,
     fetchExplorer explorer url (chainIdOrEmpty cid)
       (contractParams "getabi" a (effectiveApiKey apiKey)) l1
     = (l2, Ok (abiData, abiReq)) ->
     abiData <> JNull ->
     exists bundle,
       GET JSON_parse explorer getApiScanConfig getChainId (Some a) (Some c) log
       = (l2, Ok (Resolved bundle)) /\
       files bundle = pushed /\
       implementationAbi bundle = JArr [] /\
       (forall text v,
          getProp abiData "status" = Some (JStr "1") ->
          getProp abiData "result" = Some (JStr text) ->
          JSON_parse text = Some v ->
          abi bundle = v) /\
       (strictEqStr (getProp abiData "status") "1" = false \/
        (forall text, getProp abiData "result" <> Some (JStr text)) \/
        (exists text, getProp abiData "result" = Some (JStr text) /\
                      JSON_parse text = None) ->
        abi bundle = JArr [])) /\
  (forall l2 e,
     fetchExplorer explorer url (chainIdOrEmpty cid)
       (contractParams "getabi" a (effectiveApiKey apiKey)) l1
     = (l2, Throw e) ->
     GET JSON_parse explorer getApiScanConfig getChainId (Some a) (Some c) log
     = (l2, Ok InternalError)) /\
  (forall first e,
     explorer l1 abiRequest = Ok first ->
     v1Deprecated first = Throw e ->
     GET JSON_parse explorer getApiScanConfig getChainId (Some a) (Some c) log
     = ((l1 ++ [abiRequest])%list, Ok InternalError)).
Proof.
  intros Ha Hc Hurl Hid Hfetch Hstatus Hitem Hsc Hne Hplain Hst Ho Hon Hpushed
         abiRequest.
  assert (successItem data = Ok (Some item)) as Hsucc.
  { unfold successItem. rewrite prop_nonnull by (intros ->; discriminate).
    cbn [rbind]. now rewrite Hstatus, Hitem. }
  assert (forall l2 e,
            fetchExplorer explorer url (chainIdOrEmpty cid)
              (contractParams "getabi" a (effectiveApiKey apiKey)) l1
            = (l2, Throw e) ->
            GET JSON_parse explorer getApiScanConfig getChainId (Some a) (Some c) log
            = (l2, Ok InternalError)) as Hthrow.
  { intros l2 e Habi.
    now apply (GET_plain_abi_error JSON_parse explorer getApiScanConfig getChainId
                 a c url apiKey cid data req item sc st pushed log l1
                 Ha Hc Hurl Hid Hfetch Hsucc Hsc Hne Hst Hpushed l2 e Hplain Habi). }
  split; [|split; [exact Hthrow|]].
  - intros abiData abiReq l2 Habi Hn.
    eexists. split.
    + apply (GET_plain_abi JSON_parse explorer getApiScanConfig getChainId
               a c url apiKey cid data req item sc st pushed log l1
               Ha Hc Hurl Hid Hfetch Hsucc Hsc Hne Hst Hpushed abiData abiReq l2 _
               Hplain Habi Hn).
      apply (makeBundle_ok _ _ _ _ optimizer Ho Hon).
    + cbn [files implementationAbi abi fst snd].
      split; [reflexivity|]. split; [reflexivity|]. split.
      * intros text v Hs Hr Hp. rewrite Hs, Hr, Hp. reflexivity.
      * intros [H|[H|(text & Hr & Hp)]].
        -- now rewrite H.
        -- destruct (strictEqStr _ _); [|reflexivity].
           destruct (getProp abiData "result") as [[| | |text| |]|];
             try reflexivity.
           now destruct (H text).
        -- rewrite Hr, Hp. now destruct (strictEqStr _ _).
  - intros first e H1 Hd. apply (Hthrow _ e).
    now apply fetchExplorer_unconvertible with first.
Qed.

Lemma GET_abi_is_auxiliary_witness :
  let source :=
    ("getsourcecode", Scenario.contractAddress,
     Scenario.success (JArr [Scenario.sourceItem "contract Foo {}" "Foo" EmptyString])) in
  let table :=
    [source;
     ("getabi", Scenario.contractAddress,
      Scenario.failure "Contract source code not verified")] in
  (exists bundle log,
     Scenario.run table Scenario.contractAddress = (log, Ok (Resolved bundle)) /\
     abi bundle = JArr [] /\
     implementationAbi bundle = JArr []) /\
  snd (Scenario.run
         [source; ("getabi", Scenario.contractAddress, Scenario.unconvertibleAnswer)]
         Scenario.contractAddress) = Ok InternalError.
Proof.
  intros source table. split.
  - edestruct (GET_abi_is_auxiliary parseJson (Scenario.explorerOf table)
                 (fun _ => Ok (Scenario.etherscan, None)) (fun _ => Ok (Some "1"))
                 Scenario.contractAddress "ethereum" Scenario.etherscan None
                 (Some "1"))
      as [Hanswered _];
      [discriminate | discriminate | reflexivity | reflexivity | reflexivity
      | reflexivity | reflexivity | reflexivity | discriminate | reflexivity
      | reflexivity | reflexivity | discriminate | reflexivity | ].
    edestruct Hanswered as (bundle & HGET & _ & Himpl & _ & Hempty);
      [reflexivity | discriminate | ].
    exists bundle. eexists. split; [exact HGET|]. split; [|exact Himpl].
    apply Hempty. left. reflexivity.
  - edestruct (GET_abi_is_auxiliary parseJson
                 (Scenario.explorerOf
                    [source;
                     ("getabi", Scenario.contractAddress,
                      Scenario.unconvertibleAnswer)])
                 (fun _ => Ok (Scenario.etherscan, None)) (fun _ => Ok (Some "1"))
                 Scenario.contractAddress "ethereum" Scenario.etherscan None
                 (Some "1"))
      as (_ & _ & Hunconvertible);
      [discriminate | discriminate | reflexivity | reflexivity | reflexivity
      | reflexivity | reflexivity | reflexivity | discriminate | reflexivity
      | reflexivity | reflexivity | discriminate | reflexivity | ].
    unfold Scenario.run.
    erewrite (Hunconvertible Scenario.unconvertibleAnswer); reflexivity.
Defined.

(** ** Files *)

Lemma role_prefixes_disjoint (s : string) :
  startsWith s "proxy/" = true -> startsWith s "implementation/" = false.
Proof.
  destruct s as [|ch s]; [discriminate|]. cbn [startsWith].
  destruct (Ascii.eqb_spec "p" ch) as [<-|]; [reflexivity|discriminate].
Qed.

Lemma fileOfEntry_addPrefix (prefix : string) (entry : string * json) :
  fileOfEntry prefix entry = addPrefix prefix (fileOfEntry EmptyString entry).
Proof. reflexivity. Qed.

Lemma roleFiles_addPrefix
      (JSON_parse : string -> option json)
      (prefix : string) (item : json) (sc : string) :
  roleFiles JSON_parse prefix item sc =
  rmap (map (addPrefix prefix)) (roleFiles JSON_parse EmptyString item sc).
Proof.
  destruct (source_cases JSON_parse sc) as [H|(parsed & Hs & Hp & Hn)].
  - rewrite !(roleFiles_fallback _ _ _ _ H). unfold singleFile.
    now destruct (js_StringOpt (getProp item "ContractName")).
  - rewrite !(roleFiles_parsed _ _ _ _ _ Hs Hp Hn). unfold rmap. cbn [rbind].
    rewrite map_map. f_equal.
Qed.

(** X6. The three blocks that fill the response, each written out in the
    handler, differ by the prefix only: on the same item and source, the
    files that the proxy block and the implementation block push are the
    files that the block of a contract that is not a proxy pushes, in the
    same order and with the same names and contents, each path with the
    prefix put in front; and they throw on the same inputs. *)
Theorem roleFiles_uniform_prefix
        (JSON_parse : string -> option json) (item : json) (sc : string) :
  proxyFiles JSON_parse item sc =
  rmap (map (addPrefix "proxy/")) (plainFiles JSON_parse item sc) /\
  implementationFiles JSON_parse item sc =
  rmap (map (addPrefix "implementation/")) (plainFiles JSON_parse item sc) /\
  (forall plain,
     plainFiles JSON_parse item sc = Ok plain ->
     exists proxy implementation,
       proxyFiles JSON_parse item sc = Ok proxy /\
       implementationFiles JSON_parse item sc = Ok implementation /\
       map name proxy = map name plain /\
       map name implementation = map name plain /\
       map content proxy = map content plain /\
       map content implementation = map content plain /\
       map path proxy = map (fun f => "proxy/" ++ path f) plain /\
       map path implementation = map (fun f => "implementation/" ++ path f) plain) /\
  (forall e,
     plainFiles JSON_parse item sc = Throw e ->
     proxyFiles JSON_parse item sc = Throw e /\
     implementationFiles JSON_parse item sc = Throw e).
Proof.
  rewrite proxyFiles_shape, implementationFiles_shape, plainFiles_shape.
  rewrite (roleFiles_addPrefix JSON_parse "proxy/"),
          (roleFiles_addPrefix JSON_parse "implementation/").
  split; [reflexivity|]. split; [reflexivity|]. split.
  - intros plain ->. cbn [rmap rbind]. do 2 eexists.
    split; [reflexivity|]. split; [reflexivity|].
    rewrite !map_map. cbn [name content path addPrefix]. now repeat split.
  - intros e ->. now split.
Qed.

Lemma roleFiles_uniform_prefix_witness :
  let sc := Scenario.twoFilesSource in
  let item := Scenario.sourceItem sc "Foo" EmptyString in
  option_map (map path)
    (match proxyFiles parseJson item sc with Ok pushed => Some pushed | Throw _ => None end)
  = Some ["proxy/src/A.sol"; "proxy/lib/B.sol"] /\
  implementationFiles parseJson (Scenario.sourceItem "contract I {}" "I" EmptyString)
                      "contract I {}" =
  Ok [ {| name := "I.sol"; path := "implementation/I.sol";
          content := "contract I {}" |} ].
Proof.
  intros sc item. split.
  - rewrite (proj1 (roleFiles_uniform_prefix parseJson item sc)). reflexivity.
  - rewrite (proj1 (proj2 (roleFiles_uniform_prefix parseJson
                             (Scenario.sourceItem "contract I {}" "I" EmptyString)
                             "contract I {}"))).
    reflexivity.
Defined.

(** X7. The files returned for a contract that is not a proxy are the
    files of the first pass, or none at all; they are the files of the first
    pass whenever the source is a single file, does not parse, or has a
    truthy [sources]. *)
Theorem plainFiles_first_pass_or_empty
        (JSON_parse : string -> option json) (item : json) (sc : string) :
  (plainFiles JSON_parse item sc = rmap fst (normalizeSource JSON_parse item sc) \/
   plainFiles JSON_parse item sc = Ok []) /\
  (startsWith sc "{" = false \/
   JSON_parse (unwrapBraces sc) = None \/
   (exists parsed, JSON_parse (unwrapBraces sc) = Some parsed /\
                   truthyOpt (getProp parsed "sources") = true) ->
   plainFiles JSON_parse item sc = rmap fst (normalizeSource JSON_parse item sc)).
Proof.
  rewrite plainFiles_shape.
  assert (forall parsed,
            startsWith sc "{" = true ->
            JSON_parse (unwrapBraces sc) = Some parsed ->
            truthyOpt (getProp parsed "sources") = true ->
            roleFiles JSON_parse EmptyString item sc =
            rmap fst (normalizeSource JSON_parse item sc)) as Htruthy.
  { intros parsed Hs Hp Ht.
    assert (parsed <> JNull) as Hn by (intros ->; discriminate).
    rewrite (roleFiles_parsed _ _ _ _ _ Hs Hp Hn),
            (normalizeSource_parsed _ _ _ _ Hs Hp Hn).
    unfold sourcesEntries, packedEntries. cbn [rmap rbind fst].
    destruct (getProp parsed "sources") as [srcs|]; [|discriminate].
    cbn in Ht. now rewrite Ht. }
  assert (startsWith sc "{" = false \/ JSON_parse (unwrapBraces sc) = None \/
          JSON_parse (unwrapBraces sc) = Some JNull ->
          roleFiles JSON_parse EmptyString item sc =
          rmap fst (normalizeSource JSON_parse item sc)) as Hfallback.
  { intros H. rewrite (roleFiles_fallback _ _ _ _ H), (normalizeSource_fallback _ _ _ H).
    now destruct (singleFile EmptyString item sc). }
  split.
  - destruct (source_cases JSON_parse sc) as [H|(parsed & Hs & Hp & Hn)];
      [left; now apply Hfallback|].
    destruct (truthyOpt (getProp parsed "sources")) eqn:Ht.
    + left. now apply Htruthy with parsed.
    + right. now apply (flat_map_roleFiles JSON_parse EmptyString item sc _ Hs Hp).
  - intros [H|[H|(parsed & Hp & Ht)]]; try (apply Hfallback; now auto).
    destruct (startsWith sc "{") eqn:Hs; [|apply Hfallback; now auto].
    now apply Htruthy with parsed.
Qed.

Lemma plainFiles_first_pass_or_empty_witness :
  let sc := Scenario.twoFilesSource in
  let item := Scenario.sourceItem sc "Foo" EmptyString in
  plainFiles parseJson item sc = rmap fst (normalizeSource parseJson item sc) /\
  rmap (@List.length ContractFile) (plainFiles parseJson item sc) = Ok 2.
Proof.
  intros sc item. split; [|reflexivity].
  apply (proj2 (plainFiles_first_pass_or_empty parseJson item sc)).
  right. right. eexists. split; reflexivity.
Defined.

Lemma resolveFiles_full
      (JSON_parse : string -> option json)
      (explorer : list Request -> Request -> result json)
      (url chainId key : string) (item : json) (sc impl : string)
      (implData : json) (implReq : Request) (implItem : json) (implSource : string)
      (pushed : list ContractFile) (outcome : result (list ContractFile))
      (l1 l2 : list Request) :
  normalizedImplementation item = Some impl ->
  proxyFiles JSON_parse item sc = Ok pushed ->
  fetchExplorer explorer url chainId (contractParams "getsourcecode" impl key) l1
  = (l2, Ok (implData, implReq)) ->
  successItem implData = Ok (Some implItem) ->
  getProp implItem "SourceCode" = Some (JStr implSource) ->
  implementationFiles JSON_parse implItem implSource = outcome ->
  resolveFiles JSON_parse explorer url chainId key item sc l1 =
  (l2, rmap (fun pushedImpl => (pushed ++ pushedImpl)%list) outcome).
Proof.
  intros Himpl Hpushed Hf Hs Hsc <-. unfold resolveFiles. rewrite Himpl.
  unfold bind at 1. unfold lift at 1. rewrite Hpushed.
  unfold bind at 1. rewrite Hf.
  unfold bind at 1. unfold lift at 1. rewrite Hs.
  unfold bind at 1. unfold lift at 1. unfold sourceCodeOf. rewrite Hsc.
  unfold bind, lift, ret, rmap.
  now destruct (implementationFiles JSON_parse implItem implSource).
Qed.

(** X8. For a proxy whose implementation the explorer answers with a
    verified result item, when the files of both are computed without an
    exception, the files of the bundle are the files of the proxy followed
    by the files of the implementation: every path of the first group starts
    with [proxy/], every path of the second with [implementation/], so no
    path of one group is a path of the other, even when the two sources
    report the same paths.  The name, the compiler and the settings of the
    bundle are those of the proxy.  The implementation is not checked for an
    empty source: an empty [SourceCode] gives one implementation file with
    empty content. *)
Theorem proxy_bundle_files
        (JSON_parse : string -> option json)
        (explorer : list Request -> Request -> result json)
        (getApiScanConfig : string -> result (string * option string))
        (getChainId : string -> result (option string))
        (a c url : string) (apiKey cid : option string)
        (data : json) (req : Request) (item : json) (sc impl : string)
        (st : json) (pushed pushedImpl : list ContractFile)
        (implData : json) (implReq : Request) (implItem : json)
        (implSource : string) (abis : json * json) (bundle : Bundle)
        (log l1 l2 l3 : list Request) :
  a <> EmptyString -> c <> EmptyString ->
  getApiScanConfig c = Ok (url, apiKey) ->
  getChainId c = Ok cid ->
  fetchExplorer explorer url (chainIdOrEmpty cid)
    (contractParams "getsourcecode" a (effectiveApiKey apiKey)) log
  = (l1, Ok (data, req)) ->
  successItem data = Ok (Some item) ->
  getProp item "SourceCode" = Some (JStr sc) ->
  sc <> EmptyString ->
  normalizedImplementation item = Some impl ->
  resolveSettings JSON_parse item sc = Ok st ->
  proxyFiles JSON_parse item sc = Ok pushed ->
  fetchExplorer explorer url (chainIdOrEmpty cid)
    (contractParams "getsourcecode" impl (effectiveApiKey apiKey)) l1
  = (l2, Ok (implData, implReq)) ->
  successItem implData = Ok (Some implItem) ->
  getProp implItem "SourceCode" = Some (JStr implSource) ->
  implementationFiles JSON_parse implItem implSource = Ok pushedImpl ->
  resolveAbis JSON_parse explorer url (chainIdOrEmpty cid)
    (effectiveApiKey apiKey) a item l2 = (l3, Ok abis) ->
  makeBundle (pushed ++ pushedImpl)%list st item abis = Ok bundle ->
  GET JSON_parse explorer getApiScanConfig getChainId (Some a) (Some c) log
  = (l3, Ok (Resolved bundle)) /\
  (exists plain plainImpl,
     plainFiles JSON_parse item sc = Ok plain /\
     plainFiles JSON_parse implItem implSource = Ok plainImpl /\
     files bundle =
       (map (addPrefix "proxy/") plain
        ++ map (addPrefix "implementation/") plainImpl)%list) /\
  (forall f g,
     In f pushed -> In g pushedImpl ->
     startsWith (path f) "proxy/" = true /\
     startsWith (path g) "implementation/" = true /\
     path f <> path g) /\
  contractName bundle = getProp item "ContractName" /\
  compiler bundle = getProp item "CompilerVersion" /\
  settings bundle = st /\
  (implSource = EmptyString ->
   exists cn,
     js_StringOpt (getProp implItem "ContractName") = Ok cn /\
     pushedImpl =
     [ {| name := cn ++ ".sol";
          path := "implementation/" ++ cn ++ ".sol";
          content := EmptyString |} ]).
Proof.
  intros Ha Hc Hurl Hid Hsrc Hitem Hsc Hne Himpl Hst Hpushed Hf Hs Hisc Hpi
         Habis Hb.
  pose proof (GET_after_source JSON_parse explorer getApiScanConfig getChainId
                a c url apiKey cid data req item sc st log l1
                Ha Hc Hurl Hid Hsrc Hitem Hsc Hne Hst) as HGET.
  pose proof (resolveFiles_full JSON_parse explorer url (chainIdOrEmpty cid)
                (effectiveApiKey apiKey) item sc impl implData implReq implItem
                implSource pushed (Ok pushedImpl) l1 l2 Himpl Hpushed Hf Hs Hisc Hpi)
    as Hfiles.
  cbn [rmap rbind] in Hfiles.
  split; [|split; [|split]].
  - rewrite HGET. unfold tryCatch.
    rewrite (bind_ok _ _ _ _ _ Hfiles), (bind_ok _ _ _ _ _ Habis).
    unfold bind, lift. now rewrite Hb.
  - apply makeBundle_inv in Hb as [-> _].
    rewrite proxyFiles_shape, roleFiles_addPrefix in Hpushed.
    rewrite implementationFiles_shape, roleFiles_addPrefix in Hpi.
    rewrite !plainFiles_shape.
    destruct (roleFiles JSON_parse EmptyString item sc) as [plain|];
      [|discriminate].
    destruct (roleFiles JSON_parse EmptyString implItem implSource) as [plainImpl|];
      [|discriminate].
    cbn in Hpushed, Hpi. injection Hpushed as <-. injection Hpi as <-.
    now exists plain, plainImpl.
  - intros f g Hin Hin'.
    apply (roleFiles_prefixed JSON_parse "proxy/" item sc pushed) in Hin;
      [|exact Hpushed].
    apply (roleFiles_prefixed JSON_parse "implementation/" implItem implSource
             pushedImpl) in Hin'; [|exact Hpi].
    split; [exact Hin|]. split; [exact Hin'|].
    intros E. rewrite E in Hin. apply role_prefixes_disjoint in Hin. congruence.
  - apply makeBundle_inv in Hb as (_ & Hsettings & Hn & Hcomp & _).
    split; [exact Hn|]. split; [exact Hcomp|]. split; [exact Hsettings|].
    intros ->. rewrite implementationFiles_shape, roleFiles_fallback in Hpi by auto.
    unfold singleFile in Hpi.
    destruct (js_StringOpt (getProp implItem "ContractName")) as [cn|];
      [|discriminate].
    exists cn. split; [reflexivity|]. now injection Hpi as <-.
Qed.

Lemma proxy_bundle_files_witness :
  exists bundle log,
    Scenario.run
      (Scenario.verifiedProxy Scenario.standardJsonSource Scenario.standardJsonSource)
      Scenario.contractAddress = (log, Ok (Resolved bundle)) /\
    map path (files bundle) = ["proxy/src/A.sol"; "implementation/src/A.sol"] /\
    contractName bundle = Some (JStr "Proxy").
Proof.
  pose (table := Scenario.verifiedProxy Scenario.standardJsonSource
                                        Scenario.standardJsonSource).
  edestruct (proxy_bundle_files parseJson (Scenario.explorerOf table)
               (fun _ => Ok (Scenario.etherscan, None)) (fun _ => Ok (Some "1"))
               Scenario.contractAddress "ethereum" Scenario.etherscan None (Some "1"))
    as (HGET & (plain & plainImpl & Hplain & HplainImpl & Hfiles) & _ & Hname & _);
    [discriminate | discriminate | reflexivity | reflexivity | reflexivity
    | reflexivity | reflexivity | discriminate | reflexivity | reflexivity
    | reflexivity | reflexivity | reflexivity | reflexivity | reflexivity
    | reflexivity | reflexivity | ].
  do 2 eexists. split; [exact HGET|]. split; [|exact Hname].
  rewrite Hfiles. injection Hplain as <-. injection HplainImpl as <-. reflexivity.
Defined.

Lemma includes_char_cons (sep ch : ascii) (s : string) :
  includes (String ch s) (String sep EmptyString) =
  Ascii.eqb sep ch || includes s (String sep EmptyString).
Proof.
  cbn [includes startsWith]. f_equal.
  destruct (Ascii.eqb sep ch); [|reflexivity]. now destruct s.
Qed.

Lemma append_empty_r (x : string) : x ++ EmptyString = x.
Proof. induction x as [|ch x IH]; cbn; [reflexivity|now rewrite IH]. Qed.

(** [lastSegment] cuts the string after its last separator. *)
Lemma lastSegment_spec (sep : ascii) (s : string) :
  exists dir,
    s = dir ++ lastSegment sep s /\
    includes (lastSegment sep s) (String sep EmptyString) = false /\
    (dir = EmptyString \/ exists d, dir = d ++ String sep EmptyString).
Proof.
  induction s as [|ch s (dir & Hs & Hno & Hdir)].
  - exists EmptyString. repeat split. now left.
  - cbn [lastSegment].
    destruct (Ascii.eqb_spec ch sep) as [->|Hne].
    + exists (String sep dir). split; [cbn; now rewrite <- Hs|].
      split; [exact Hno|]. right.
      destruct Hdir as [->|(d & ->)].
      * now exists EmptyString.
      * now exists (String sep d).
    + destruct (includes s (String sep EmptyString)) eqn:Hi.
      * exists (String ch dir). split; [cbn; now rewrite <- Hs|].
        split; [exact Hno|]. right.
        destruct Hdir as [->|(d & ->)].
        -- cbn in Hs. rewrite <- Hs in Hno. congruence.
        -- now exists (String ch d).
      * exists EmptyString. split; [reflexivity|]. split; [|now left].
        rewrite includes_char_cons, Hi.
        destruct (Ascii.eqb_spec sep ch); [now subst|reflexivity].
Qed.

(** X9. The name of a file is the part of its path after the last slash:
    it has no slash, it is not empty, and the rest of the path is empty or
    ends with a slash.  The exception is a path that is empty or ends with a
    slash, whose name is the whole path.  The name is empty only for the
    empty path. *)
Theorem fileName_last_segment (p : string) :
  ((fileName p = p /\ (p = EmptyString \/ endsWith p "/" = true)) \/
   (fileName p <> EmptyString /\
    includes (fileName p) "/" = false /\
    exists dir, p = dir ++ fileName p /\
                (dir = EmptyString \/ endsWith dir "/" = true))) /\
  (fileName p = EmptyString <-> p = EmptyString) /\
  (forall prefix info,
     name (fileOfEntry prefix (p, info)) = fileName p /\
     path (fileOfEntry prefix (p, info)) = prefix ++ p).
Proof.
  destruct (lastSegment_spec "/" p) as (dir & Hp & Hno & Hdir).
  assert ((fileName p = p /\ (p = EmptyString \/ endsWith p "/" = true)) \/
          (fileName p <> EmptyString /\
           includes (fileName p) "/" = false /\
           exists dir, p = dir ++ fileName p /\
                       (dir = EmptyString \/ endsWith dir "/" = true))) as Hcases.
  { unfold fileName.
    destruct (String.eqb_spec (lastSegment "/" p) EmptyString) as [E|E].
    - left. split; [reflexivity|].
      rewrite E in Hp.
      destruct Hdir as [->|(d & ->)]; [now left|right].
      apply endsWith_iff. exists d. rewrite Hp. apply append_empty_r.
    - right. split; [exact E|]. split; [exact Hno|].
      exists dir. split; [exact Hp|].
      destruct Hdir as [->|(d & ->)]; [now left|right].
      apply endsWith_iff. now exists d. }
  split; [exact Hcases|]. split; [|now intros].
  split.
  - intros E. destruct Hcases as [[Hf _]|[Hf _]]; congruence.
  - now intros ->.
Qed.

(** ** Requests *)

Lemma issuesWithin_ret {R A : Type} (P : R -> Prop) (a : A) :
  issuesWithin P 0 (@ret R A a).
Proof. intros log. exists []. now rewrite app_nil_r. Qed.

Lemma issuesWithin_lift {R A : Type} (P : R -> Prop) (r : result A) :
  issuesWithin P 0 (@lift R A r).
Proof. intros log. exists []. now rewrite app_nil_r. Qed.

Lemma issuesWithin_le {R A : Type} (P : R -> Prop) (n n' : nat) (m : M R A) :
  n <= n' -> issuesWithin P n m -> issuesWithin P n' m.
Proof.
  intros Hle H log. destruct (H log) as (new & E & Hall & Hlen).
  exists new. repeat split; [assumption|assumption|lia].
Qed.

Lemma issuesWithin_bind {R A B : Type} (P : R -> Prop) (n1 n2 : nat)
      (m : M R A) (k : A -> M R B) :
  issuesWithin P n1 m -> (forall a, issuesWithin P n2 (k a)) ->
  issuesWithin P (n1 + n2) (bind m k).
Proof.
  intros Hm Hk log. unfold bind.
  destruct (Hm log) as (new & E & Hnew & Hlen).
  destruct (m log) as [l [a|e]]; cbn in E; subst l.
  - destruct (Hk a (log ++ new)%list) as (new' & E' & Hnew' & Hlen').
    exists (new ++ new')%list. rewrite E', app_assoc, length_app.
    repeat split; [now apply Forall_app|lia].
  - exists new. repeat split; [assumption|lia].
Qed.

Lemma issuesWithin_bind_ok {R A B : Type} (P : R -> Prop) (n : nat)
      (a : A) (k : A -> M R B) :
  issuesWithin P n (k a) -> issuesWithin P n (bind (lift (Ok a)) k).
Proof. intros H log. apply H. Qed.

Lemma issuesWithin_tryCatch {R A : Type} (P : R -> Prop) (n : nat)
      (m : M R A) (a : A) :
  issuesWithin P n m -> issuesWithin P n (tryCatch m (fun _ => ret a)).
Proof.
  intros Hm log. unfold tryCatch.
  destruct (Hm log) as (new & E & Hnew & Hlen).
  destruct (m log) as [l [x|e]]; cbn in E; subst l; now exists new.
Qed.

Lemma paramsGet_v2Request (url chainId : string) (params : list (string * string))
      (k : string) :
  k <> "chainid" ->
  paramsGet k (query (v2Request url chainId params)) = paramsGet k params.
Proof.
  intros Hk. unfold v2Request. cbn [query].
  destruct (String.eqb chainId EmptyString); [reflexivity|].
  now apply paramsGet_paramsSet_other.
Qed.

Lemma paramsSet_absent (k v : string) (p : list (string * string)) :
  paramsGet k p = None -> paramsSet k v p = (p ++ [(k, v)])%list.
Proof.
  induction p as [|[k' v'] p IH]; cbn; [reflexivity|].
  destruct (String.eqb k' k); [discriminate|].
  intros H. now rewrite IH.
Qed.

Section RequestFacts.

Variable JSON_parse : string -> option json.
Variable explorer : list Request -> Request -> result json.
Variables url chainId key : string.

Lemma issuesWithin_fetchExplorer (P : Request -> Prop) params :
  P (v1Request url params) ->
  P (v2Request url chainId params) ->
  issuesWithin P 2 (fetchExplorer explorer url chainId params).
Proof.
  intros H1 H2 log.
  destruct (explorer log (v1Request url params)) as [first|e] eqn:E.
  - destruct (v1Deprecated first) as [[|]|e] eqn:Ed.
    + rewrite (fetchExplorer_upgrade _ _ _ _ _ _ E Ed).
      exists [v1Request url params; v2Request url chainId params].
      repeat split; [|cbn; lia]. now repeat constructor.
    + rewrite (fetchExplorer_single _ _ _ _ _ _ E Ed).
      exists [v1Request url params].
      repeat split; [|cbn; lia]. now repeat constructor.
    + rewrite (fetchExplorer_unconvertible _ _ _ _ _ _ _ E Ed).
      exists [v1Request url params].
      repeat split; [|cbn; lia]. now repeat constructor.
  - rewrite (fetchExplorer_error _ _ _ _ _ _ E).
    exists [v1Request url params].
    repeat split; [|cbn; lia]. now repeat constructor.
Qed.

Lemma explorerRequestOf_contractParams action address :
  action = "getsourcecode" \/ action = "getabi" ->
  explorerRequestOf url key (v1Request url (contractParams action address key)) /\
  explorerRequestOf url key
    (v2Request url chainId (contractParams action address key)).
Proof.
  intros Ha.
  assert (explorerRequestOf url key
            (v1Request url (contractParams action address key))) as H1.
  { unfold explorerRequestOf.
    split; [now left|]. split; [reflexivity|]. split.
    - destruct Ha as [-> | ->]; [now left|now right].
    - apply paramsGet_paramsSet. }
  split; [exact H1|].
  destruct H1 as (_ & Hm & Hact & Hk).
  unfold explorerRequestOf.
  rewrite !paramsGet_v2Request by discriminate.
  repeat split; try assumption. now right.
Qed.

Lemma issuesWithin_contract action address :
  action = "getsourcecode" \/ action = "getabi" ->
  issuesWithin (explorerRequestOf url key) 2
    (fetchExplorer explorer url chainId (contractParams action address key)).
Proof.
  intros Ha.
  destruct (explorerRequestOf_contractParams action address Ha) as [H1 H2].
  now apply issuesWithin_fetchExplorer.
Qed.

Lemma issuesWithin_resolveFiles item sc :
  issuesWithin (explorerRequestOf url key) (if isProxy item then 2 else 0)
    (resolveFiles JSON_parse explorer url chainId key item sc).
Proof.
  unfold resolveFiles, isProxy.
  destruct (normalizedImplementation item) as [impl|]; [|apply issuesWithin_lift].
  apply (issuesWithin_bind _ 0 2); [apply issuesWithin_lift|]. intros proxy.
  apply (issuesWithin_bind _ 2 0); [apply issuesWithin_contract; now left|].
  intros [implData implReq].
  apply (issuesWithin_bind _ 0 0); [apply issuesWithin_lift|].
  intros [implItem|]; [|apply issuesWithin_ret].
  apply (issuesWithin_bind _ 0 0); [apply issuesWithin_lift|]. intros implSource.
  apply (issuesWithin_bind _ 0 0); [apply issuesWithin_lift|].
  intros; apply issuesWithin_ret.
Qed.

Lemma issuesWithin_resolveAbis address item :
  issuesWithin (explorerRequestOf url key) (if isProxy item then 4 else 2)
    (resolveAbis JSON_parse explorer url chainId key address item).
Proof.
  unfold resolveAbis, isProxy.
  destruct (normalizedImplementation item) as [impl|].
  - apply (issuesWithin_bind _ 2 2); [apply issuesWithin_contract; now right|].
    intros [abiData abiReq].
    apply (issuesWithin_bind _ 0 2); [apply issuesWithin_lift|].
    intros contractABI.
    apply (issuesWithin_bind _ 2 0); [apply issuesWithin_contract; now right|].
    intros [implAbiData implAbiReq].
    apply (issuesWithin_bind _ 0 0); [apply issuesWithin_lift|].
    intros; apply issuesWithin_ret.
  - apply (issuesWithin_bind _ 2 0); [apply issuesWithin_contract; now right|].
    intros [abiData abiReq].
    apply (issuesWithin_bind _ 0 0); [apply issuesWithin_lift|].
    intros; apply issuesWithin_ret.
Qed.

End RequestFacts.

(** X10. Once the registry has given the explorer of the chain, a run of
    the handler issues at most eight requests, and every one of them goes to
    the URL of the registry or to its v2 rewrite, asks the [contract] module
    for [getsourcecode] or [getabi], and carries the effective API key,
    which is the key of the chain whenever that key is not empty. *)
Theorem GET_requests_bounded
        (JSON_parse : string -> option json)
        (explorer : list Request -> Request -> result json)
        (getApiScanConfig : string -> result (string * option string))
        (getChainId : string -> result (option string))
        (address : option string) (c url : string) (apiKey : option string) :
  getApiScanConfig c = Ok (url, apiKey) ->
  issuesWithin (explorerRequestOf url (effectiveApiKey apiKey)) 8
    (GET JSON_parse explorer getApiScanConfig getChainId address (Some c)) /\
  (forall k, apiKey = Some k -> k <> EmptyString -> effectiveApiKey apiKey = k).
Proof.
  intros Hcfg. split.
  - unfold GET.
    destruct address as [a|];
      [|apply (issuesWithin_le _ 0); [lia|apply issuesWithin_ret]].
    destruct (String.eqb a EmptyString || String.eqb c EmptyString);
      [apply (issuesWithin_le _ 0); [lia|apply issuesWithin_ret]|].
    apply issuesWithin_tryCatch.
    unfold resolve. rewrite Hcfg.
    apply issuesWithin_bind_ok.
    apply (issuesWithin_bind _ 0 8); [apply issuesWithin_lift|]. intros cid.
    apply (issuesWithin_bind _ 2 6); [apply issuesWithin_contract; now left|].
    intros [data apiUrl].
    apply (issuesWithin_bind _ 0 6); [apply issuesWithin_lift|].
    intros [item|];
      [|apply (issuesWithin_le _ 0); [lia|apply issuesWithin_ret]].
    destruct (strictEqStr (getProp item "SourceCode") EmptyString);
      [apply (issuesWithin_le _ 0); [lia|apply issuesWithin_ret]|].
    apply (issuesWithin_bind _ 0 6); [apply issuesWithin_lift|]. intros sc.
    apply (issuesWithin_bind _ 0 6); [apply issuesWithin_lift|]. intros settings.
    apply (issuesWithin_bind _ 2 4).
    { apply (issuesWithin_le _ (if isProxy item then 2 else 0));
        [destruct (isProxy item); lia|apply issuesWithin_resolveFiles]. }
    intros filteredFiles.
    apply (issuesWithin_bind _ 4 0).
    { apply (issuesWithin_le _ (if isProxy item then 4 else 2));
        [destruct (isProxy item); lia|apply issuesWithin_resolveAbis]. }
    intros abis.
    apply (issuesWithin_bind _ 0 0); [apply issuesWithin_lift|].
    intros; apply issuesWithin_ret.
  - intros k -> Hk. cbn. now destruct (String.eqb_spec k EmptyString).
Qed.

Lemma GET_requests_bounded_witness :
  issuesWithin (explorerRequestOf Scenario.etherscan "MYKEY") 8
    (GET parseJson
         (Scenario.explorerOf
            (Scenario.verifiedProxy "contract Proxy {}" "contract Impl {}"))
         (fun _ => Ok (Scenario.etherscan, Some "MYKEY")) (fun _ => Ok (Some "1"))
         (Some Scenario.contractAddress) (Some "ethereum")).
Proof.
  apply (proj1 (GET_requests_bounded parseJson
                  (Scenario.explorerOf
                     (Scenario.verifiedProxy "contract Proxy {}" "contract Impl {}"))
                  (fun _ => Ok (Scenario.etherscan, Some "MYKEY"))
                  (fun _ => Ok (Some "1"))
                  (Some Scenario.contractAddress) "ethereum" Scenario.etherscan
                  (Some "MYKEY") eq_refl)).
Defined.

(** X11. The v2 attempt repeats the query of the v1 request: when the
    upgrade happens, the second request agrees with the first on every
    parameter other than [chainid], and when the chain has an id and the
    query had no [chainid], its parameters are those of the first request
    followed by [chainid]. *)
Theorem fetchExplorer_retry_same_query
        (explorer : list Request -> Request -> result json)
        (url chainId : string) (params : list (string * string))
        (log : list Request) (first : json) :
  explorer log (v1Request url params) = Ok first ->
  v1Deprecated first = Ok true ->
  exists second,
    fst (fetchExplorer explorer url chainId params log) =
    (log ++ [ {| baseUrl := url; query := params |}; second ])%list /\
    (forall k, k <> "chainid" ->
               paramsGet k (query second) = paramsGet k params) /\
    (chainId <> EmptyString -> paramsGet "chainid" params = None ->
     query second = (params ++ [("chainid", chainId)])%list).
Proof.
  intros H1 Hd. exists (v2Request url chainId params).
  rewrite (fetchExplorer_upgrade _ _ _ _ _ _ H1 Hd).
  split; [reflexivity|]. split.
  - intros k Hk. now apply paramsGet_v2Request.
  - intros Hne Hnone. unfold v2Request. cbn [query].
    destruct (String.eqb_spec chainId EmptyString); [contradiction|].
    now apply paramsSet_absent.
Qed.

Lemma fetchExplorer_retry_same_query_witness :
  let params := Scenario.sourceRequest Scenario.contractAddress in
  exists second,
    fst (fetchExplorer Scenario.deprecatedExplorer Scenario.etherscan "56" params [])
    = [ {| baseUrl := Scenario.etherscan; query := params |}; second ] /\
    paramsGet "address" (query second) = Some Scenario.contractAddress /\
    paramsGet "apikey" (query second) = Some placeholderApiKey.
Proof.
  intros params.
  destruct (fetchExplorer_retry_same_query Scenario.deprecatedExplorer
              Scenario.etherscan "56" params [] Scenario.deprecatedAnswer
              eq_refl eq_refl) as (second & Hlog & Hsame & _).
  exists second. split; [exact Hlog|].
  split; (rewrite Hsame; [reflexivity|discriminate]).
Defined.

(** ** The deprecation heuristic *)

Lemma toLowerCase_app (x y : string) :
  toLowerCase (x ++ y) = toLowerCase x ++ toLowerCase y.
Proof. induction x as [|ch x IH]; cbn; [reflexivity|now rewrite IH]. Qed.

Lemma startsWith_nil (s : string) : startsWith s EmptyString = true.
Proof. now destruct s. Qed.

(** A pattern without the character [sep] does not match across it. *)
Lemma startsWith_app_sep (sep : ascii) (p x y : string) :
  includes p (String sep EmptyString) = false ->
  p <> EmptyString ->
  startsWith (x ++ String sep y) p = startsWith x p.
Proof.
  revert p. induction x as [|ch x IH]; intros p Hno Hp.
  - destruct p as [|q p]; [contradiction|].
    rewrite includes_char_cons in Hno. apply orb_false_iff in Hno as [Hq _].
    cbn. rewrite Ascii.eqb_sym in Hq. now rewrite Hq.
  - destruct p as [|q p]; [contradiction|].
    rewrite includes_char_cons in Hno. apply orb_false_iff in Hno as [_ Hno].
    cbn [append startsWith].
    destruct p as [|q' p]; [now rewrite !startsWith_nil|].
    now rewrite IH.
Qed.

Lemma includes_app_sep (sep : ascii) (p x y : string) :
  includes p (String sep EmptyString) = false ->
  p <> EmptyString ->
  includes (x ++ String sep y) p = includes x p || includes y p.
Proof.
  intros Hno Hp. induction x as [|ch x IH].
  - cbn [append].
    change (includes (String sep y) p)
      with (startsWith (EmptyString ++ String sep y) p || includes y p).
    rewrite (startsWith_app_sep sep p EmptyString y Hno Hp).
    destruct p; [contradiction|reflexivity].
  - change (includes (String ch x ++ String sep y) p)
      with (startsWith (String ch x ++ String sep y) p
            || includes (x ++ String sep y) p).
    rewrite (startsWith_app_sep sep p (String ch x) y Hno Hp), IH.
    change (includes (String ch x) p)
      with (startsWith (String ch x) p || includes x p).
    now rewrite orb_assoc.
Qed.

Lemma stringOrEmpty_string (s : string) : stringOrEmpty (Some (JStr s)) = Ok s.
Proof.
  unfold stringOrEmpty. cbn.
  now destruct (String.eqb_spec s EmptyString) as [->|].
Qed.

(** X12. The deprecation heuristic looks for the two words independently
    and without regard to case in the texts of [result] and [message]: each
    word may stand in either field, and a word split between the end of
    [result] and the start of [message] does not count.  A field that is
    missing, [null] or otherwise falsy contributes the empty text.  The
    heuristic throws exactly when one of the two fields does not convert to
    a string, as an object with a [toString] property of its own does not. *)
Theorem isDeprecatedV1Error_words (data : json) :
  (forall result message,
     stringOrEmpty (optChain (Some data) "result") = Ok result ->
     stringOrEmpty (optChain (Some data) "message") = Ok message ->
     isDeprecatedV1Error data =
     Ok ((includes (toLowerCase result) "deprecated"
          || includes (toLowerCase message) "deprecated") &&
         (includes (toLowerCase result) "v1"
          || includes (toLowerCase message) "v1"))) /\
  (forall r m,
     getProp data "result" = Some (JStr r) ->
     getProp data "message" = Some (JStr m) ->
     isDeprecatedV1Error data =
     Ok ((includes (toLowerCase r) "deprecated"
          || includes (toLowerCase m) "deprecated") &&
         (includes (toLowerCase r) "v1" || includes (toLowerCase m) "v1"))) /\
  (truthyOpt (optChain (Some data) "result") = false ->
   truthyOpt (optChain (Some data) "message") = false ->
   isDeprecatedV1Error data = Ok false) /\
  (forall e,
     isDeprecatedV1Error data = Throw e <->
     stringOrEmpty (optChain (Some data) "result") = Throw e \/
     (exists result, stringOrEmpty (optChain (Some data) "result") = Ok result) /\
     stringOrEmpty (optChain (Some data) "message") = Throw e) /\
  (forall fields v,
     getProp data "result" = Some (JObj fields) ->
     lookup "toString" fields = Some v ->
     isDeprecatedV1Error data = Throw "TypeError").
Proof.
  assert (forall result message,
            stringOrEmpty (optChain (Some data) "result") = Ok result ->
            stringOrEmpty (optChain (Some data) "message") = Ok message ->
            isDeprecatedV1Error data =
            Ok ((includes (toLowerCase result) "deprecated"
                 || includes (toLowerCase message) "deprecated") &&
                (includes (toLowerCase result) "v1"
                 || includes (toLowerCase message) "v1"))) as E.
  { intros result message Hr Hm. unfold isDeprecatedV1Error.
    rewrite Hr, Hm. cbn [rbind].
    rewrite toLowerCase_app.
    change (toLowerCase (" " ++ ?x)) with (String " " (toLowerCase x)).
    now rewrite !includes_app_sep by (reflexivity || discriminate). }
  assert (forall k v, getProp data k = Some v -> optChain (Some data) k = Some v)
    as Hopt.
  { intros k v H. destruct data; exact H. }
  split; [exact E|]. split; [|split; [|split]].
  - intros r m Hr Hm. apply E.
    + rewrite (Hopt _ _ Hr). apply stringOrEmpty_string.
    + rewrite (Hopt _ _ Hm). apply stringOrEmpty_string.
  - intros Hr Hm. rewrite (E EmptyString EmptyString).
    + reflexivity.
    + unfold stringOrEmpty. now rewrite Hr.
    + unfold stringOrEmpty. now rewrite Hm.
  - intros e. unfold isDeprecatedV1Error.
    destruct (stringOrEmpty (optChain (Some data) "result")) as [r|e1];
      cbn [rbind].
    + destruct (stringOrEmpty (optChain (Some data) "message")) as [m|e2];
        cbn [rbind].
      * split; [discriminate|]. intros [H|[_ H]]; discriminate.
      * split.
        -- intros [= ->]. right. split; [now exists r|reflexivity].
        -- intros [H|[_ H]]; [discriminate|now injection H as ->].
    + split.
      * intros [= ->]. now left.
      * intros [H|[[r H] _]]; [now injection H as ->|discriminate].
  - intros fields v Hr Hv. unfold isDeprecatedV1Error.
    rewrite (Hopt _ _ Hr). unfold stringOrEmpty. cbn. now rewrite Hv.
Qed.

Lemma isDeprecatedV1Error_words_witness :
  isDeprecatedV1Error
    (JObj [("status", JStr "0"); ("message", JStr "Please use API V1 no more");
           ("result", JStr "This endpoint is DEPRECATED")]) = Ok true /\
  isDeprecatedV1Error
    (JObj [("status", JStr "0"); ("message", JStr "1 is out");
           ("result", JStr "deprecated v")]) = Ok false /\
  isDeprecatedV1Error Scenario.unconvertibleAnswer = Throw "TypeError".
Proof.
  split; [|split].
  - rewrite (proj1 (proj2 (isDeprecatedV1Error_words
                             (JObj [("status", JStr "0");
                                    ("message", JStr "Please use API V1 no more");
                                    ("result", JStr "This endpoint is DEPRECATED")])))
               "This endpoint is DEPRECATED" "Please use API V1 no more"
               eq_refl eq_refl).
    reflexivity.
  - rewrite (proj1 (proj2 (isDeprecatedV1Error_words
                             (JObj [("status", JStr "0");
                                    ("message", JStr "1 is out");
                                    ("result", JStr "deprecated v")])))
               "deprecated v" "1 is out" eq_refl eq_refl).
    reflexivity.
  - apply (proj2 (proj2 (proj2 (proj2 (isDeprecatedV1Error_words
                                         Scenario.unconvertibleAnswer))))
                 [("toString", JNum (Finite 1))] (JNum (Finite 1)));
      reflexivity.
Defined.

(* ===================================================================== *)
(** * Further properties of the model registry and of the analysis call *)
(* ===================================================================== *)

(** X13. Looking a model up by id returns a registered model with exactly
    that id; every registered model is found under its own id, the ids of
    the table being distinct; a value that is not a string finds nothing. *)
Theorem getNeversightModelById_lookup :
  (forall v m,
     NeversightModels.getNeversightModelById v = Some m ->
     In m NeversightModels.NEVERSIGHT_MODELS /\
     v = Some (JStr (NeversightModels.id m))) /\
  (forall m,
     In m NeversightModels.NEVERSIGHT_MODELS ->
     NeversightModels.getNeversightModelById (Some (JStr (NeversightModels.id m)))
     = Some m) /\
  NoDup (map NeversightModels.id NeversightModels.NEVERSIGHT_MODELS) /\
  (forall v,
     (forall s, v <> Some (JStr s)) ->
     NeversightModels.getNeversightModelById v = None).
Proof.
  split; [|split; [|split]].
  - intros v m H. unfold NeversightModels.getNeversightModelById in H.
    apply find_some in H as [Hin H]. split; [exact Hin|].
    destruct v as [[| | |s| |]|]; try discriminate.
    cbn in H. apply String.eqb_eq in H. now subst.
  - intros m Hin.
    repeat (destruct Hin as [<-|Hin]; [reflexivity|]). destruct Hin.
  - cbn. repeat constructor; cbn; intuition discriminate.
  - intros v Hv. apply getNeversightModelById_registered.
    intros m _ E. now apply (Hv (NeversightModels.id m)).
Qed.

Lemma getNeversightModelById_lookup_witness :
  option_map NeversightModels.name
    (NeversightModels.getNeversightModelById (Some (JStr "google/gemini-3-flash")))
  = Some "Gemini 3 Flash" /\
  NeversightModels.getNeversightModelById (Some (JNum (Finite 3))) = None.
Proof.
  destruct getNeversightModelById_lookup as (_ & Hfound & _ & Hnone).
  split.
  - change (Some (JStr "google/gemini-3-flash"))
      with (Some (JStr (NeversightModels.id
                          {| NeversightModels.id := "google/gemini-3-flash";
                             NeversightModels.name := "Gemini 3 Flash";
                             NeversightModels.description :=
                               Some "Google Gemini 3 Flash" |}))).
    rewrite Hfound; [reflexivity|]. cbn. tauto.
  - apply Hnone. discriminate.
Defined.

(** ** [getModelName] *)

Lemma replaceRuns_chars (inClass : ascii -> bool) (inRun : bool) (s : string)
      (ch : ascii) :
  In ch (list_ascii_of_string (Ai.replaceRuns inClass inRun s)) ->
  ch = "-"%char \/ (inClass ch = false /\ In ch (list_ascii_of_string s)).
Proof.
  revert inRun. induction s as [|x s IH]; intros inRun; cbn; [tauto|].
  destruct (inClass x) eqn:Hx.
  - destruct inRun; cbn.
    + intros H. destruct (IH _ H) as [->|[? ?]]; auto.
    + intros [<-|H]; [now left|]. destruct (IH _ H) as [->|[? ?]]; auto.
  - cbn. intros [<-|H]; [right; auto|].
    destruct (IH _ H) as [->|[? ?]]; auto.
Qed.

Lemma includes_dashes_cons (ch : ascii) (s : string) :
  includes (String ch s) "--" =
  (Ascii.eqb "-" ch && startsWith s "-") || includes s "--".
Proof. reflexivity. Qed.

Lemma startsWith_dash_cons (ch : ascii) (s : string) :
  startsWith (String ch s) "-" = Ascii.eqb "-" ch.
Proof. cbn. rewrite startsWith_nil. apply andb_true_r. Qed.

Lemma isDash_true (ch : ascii) : Ai.isDash ch = true -> ch = "-"%char.
Proof. unfold Ai.isDash. now destruct (Ascii.eqb_spec ch "-"). Qed.

Lemma isDash_false (ch : ascii) : Ai.isDash ch = false -> Ascii.eqb "-" ch = false.
Proof.
  unfold Ai.isDash. destruct (Ascii.eqb_spec ch "-"); [discriminate|].
  intros _. apply Ascii.eqb_neq. congruence.
Qed.

(** After [replace(/-+/g, "-")] no two dashes are adjacent. *)
Lemma replaceRuns_dashes (inRun : bool) (s : string) :
  includes (Ai.replaceRuns Ai.isDash inRun s) "--" = false /\
  (inRun = true -> startsWith (Ai.replaceRuns Ai.isDash inRun s) "-" = false).
Proof.
  revert inRun. induction s as [|x s IH]; intros inRun; [now split|].
  cbn [Ai.replaceRuns].
  destruct (Ai.isDash x) eqn:Hx.
  - destruct inRun.
    + apply IH.
    + destruct (IH true) as [H1 H2]. split; [|discriminate].
      rewrite includes_dashes_cons, H1, (H2 eq_refl). reflexivity.
  - destruct (IH false) as [H1 _].
    apply isDash_false in Hx.
    split.
    + rewrite includes_dashes_cons, Hx, H1. reflexivity.
    + intros _. now rewrite startsWith_dash_cons.
Qed.

Lemma dropLeadingDash_spec (s : string) :
  includes s "--" = false ->
  includes (Ai.dropLeadingDash s) "--" = false /\
  startsWith (Ai.dropLeadingDash s) "-" = false /\
  (forall ch, In ch (list_ascii_of_string (Ai.dropLeadingDash s)) ->
              In ch (list_ascii_of_string s)).
Proof.
  destruct s as [|x s]; [now repeat split|].
  cbn [Ai.dropLeadingDash].
  rewrite includes_dashes_cons. intros H. apply orb_false_iff in H as [H1 H2].
  destruct (Ai.isDash x) eqn:Hx.
  - apply isDash_true in Hx. subst x. cbn in H1.
    split; [exact H2|]. split; [exact H1|]. cbn. auto.
  - apply isDash_false in Hx.
    split; [now rewrite includes_dashes_cons, Hx, H2|].
    split; [now rewrite startsWith_dash_cons|auto].
Qed.

Lemma dropTrailingDash_cons (x y : ascii) (s : string) :
  Ai.dropTrailingDash (String x (String y s)) =
  String x (Ai.dropTrailingDash (String y s)).
Proof. reflexivity. Qed.

Lemma dropTrailingDash_empty (s : string) :
  Ai.dropTrailingDash s = EmptyString -> s = EmptyString \/ s = "-".
Proof.
  destruct s as [|x [|y s]]; [now left| |discriminate].
  cbn. destruct (Ai.isDash x) eqn:Hx; [|discriminate].
  apply isDash_true in Hx. subst. now right.
Qed.

Lemma dropTrailingDash_spec (s : string) :
  includes s "--" = false ->
  (forall pre, Ai.dropTrailingDash s <> pre ++ "-") /\
  includes (Ai.dropTrailingDash s) "--" = false /\
  (startsWith s "-" = false -> startsWith (Ai.dropTrailingDash s) "-" = false) /\
  (forall ch, In ch (list_ascii_of_string (Ai.dropTrailingDash s)) ->
              In ch (list_ascii_of_string s)).
Proof.
  induction s as [|x s IH]; intros Hno.
  - split; [|split; [|split]]; try tauto. intros pre H. now destruct pre.
  - rewrite includes_dashes_cons in Hno. apply orb_false_iff in Hno as [H1 H2].
    destruct s as [|y s].
    + cbn [Ai.dropTrailingDash].
      destruct (Ai.isDash x) eqn:Hx.
      * split; [|split; [|split]].
        -- intros pre H. now destruct pre.
        -- reflexivity.
        -- reflexivity.
        -- intros ch [].
      * pose proof (isDash_false _ Hx) as Hd.
        split; [|split; [|split]].
        -- intros [|p pre] H; cbn in H.
           ++ injection H as ->. cbn in Hd. discriminate.
           ++ injection H as _ H. now destruct pre.
        -- rewrite includes_dashes_cons, Hd. reflexivity.
        -- tauto.
        -- tauto.
    + destruct (IH H2) as (Hend & Hdd & Hstart & Hin).
      rewrite dropTrailingDash_cons. split; [|split; [|split]].
      * intros [|p pre] H; cbn [append] in H.
        -- injection H as -> H.
           change (Ai.dropTrailingDash (String y s) = EmptyString) in H.
           apply dropTrailingDash_empty in H as [H|H]; [discriminate|].
           injection H as -> ->. cbn in H1. discriminate.
        -- injection H as _ H. now apply (Hend pre).
      * rewrite includes_dashes_cons, Hdd.
        destruct (Ascii.eqb "-" x) eqn:Hx; [|reflexivity].
        cbn [andb orb]. rewrite andb_true_l in H1.
        rewrite Hstart; [reflexivity|exact H1].
      * now rewrite !startsWith_dash_cons.
      * intros ch [<-|H]; [now left|]. right. now apply Hin.
Qed.

Lemma includes_char_In (ch : ascii) (s : string) :
  includes s (String ch EmptyString) = true -> In ch (list_ascii_of_string s).
Proof.
  induction s as [|x s IH]; [discriminate|].
  rewrite includes_char_cons. intros H. apply orb_true_iff in H as [H|H].
  - left. symmetry. now apply Ascii.eqb_eq.
  - right. now apply IH.
Qed.

(** X14. The model name that [getModelName] builds is safe for a file
    name: it consists of lower-case letters, digits, dots, underscores and
    dashes only (so it has no slash), it has no two dashes in a row, and it
    neither starts nor ends with a dash.  An empty [selectedModel] gives
    [model]. *)
Theorem getModelName_safe (config : Ai.AIConfig) :
  (forall ch, In ch (list_ascii_of_string (Ai.getModelName config)) ->
              Ai.isFileNameChar ch = true) /\
  includes (Ai.getModelName config) "/" = false /\
  includes (Ai.getModelName config) "--" = false /\
  startsWith (Ai.getModelName config) "-" = false /\
  (forall pre, Ai.getModelName config <> pre ++ "-") /\
  (Ai.selectedModel config = EmptyString -> Ai.getModelName config = "model").
Proof.
  unfold Ai.getModelName.
  set (selected := if String.eqb (Ai.selectedModel config) EmptyString
                   then "model" else Ai.selectedModel config).
  set (t1 := Ai.replaceRuns (fun ch => negb (Ai.isFileNameChar ch)) false
               (toLowerCase selected)).
  set (t2 := Ai.replaceRuns Ai.isDash false t1).
  destruct (replaceRuns_dashes false t1) as [Hdd _]. fold t2 in Hdd.
  destruct (dropLeadingDash_spec t2 Hdd) as (Hdd3 & Hstart3 & Hin3).
  destruct (dropTrailingDash_spec _ Hdd3) as (Hend & Hdd4 & Hstart4 & Hin4).
  assert (forall ch,
            In ch (list_ascii_of_string
                     (Ai.dropTrailingDash (Ai.dropLeadingDash t2))) ->
            Ai.isFileNameChar ch = true) as Hchars.
  { intros ch H. apply Hin4, Hin3 in H.
    apply replaceRuns_chars in H as [->|[_ H]]; [reflexivity|].
    apply replaceRuns_chars in H as [->|[H _]]; [reflexivity|].
    now apply negb_false_iff in H. }
  split; [exact Hchars|]. split; [|split; [exact Hdd4|split; [auto|split]]].
  - destruct (includes _ "/") eqn:E; [|reflexivity].
    apply includes_char_In, Hchars in E. discriminate.
  - exact Hend.
  - intros E. subst selected t2 t1. rewrite E. reflexivity.
Qed.

Lemma getModelName_safe_witness :
  Ai.getModelName (Scenario.config EmptyString) = "model" /\
  Ai.getModelName (Scenario.config "Anthropic/Claude 4.5 Opus-Max!")
  = "anthropic-claude-4.5-opus-max".
Proof.
  split; [|reflexivity].
  apply (getModelName_safe (Scenario.config EmptyString)). reflexivity.
Defined.

(** ** The initial configuration of [useAIConfig] *)

Lemma mergeSaved_registered (JSON_parse : string -> option json)
      (saved : string) (merged : Ai.AIConfig) :
  Ai.mergeSaved JSON_parse saved = Ok merged ->
  NeversightModels.getNeversightModelById (Some (JStr (Ai.selectedModel merged)))
  <> None.
Proof.
  unfold Ai.mergeSaved, parseOrThrow.
  destruct (JSON_parse saved) as [raw|]; [|discriminate]. cbn [rbind].
  destruct (prop raw "apiKey") as [k|]; [|discriminate]. cbn [rbind].
  destruct (prop raw "selectedModel") as [m|]; [|discriminate]. cbn [rbind].
  destruct (prop raw "language") as [l|]; [|discriminate]. cbn [rbind].
  destruct (prop raw "superPrompt") as [sp|]; [|discriminate]. cbn [rbind].
  cbn [Ai.selectedModel].
  match goal with
  | |- context [NeversightModels.getNeversightModelById ?v] =>
      destruct (NeversightModels.getNeversightModelById v) eqn:E
  end; intros [= <-] H.
  - pose proof (eq_trans (eq_sym E) H). discriminate.
  - discriminate.
Qed.

(** What the merge gives for a stored value other than [null]. *)
Lemma mergeSaved_fields (JSON_parse : string -> option json)
      (saved : string) (raw : json) :
  JSON_parse saved = Some raw ->
  raw <> JNull ->
  exists merged,
    Ai.mergeSaved JSON_parse saved = Ok merged /\
    Ai.apiKey merged =
      match getProp raw "apiKey" with
      | Some (JStr k) => k
      | _ => EmptyString
      end /\
    Ai.language merged =
      match getProp raw "language" with
      | Some (JStr l) => l
      | _ => "english"
      end /\
    Ai.superPrompt merged =
      match getProp raw "superPrompt" with
      | Some (JBool b) => b
      | _ => true
      end /\
    Ai.selectedModel merged =
      let stored :=
        match getProp raw "selectedModel" with
        | Some (JStr m) => m
        | _ => Ai.firstModelId
        end in
      match NeversightModels.getNeversightModelById (Some (JStr stored)) with
      | Some _ => stored
      | None => Ai.firstModelId
      end.
Proof.
  intros Hparse Hn. unfold Ai.mergeSaved, parseOrThrow. rewrite Hparse.
  cbn [rbind]. rewrite !prop_nonnull by assumption. cbn [rbind].
  cbn [Ai.selectedModel Ai.apiKey Ai.language Ai.superPrompt Ai.defaultConfig].
  match goal with
  | |- context [NeversightModels.getNeversightModelById ?v] =>
      destruct (NeversightModels.getNeversightModelById v) eqn:E
  end; eexists; (split; [reflexivity|]); cbn; now rewrite ?E.
Qed.

(** X15. The initial configuration of the hook always selects a registered
    model, whatever the store holds.  It is the default configuration on the
    server, when nothing (or the empty string) is stored, and when the
    stored text does not parse or is the JSON [null]; otherwise each field
    is decided on its own: a stored [apiKey], [language] or [selectedModel]
    that is a string and a stored [superPrompt] that is a boolean are kept,
    a field that is missing or of another type takes its default, and a
    stored model that is not registered is replaced by the first model of
    the table. *)
Theorem initialConfig_model_registered
        (JSON_parse : string -> option json)
        (localStorage_getItem : string -> option string)
        (windowDefined : bool) :
  let initial := Ai.initialConfig JSON_parse localStorage_getItem windowDefined in
  NeversightModels.getNeversightModelById (Some (JStr (Ai.selectedModel initial)))
  <> None /\
  (windowDefined = false \/
   localStorage_getItem "ai_config" = None \/
   localStorage_getItem "ai_config" = Some EmptyString \/
   (exists saved, localStorage_getItem "ai_config" = Some saved /\
                  (JSON_parse saved = None \/ JSON_parse saved = Some JNull)) ->
   initial = Ai.defaultConfig) /\
  (forall saved raw,
     windowDefined = true ->
     localStorage_getItem "ai_config" = Some saved ->
     saved <> EmptyString ->
     JSON_parse saved = Some raw ->
     raw <> JNull ->
     (forall k, getProp raw "apiKey" = Some (JStr k) -> Ai.apiKey initial = k) /\
     ((forall k, getProp raw "apiKey" <> Some (JStr k)) ->
      Ai.apiKey initial = EmptyString) /\
     (forall l, getProp raw "language" = Some (JStr l) -> Ai.language initial = l) /\
     ((forall l, getProp raw "language" <> Some (JStr l)) ->
      Ai.language initial = "english") /\
     (forall b, getProp raw "superPrompt" = Some (JBool b) ->
                Ai.superPrompt initial = b) /\
     ((forall b, getProp raw "superPrompt" <> Some (JBool b)) ->
      Ai.superPrompt initial = true) /\
     (forall m,
        getProp raw "selectedModel" = Some (JStr m) ->
        (NeversightModels.getNeversightModelById (Some (JStr m)) <> None ->
         Ai.selectedModel initial = m) /\
        (NeversightModels.getNeversightModelById (Some (JStr m)) = None ->
         Ai.selectedModel initial = Ai.firstModelId)) /\
     ((forall m, getProp raw "selectedModel" <> Some (JStr m)) ->
      Ai.selectedModel initial = Ai.firstModelId)).
Proof.
  intros initial. subst initial. unfold Ai.initialConfig.
  split; [|split].
  - destruct windowDefined; cbn [negb]; [|discriminate].
    destruct (localStorage_getItem "ai_config") as [saved|]; [|discriminate].
    destruct (String.eqb saved EmptyString); [discriminate|].
    destruct (Ai.mergeSaved JSON_parse saved) as [merged|e] eqn:E; [|discriminate].
    now apply mergeSaved_registered with JSON_parse saved.
  - intros [->|[->|[->|(saved & -> & H)]]]; try reflexivity.
    + now destruct windowDefined.
    + now destruct windowDefined.
    + destruct windowDefined; [|reflexivity]. cbn [negb].
      destruct (String.eqb saved EmptyString); [reflexivity|].
      unfold Ai.mergeSaved, parseOrThrow. now destruct H as [-> | ->].
  - intros saved raw -> Hget Hne Hparse Hn. cbn [negb]. rewrite Hget.
    destruct (String.eqb_spec saved EmptyString); [contradiction|].
    destruct (mergeSaved_fields JSON_parse saved raw Hparse Hn)
      as (merged & -> & Hkey & Hlanguage & Hsuper & Hmodel).
    rewrite Hkey, Hlanguage, Hsuper, Hmodel. cbv zeta.
    split; [now intros k ->|].
    split.
    { intros H. destruct (getProp raw "apiKey") as [[| | |k| |]|];
        try reflexivity. now destruct (H k). }
    split; [now intros l ->|].
    split.
    { intros H. destruct (getProp raw "language") as [[| | |l| |]|];
        try reflexivity. now destruct (H l). }
    split; [now intros b ->|].
    split.
    { intros H. destruct (getProp raw "superPrompt") as [[|b| | | |]|];
        try reflexivity. now destruct (H b). }
    split.
    { intros m ->.
      destruct (NeversightModels.getNeversightModelById (Some (JStr m)));
        split; congruence. }
    intros H.
    destruct (getProp raw "selectedModel") as [[| | |m| |]|];
      try reflexivity.
    now destruct (H m).
Qed.

Lemma initialConfig_model_registered_witness :
  let store := Scenario.storage (Some (Scenario.savedConfig "sk-1" "openai/gpt-4")) in
  let keyOnly := Scenario.storage (Some (jsonText "{'apiKey':'sk-2','language':7}")) in
  Ai.apiKey (Ai.initialConfig parseJson store true) = "sk-1" /\
  Ai.selectedModel (Ai.initialConfig parseJson store true)
  = "anthropic/claude-4.5-opus" /\
  Ai.apiKey (Ai.initialConfig parseJson keyOnly true) = "sk-2" /\
  Ai.language (Ai.initialConfig parseJson keyOnly true) = "english" /\
  Ai.initialConfig parseJson (Scenario.storage (Some "not json")) true
  = Ai.defaultConfig.
Proof.
  intros store keyOnly.
  destruct (initialConfig_model_registered parseJson store true) as (_ & _ & Hkept).
  destruct (Hkept (Scenario.savedConfig "sk-1" "openai/gpt-4")
                  (JObj [("apiKey", JStr "sk-1");
                         ("selectedModel", JStr "openai/gpt-4");
                         ("language", JStr "english");
                         ("superPrompt", JBool true)]))
    as (Hk & _ & _ & _ & _ & _ & Hm & _); try reflexivity; try discriminate.
  destruct (initialConfig_model_registered parseJson keyOnly true)
    as (_ & _ & Hkept').
  destruct (Hkept' (jsonText "{'apiKey':'sk-2','language':7}")
                   (JObj [("apiKey", JStr "sk-2"); ("language", JNum (Finite 7))]))
    as (Hk' & _ & _ & Hl' & _); try reflexivity; try discriminate.
  split; [now apply Hk|]. split; [now apply (Hm "openai/gpt-4")|].
  split; [now apply Hk'|]. split; [apply Hl'; intros l; discriminate|].
  apply (initialConfig_model_registered parseJson
           (Scenario.storage (Some "not json")) true).
  right. right. right. exists "not json". split; [reflexivity|left; reflexivity].
Defined.

(** ** One request per analysis *)

Lemma requestCompletion_outcome
      (inference : list Ai.InferenceRequest -> Ai.InferenceRequest ->
                   result Ai.InferenceResponse)
      (prompt key modelId : string) (log : list Ai.InferenceRequest) :
  snd (Ai.requestCompletion inference key modelId prompt log) =
  match inference log (Ai.inferenceRequest key modelId prompt) with
  | Throw e => Throw e
  | Ok response =>
      if Ai.ok response then
        match Ai.body response with
        | Throw e => Throw e
        | Ok data =>
            match Ai.completionOf data with
            | Some (JStr content) =>
                if String.eqb content EmptyString
                then Throw Ai.malformedResponse else Ok content
            | _ => Throw Ai.malformedResponse
            end
        end
      else
        match Ai.text response with
        | Throw e => Throw e
        | Ok errorData =>
            Throw ("Neversight API request failed: "
                   ++ numberToString (Finite (Ai.status response)) ++ " "
                   ++ Ai.statusText response ++ ". Details: " ++ errorData)
        end
  end.
Proof.
  unfold Ai.requestCompletion, bind, fetchWith, lift, throw, ret.
  destruct (inference log _) as [response|e]; [|reflexivity].
  destruct (Ai.ok response); cbn.
  - destruct (Ai.body response) as [data|e]; [|reflexivity].
    destruct (Ai.completionOf data) as [[| | |content| |]|]; try reflexivity.
    now destruct (String.eqb content EmptyString).
  - now destruct (Ai.text response).
Qed.

(** X16. An analysis issues at most one inference request, and none is
    repeated: with a configuration that passes the checks it issues exactly
    one, whatever the endpoint does.  The [Error] of a rejected fetch and
    of a body that does not decode is thrown again as it is (a rejection
    with a value that is no [Error] is outside the model); a response that
    is not accepted is thrown as the request failure that names its status,
    its status text and its body. *)
Theorem analyzeWithAI_single_request
        (JSON_parse : string -> option json)
        (localStorage_getItem : string -> option string)
        (inference : list Ai.InferenceRequest -> Ai.InferenceRequest ->
                     result Ai.InferenceResponse)
        (prompt : string) (log : list Ai.InferenceRequest) :
  let analyze := Ai.analyzeWithAI JSON_parse localStorage_getItem inference prompt in
  (exists new, fst (analyze log) = (log ++ new)%list /\ List.length new <= 1) /\
  (forall model key,
     Ai.configured JSON_parse localStorage_getItem model key ->
     let request := Ai.inferenceRequest key (NeversightModels.id model) prompt in
     fst (analyze log) = (log ++ [request])%list /\
     (forall e, inference log request = Throw e -> snd (analyze log) = Throw e) /\
     (forall response errorData,
        inference log request = Ok response ->
        Ai.ok response = false ->
        Ai.text response = Ok errorData ->
        snd (analyze log) =
        Throw ("Neversight API request failed: "
               ++ numberToString (Finite (Ai.status response)) ++ " "
               ++ Ai.statusText response ++ ". Details: " ++ errorData)) /\
     (forall response e,
        inference log request = Ok response ->
        Ai.ok response = true ->
        Ai.body response = Throw e ->
        snd (analyze log) = Throw e)).
Proof.
  intros analyze. subst analyze. split.
  - destruct (analyzeWithAI_cases JSON_parse localStorage_getItem inference prompt log)
      as [(e & H)|(model & key & Hc)].
    + exists []. rewrite H, app_nil_r. split; [reflexivity|cbn; lia].
    + exists [Ai.inferenceRequest key (NeversightModels.id model) prompt].
      rewrite (analyzeWithAI_configured _ _ _ _ _ _ _ Hc), requestCompletion_log.
      split; [reflexivity|cbn; lia].
  - intros model key Hc request.
    rewrite (analyzeWithAI_configured _ _ _ _ _ _ _ Hc).
    rewrite requestCompletion_log, requestCompletion_outcome. fold request.
    split; [reflexivity|]. split; [|split].
    + now intros e ->.
    + now intros response errorData -> -> ->.
    + now intros response e -> -> ->.
Qed.

Lemma analyzeWithAI_single_request_witness :
  let store := Scenario.storage (Some (Scenario.savedConfig "sk-live" Scenario.gpt)) in
  let unavailable :=
    {| Ai.ok := false; Ai.status := 503; Ai.statusText := "Service Unavailable";
       Ai.text := Ok "overloaded"; Ai.body := Throw "SyntaxError" |} in
  Ai.analyzeWithAI parseJson store (Scenario.endpoint unavailable) "audit" [] =
  ([Ai.inferenceRequest "sk-live" Scenario.gpt "audit"],
   Throw "Neversight API request failed: 503 Service Unavailable. Details: overloaded").
Proof.
  intros store unavailable.
  pose (model := {| NeversightModels.id := "openai/gpt-5.2";
                    NeversightModels.name := "GPT-5.2";
                    NeversightModels.description := Some "OpenAI GPT-5.2" |}).
  assert (Ai.configured parseJson store model "sk-live") as Hc.
  { exists (Scenario.savedConfig "sk-live" Scenario.gpt).
    eexists. exists "sk-live".
    repeat split; try reflexivity; discriminate. }
  destruct (proj2 (analyzeWithAI_single_request parseJson store
                     (Scenario.endpoint unavailable) "audit" [])
                  model "sk-live" Hc) as (Hlog & _ & Hfail & _).
  specialize (Hfail unavailable "overloaded" eq_refl eq_refl eq_refl).
  destruct (Ai.analyzeWithAI parseJson store (Scenario.endpoint unavailable)
                             "audit" []) as [l r].
  cbn [fst snd] in Hlog, Hfail. now rewrite Hlog, Hfail.
Defined.

(* ===================================================================== *)
(** * Further failures of the source request *)
(* ===================================================================== *)

(** X17. When the fetch of the source fails (the first fetch, or the fetch
    of the v2 attempt), and when the first result item of a successful
    answer has no string as [SourceCode], the response is the internal error
    and nothing more is requested. *)
Theorem GET_source_failure
        (JSON_parse : string -> option json)
        (explorer : list Request -> Request -> result json)
        (getApiScanConfig : string -> result (string * option string))
        (getChainId : string -> result (option string))
        (a c url : string) (apiKey cid : option string)
        (log : list Request) :
  a <> EmptyString -> c <> EmptyString ->
  getApiScanConfig c = Ok (url, apiKey) ->
  getChainId c = Ok cid ->
  (forall l e,
     fetchExplorer explorer url (chainIdOrEmpty cid)
       (contractParams "getsourcecode" a (effectiveApiKey apiKey)) log
     = (l, Throw e) ->
     GET JSON_parse explorer getApiScanConfig getChainId (Some a) (Some c) log
     = (l, Ok InternalError)) /\
  (forall l data req item,
     fetchExplorer explorer url (chainIdOrEmpty cid)
       (contractParams "getsourcecode" a (effectiveApiKey apiKey)) log
     = (l, Ok (data, req)) ->
     getProp data "status" = Some (JStr "1") ->
     getFirstSourceItem data = Some item ->
     (forall s, getProp item "SourceCode" <> Some (JStr s)) ->
     GET JSON_parse explorer getApiScanConfig getChainId (Some a) (Some c) log
     = (l, Ok InternalError)).
Proof.
  intros Ha Hc Hurl Hid. split.
  - intros l e H.
    now apply (GET_source_fetch_error JSON_parse explorer getApiScanConfig
                 getChainId a c url apiKey cid log Ha Hc Hurl Hid l e).
  - intros l data req item Hfetch Hstatus Hitem Hsc.
    apply (GET_source_not_string JSON_parse explorer getApiScanConfig getChainId
             a c url apiKey cid data req log l Ha Hc Hurl Hid Hfetch item);
      [|exact Hsc].
    unfold successItem. rewrite prop_nonnull by (intros ->; discriminate).
    cbn [rbind]. now rewrite Hstatus, Hitem.
Qed.

Lemma GET_source_failure_witness :
  let table :=
    [("getsourcecode", Scenario.contractAddress,
      Scenario.success (JArr [JObj [("ContractName", JStr "Foo")]]))] in
  Scenario.run [] Scenario.contractAddress =
  ([ {| baseUrl := Scenario.etherscan;
        query := Scenario.sourceRequest Scenario.contractAddress |} ],
   Ok InternalError) /\
  Scenario.run table Scenario.contractAddress =
  ([ {| baseUrl := Scenario.etherscan;
        query := Scenario.sourceRequest Scenario.contractAddress |} ],
   Ok InternalError).
Proof.
  intros table. split.
  - eapply (proj1 (GET_source_failure parseJson (Scenario.explorerOf [])
                     (fun _ => Ok (Scenario.etherscan, None)) (fun _ => Ok (Some "1"))
                     Scenario.contractAddress "ethereum" Scenario.etherscan None
                     (Some "1") [] _ _ eq_refl eq_refl)).
    reflexivity.
  - eapply (proj2 (GET_source_failure parseJson (Scenario.explorerOf table)
                     (fun _ => Ok (Scenario.etherscan, None)) (fun _ => Ok (Some "1"))
                     Scenario.contractAddress "ethereum" Scenario.etherscan None
                     (Some "1") [] _ _ eq_refl eq_refl));
      try reflexivity.
    intros s. discriminate.
  Unshelve. all: discriminate.
Defined.

Lemma firstRequest_bind {R A B : Type} (P : R -> Prop) (m : M R A)
      (k : A -> M R B) (r : R) (log : list R) :
  (exists rest, fst (m log) = (log ++ r :: rest)%list) ->
  (forall a, issuesOnly P (k a)) ->
  exists rest, fst (bind m k log) = (log ++ r :: rest)%list.
Proof.
  intros [rest E] Hk. unfold bind.
  destruct (m log) as [l [a|e]]; cbn [fst] in E; subst l.
  - destruct (Hk a (log ++ r :: rest)%list) as (new & E' & _).
    exists (rest ++ new)%list. rewrite E', <- app_assoc. reflexivity.
  - now exists rest.
Qed.

Lemma firstRequest_tryCatch {R A : Type} (m : M R A) (a : A) (r : R)
      (log : list R) :
  (exists rest, fst (m log) = (log ++ r :: rest)%list) ->
  exists rest, fst (tryCatch m (fun _ => ret a) log) = (log ++ r :: rest)%list.
Proof.
  intros [rest E]. unfold tryCatch.
  destruct (m log) as [l [x|e]]; cbn [fst] in E; subst l; now exists rest.
Qed.

(** X18. Whenever the registry knows the chain, the first request of the
    handler is the v1 request for the source of the address, with the
    effective API key and without [chainid]. *)
Theorem GET_first_request
        (JSON_parse : string -> option json)
        (explorer : list Request -> Request -> result json)
        (getApiScanConfig : string -> result (string * option string))
        (getChainId : string -> result (option string))
        (a c url : string) (apiKey cid : option string)
        (log : list Request) :
  a <> EmptyString -> c <> EmptyString ->
  getApiScanConfig c = Ok (url, apiKey) ->
  getChainId c = Ok cid ->
  exists rest,
    fst (GET JSON_parse explorer getApiScanConfig getChainId (Some a) (Some c) log)
    = (log ++ {| baseUrl := url;
                 query := [("module", "contract"); ("action", "getsourcecode");
                           ("address", a); ("apikey", effectiveApiKey apiKey)] |}
           :: rest)%list.
Proof.
  intros Ha Hc Hurl Hid. unfold GET.
  destruct (String.eqb_spec a EmptyString); [contradiction|].
  destruct (String.eqb_spec c EmptyString); [contradiction|].
  cbn [orb]. apply firstRequest_tryCatch. unfold resolve.
  unfold bind at 1. unfold lift at 1. rewrite Hurl.
  unfold bind at 1. unfold lift at 1. rewrite Hid.
  apply (firstRequest_bind (carriesApiKey (effectiveApiKey apiKey))).
  - apply (fetchExplorer_first_request explorer url (chainIdOrEmpty cid)
             (contractParams "getsourcecode" a (effectiveApiKey apiKey)) log).
  - intros [data apiUrl].
    apply issuesOnly_bind; [apply issuesOnly_lift|].
    intros [item|]; [|apply issuesOnly_ret].
    destruct (strictEqStr (getProp item "SourceCode") EmptyString);
      [apply issuesOnly_ret|].
    apply issuesOnly_bind; [apply issuesOnly_lift|]. intros sc.
    apply issuesOnly_bind; [apply issuesOnly_lift|]. intros settings.
    apply issuesOnly_bind; [apply issuesOnly_resolveFiles|]. intros filteredFiles.
    apply issuesOnly_bind; [apply issuesOnly_resolveAbis|]. intros abis.
    apply issuesOnly_bind; [apply issuesOnly_lift|].
    intros; apply issuesOnly_ret.
Qed.

Lemma GET_first_request_witness :
  exists rest,
    fst (GET parseJson Scenario.deprecatedExplorer
           (fun _ => Ok (Scenario.etherscan, None)) (fun _ => Ok (Some "1"))
           (Some Scenario.contractAddress) (Some "ethereum") [])
    = {| baseUrl := Scenario.etherscan;
         query := [("module", "contract"); ("action", "getsourcecode");
                   ("address", Scenario.contractAddress);
                   ("apikey", placeholderApiKey)] |} :: rest.
Proof.
  apply (GET_first_request parseJson Scenario.deprecatedExplorer
           (fun _ => Ok (Scenario.etherscan, None)) (fun _ => Ok (Some "1"))
           Scenario.contractAddress "ethereum" Scenario.etherscan None (Some "1") []);
    first [discriminate | reflexivity].
Defined.

(* ===================================================================== *)
(** * Fields of the result item that do not convert to a string *)
(* ===================================================================== *)

Lemma resolveSettings_unconvertible_name
      (JSON_parse : string -> option json) (item : json) (sc e : string) :
  startsWith sc "{" = false \/ JSON_parse (unwrapBraces sc) = None \/
  JSON_parse (unwrapBraces sc) = Some JNull ->
  js_StringOpt (getProp item "ContractName") = Throw e ->
  resolveSettings JSON_parse item sc = Throw e.
Proof.
  intros Hcase Hname. unfold resolveSettings.
  rewrite (normalizeSource_fallback _ _ _ Hcase).
  now rewrite (singleFile_throws _ _ _ _ Hname).
Qed.

Lemma resolveSettings_unconvertible_runs
      (JSON_parse : string -> option json) (item : json) (sc e : string) :
  startsWith sc "{" = false \/ JSON_parse (unwrapBraces sc) = None \/
  (exists parsed, JSON_parse (unwrapBraces sc) = Some parsed /\
                  truthyOpt (getProp parsed "settings") = false) ->
  js_StringOpt (getProp item "Runs") = Throw e ->
  exists e', resolveSettings JSON_parse item sc = Throw e'.
Proof.
  intros Hcase Hruns.
  assert (defaultSettings item = Throw e) as Hdefault.
  { unfold defaultSettings, defaultRuns. now rewrite Hruns. }
  unfold resolveSettings.
  destruct (source_cases JSON_parse sc) as [H|(parsed & Hs & Hp & Hn)].
  - rewrite (normalizeSource_fallback _ _ _ H).
    destruct (singleFile EmptyString item sc) as [file|e']; cbn [rbind snd].
    + now exists e.
    + now exists e'.
  - rewrite (normalizeSource_parsed _ _ _ _ Hs Hp Hn). cbn [rbind snd].
    destruct Hcase as [Hc|[Hc|(parsed' & Hp' & Hf)]]; try congruence.
    rewrite Hp in Hp'. injection Hp' as <-. rewrite Hf. now exists e.
Qed.

(** X19. The handler converts [ContractName] to a string only for the
    single file, and [Runs] only for the default settings.  When the source
    is a single file or does not parse and [ContractName] does not convert,
    and when the default settings are needed and [Runs] does not convert,
    the response is the internal error and nothing is requested after the
    source.  An object with a [toString] property of its own does not
    convert.  A packed source that parses and carries truthy settings needs
    neither conversion: its settings and its files are computed whatever
    the two fields hold. *)
Theorem GET_unconvertible_item
        (JSON_parse : string -> option json)
        (explorer : list Request -> Request -> result json)
        (getApiScanConfig : string -> result (string * option string))
        (getChainId : string -> result (option string))
        (a c url : string) (apiKey cid : option string)
        (data : json) (req : Request) (item : json) (sc : string)
        (log l1 : list Request) :
  a <> EmptyString -> c <> EmptyString ->
  getApiScanConfig c = Ok (url, apiKey) ->
  getChainId c = Ok cid ->
  fetchExplorer explorer url (chainIdOrEmpty cid)
    (contractParams "getsourcecode" a (effectiveApiKey apiKey)) log
  = (l1, Ok (data, req)) ->
  successItem data = Ok (Some item) ->
  getProp item "SourceCode" = Some (JStr sc) ->
  sc <> EmptyString ->
  (forall e,
     startsWith sc "{" = false \/ JSON_parse (unwrapBraces sc) = None \/
     JSON_parse (unwrapBraces sc) = Some JNull ->
     js_StringOpt (getProp item "ContractName") = Throw e ->
     GET JSON_parse explorer getApiScanConfig getChainId (Some a) (Some c) log
     = (l1, Ok InternalError)) /\
  (forall e,
     startsWith sc "{" = false \/ JSON_parse (unwrapBraces sc) = None \/
     (exists parsed, JSON_parse (unwrapBraces sc) = Some parsed /\
                     truthyOpt (getProp parsed "settings") = false) ->
     js_StringOpt (getProp item "Runs") = Throw e ->
     GET JSON_parse explorer getApiScanConfig getChainId (Some a) (Some c) log
     = (l1, Ok InternalError)) /\
  (forall field fields v,
     getProp item field = Some (JObj fields) ->
     lookup "toString" fields = Some v ->
     js_StringOpt (getProp item field) = Throw "TypeError") /\
  (forall parsed v,
     startsWith sc "{" = true ->
     JSON_parse (unwrapBraces sc) = Some parsed ->
     getProp parsed "settings" = Some v ->
     truthy v = true ->
     resolveSettings JSON_parse item sc = Ok v /\
     plainFiles JSON_parse item sc =
     Ok (map (fileOfEntry EmptyString) (sourcesEntries parsed))).
Proof.
  intros Ha Hc Hurl Hid Hfetch Hitem Hsc Hne.
  pose proof (GET_settings_throw JSON_parse explorer getApiScanConfig getChainId
                a c url apiKey cid data req item sc log l1
                Ha Hc Hurl Hid Hfetch Hitem Hsc Hne) as Hthrow.
  split; [|split; [|split]].
  - intros e Hcase Hname. apply (Hthrow e).
    now apply resolveSettings_unconvertible_name.
  - intros e Hcase Hruns.
    destruct (resolveSettings_unconvertible_runs JSON_parse item sc e Hcase Hruns)
      as [e' He'].
    now apply (Hthrow e').
  - intros field fields v Hfield Hv. rewrite Hfield. cbn. now rewrite Hv.
  - intros parsed v Hs Hp Hv Ht. split.
    + now apply resolveSettings_parsed with parsed.
    + rewrite plainFiles_shape. apply roleFiles_parsed; [exact Hs|exact Hp|].
      intros ->. discriminate.
Qed.

Lemma GET_unconvertible_item_witness :
  let item field :=
    JObj [("SourceCode", JStr "contract Foo {}");
          ("ContractName",
           if String.eqb field "ContractName" then Scenario.unconvertible
           else JStr "Foo");
          ("Runs",
           if String.eqb field "Runs" then Scenario.unconvertible else JStr "200")] in
  let table field :=
    [("getsourcecode", Scenario.contractAddress,
      Scenario.success (JArr [item field]));
     ("getabi", Scenario.contractAddress, Scenario.emptyAbi)] in
  let sourceRequest :=
    {| baseUrl := Scenario.etherscan;
       query := Scenario.sourceRequest Scenario.contractAddress |} in
  Scenario.run (table "ContractName") Scenario.contractAddress =
  ([sourceRequest], Ok InternalError) /\
  Scenario.run (table "Runs") Scenario.contractAddress =
  ([sourceRequest], Ok InternalError) /\
  exists bundle log,
    Scenario.run (table "none") Scenario.contractAddress
    = (log, Ok (Resolved bundle)).
Proof.
  intros item table sourceRequest. split; [|split].
  - edestruct (GET_unconvertible_item parseJson
                 (Scenario.explorerOf (table "ContractName"))
                 (fun _ => Ok (Scenario.etherscan, None)) (fun _ => Ok (Some "1"))
                 Scenario.contractAddress "ethereum" Scenario.etherscan None
                 (Some "1") (Scenario.success (JArr [item "ContractName"]))
                 sourceRequest (item "ContractName") "contract Foo {}"
                 [] [sourceRequest])
      as (Hname & _);
      [discriminate | discriminate | reflexivity | reflexivity | reflexivity
      | reflexivity | reflexivity | discriminate | ].
    apply (Hname "TypeError"); [left; reflexivity|reflexivity].
  - edestruct (GET_unconvertible_item parseJson
                 (Scenario.explorerOf (table "Runs"))
                 (fun _ => Ok (Scenario.etherscan, None)) (fun _ => Ok (Some "1"))
                 Scenario.contractAddress "ethereum" Scenario.etherscan None
                 (Some "1") (Scenario.success (JArr [item "Runs"]))
                 sourceRequest (item "Runs") "contract Foo {}"
                 [] [sourceRequest])
      as (_ & Hruns & _);
      [discriminate | discriminate | reflexivity | reflexivity | reflexivity
      | reflexivity | reflexivity | discriminate | ].
    apply (Hruns "TypeError"); [left; reflexivity|reflexivity].
  - do 2 eexists. reflexivity.
Defined.
